(** * DistilBERT checkpoint conversion: a shallow embedding

    Source: [tools/checkpoint_conversion/convert_distilbert_checkpoints.py].

    The script downloads a configuration and a vocabulary, builds the
    tokenizers, copies the weights of a Hugging Face DistilBERT model into a
    KerasHub backbone and prints a numerical comparison.  Its own code is
    embedded below as functions of an error-and-state monad over a small
    world (files, directories, an event trace).  The machine-learning and
    network libraries it calls are gathered in a record of oracles, [Env]. *)

From stdpp Require Import gmap strings list fin_maps pretty.
From Stdlib Require Import ZArith Lia.
From Stdlib.Strings Require Import Byte Ascii.

Open Scope string_scope.
Open Scope Z_scope.
Open Scope list_scope.

(* ===================================================================== *)
(** ** Python values, exceptions and results *)
(* ===================================================================== *)

Definition bytes := list Byte.byte.

(** The exceptions that the script and the modelled library calls raise. *)
Inductive exn :=
| KeyError (key : string)
| ValueError (msg : string)
| AttributeError (name : string)
| IndexError (msg : string)
| TypeError (msg : string)
| RuntimeError (msg : string)
| FileNotFoundError (path : string)
| FileExistsError (path : string)
| NotADirectoryError (path : string)
| IsADirectoryError (path : string)
| ConnectionError (url : string)
| JSONDecodeError (msg : string)
| LibraryError (msg : string).

Inductive result (A : Type) :=
| Ok (a : A)
| Raise (e : exn).
Arguments Ok {A} a.
Arguments Raise {A} e.

(** JSON values as Python objects, as far as the script looks at them. *)
Inductive pyval :=
| PyInt (z : Z)
| PyFloat (repr : string)
| PyStr (s : string)
| PyBool (b : bool)
| PyNone.

(** A Python [dict] whose key order is observable: lookup takes the first
    binding of the key. *)
Fixpoint dict_get {V : Type} (d : list (string * V)) (k : string) : option V :=
  match d with
  | [] => None
  | (k', v) :: d' => if decide (k' = k) then Some v else dict_get d' k
  end.

Definition dict_keys {V : Type} (d : list (string * V)) : list string := d.*1.

(** [d[k]]: a missing key raises [KeyError]. *)
Definition dict_item {V : Type} (d : list (string * V)) (k : string) : result V :=
  match dict_get d k with
  | Some v => Ok v
  | None => Raise (KeyError k)
  end.

(* ===================================================================== *)
(** ** Strings and paths *)
(* ===================================================================== *)

(** [sep.join(l)]. *)
Fixpoint str_join (sep : string) (l : list string) : string :=
  match l with
  | [] => ""
  | [s] => s
  | s :: l' => s +:+ sep +:+ str_join sep l'
  end.

(** [s.endswith(suffix)]. *)
Fixpoint str_endswith (s suffix : string) : bool :=
  bool_decide (s = suffix) ||
  match s with
  | "" => false
  | String _ s' => str_endswith s' suffix
  end.

Definition slash : ascii := "/"%char.

Fixpoint ends_with_slash (s : string) : bool :=
  match s with
  | "" => false
  | String c "" => bool_decide (c = slash)
  | String _ s' => ends_with_slash s'
  end.

(** [os.path.join(a, b)] of [posixpath], for two arguments. *)
Definition os_path_join (a b : string) : string :=
  if String.prefix "/" b then b
  else if bool_decide (a = "") || ends_with_slash a then a +:+ b
  else a +:+ "/" +:+ b.

(** [s.replace(old, new)] for a non-empty [old]: occurrences are replaced
    from the left and do not overlap.  [skip] counts the characters of an
    occurrence that are still to be dropped. *)
Fixpoint str_replace_from (old new : string) (skip : nat) (s : string) : string :=
  match s with
  | "" => ""
  | String c s' =>
      match skip with
      | S k => str_replace_from old new k s'
      | O =>
          if String.prefix old s
          then new +:+ str_replace_from old new (String.length old - 1) s'
          else String c (str_replace_from old new O s')
      end
  end.

Definition str_replace (old new s : string) : string :=
  str_replace_from old new O s.

(** [repr] of a string without quotes or escapes in it. *)
Definition py_repr_str (s : string) : string := "'" +:+ s +:+ "'".

(** The path under which the operating system finds a relative path: a
    leading [./] names the working directory itself.  The script builds no
    path with [..], a doubled slash or an inner [.] component. *)
Fixpoint normpath (s : string) : string :=
  match s with
  | String "." (String "/" s') => normpath s'
  | _ => s
  end.

(** The proper prefixes of a string that end before a separator, shortest
    first: with a slash, [a/b/c] has [a] and [a/b]. *)
Fixpoint prefixes_before (sep : ascii) (acc s : string) : list string :=
  match s with
  | "" => []
  | String c s' =>
      if bool_decide (c = sep)
      then (if bool_decide (acc = "") then [] else [acc])
             ++ prefixes_before sep (acc +:+ String sep "") s'
      else prefixes_before sep (acc +:+ String c "") s'
  end.

Definition dir_prefixes (p : string) : list string := prefixes_before slash "" p.

(** The directory a path lies in; the empty string is the working
    directory. *)
Definition parent_dir (p : string) : string :=
  default "" (last (dir_prefixes p)).

(* ===================================================================== *)
(** ** Tensors *)
(* ===================================================================== *)

Section Tensors.
Context {elt : Type}.

(** A tensor is its shape and its elements in row-major (logical) order;
    [torch] tensors and [numpy] arrays are both seen this way. *)
Record tensor := Tensor { shape : list nat; data : list elt }.

Definition numel (s : list nat) : nat := foldr Nat.mul 1%nat s.

Definition tensor_wf (t : tensor) : Prop :=
  length (data t) = numel (shape t).

(** The [k]-th block of [b] consecutive elements. *)
Definition block (b k : nat) (l : list elt) : list elt :=
  take b (drop (k * b) l).

(** [t.transpose(1, 0)]: the first two dimensions are exchanged; a tensor
    of fewer than two dimensions has no dimension 1. *)
Definition transpose_1_0 (t : tensor) : result tensor :=
  match shape t with
  | r :: c :: rest =>
      let b := numel rest in
      Ok (Tensor (c :: r :: rest)
            (concat (map (fun j =>
               concat (map (fun i => block b (i * c + j) (data t)) (seq 0 r)))
               (seq 0 c))))
  | _ => Raise (IndexError "Dimension out of range")
  end.

(** The size inference of [torch]'s [reshape]: the dimensions are read
    from the left; [-1] marks the one dimension to infer, every other
    dimension must be non-negative.  The result is the position-wise
    product of the given dimensions and whether a [-1] was met. *)
Fixpoint infer_size_scan (spec : list Z) (infer : bool) (newsize : Z)
  : result (bool * Z) :=
  match spec with
  | [] => Ok (infer, newsize)
  | d :: spec' =>
      if d =? -1 then
        if infer then Raise (RuntimeError "only one dimension can be inferred")
        else infer_size_scan spec' true newsize
      else if 0 <=? d then infer_size_scan spec' infer (newsize * d)
      else Raise (RuntimeError "invalid shape dimension")
  end.

Definition infer_size (spec : list Z) (n : Z) : result (list nat) :=
  match infer_size_scan spec false 1 with
  | Raise e => Raise e
  | Ok (infer, newsize) =>
      if (n =? newsize) || (infer && (0 <? newsize) && (n mod newsize =? 0)) then
        if infer then
          if newsize =? 0
          then Raise (RuntimeError "cannot reshape tensor of 0 elements: the unspecified dimension is ambiguous")
          else Ok (map (fun d => if d =? -1 then Z.to_nat (n / newsize)
                                 else Z.to_nat d) spec)
        else Ok (map Z.to_nat spec)
      else Raise (RuntimeError "shape is invalid for input size")
  end.

(** [t.reshape(spec)]: the elements keep their logical order. *)
Definition reshape (t : tensor) (spec : list Z) : result tensor :=
  match infer_size spec (Z.of_nat (numel (shape t))) with
  | Ok s => Ok (Tensor s (data t))
  | Raise e => Raise e
  end.

(** [t.numpy()] keeps shape and elements. *)
Definition numpy (t : tensor) : tensor := t.

(** Indexing with in-range, non-negative indices. *)
Definition get1 (t : tensor) (i : nat) : option elt :=
  match shape t with
  | [n] => if decide (i < n)%nat then data t !! i else None
  | _ => None
  end.

Definition get2 (t : tensor) (i j : nat) : option elt :=
  match shape t with
  | [r; c] =>
      if decide (i < r ∧ j < c)%nat then data t !! (i * c + j)%nat else None
  | _ => None
  end.

Definition get3 (t : tensor) (i j k : nat) : option elt :=
  match shape t with
  | [a; b; c] =>
      if decide (i < a ∧ j < b ∧ k < c)%nat
      then data t !! ((i * b + j) * c + k)%nat else None
  | _ => None
  end.

(** [t[0, 0, :10]]: the first ten entries along the third dimension at
    position [0, 0]. *)
Definition slice_0_0_10 (t : tensor) : result tensor :=
  match shape t with
  | a :: b :: c :: rest =>
      if decide (0 < a ∧ 0 < b)%nat
      then Ok (Tensor (Nat.min 10 c :: rest)
                 (take (Nat.min 10 c * numel rest) (data t)))
      else Raise (IndexError "index 0 is out of bounds")
  | _ => Raise (IndexError "too many indices")
  end.
End Tensors.
Arguments tensor elt : clear implicits.

(* ===================================================================== *)
(** ** The world of the script: files, directories, events *)
(* ===================================================================== *)

(** How a run ends: normally, with the traceback of an uncaught exception,
    or stopped by the flag parser before [main] is entered (a usage
    error, or the help text). *)
Inductive exit_status :=
| ExitSuccess
| ExitTraceback (e : exn)
| ExitUsage (msg : string).

(** What [requests.get(url)] sends: the method, the URL, the headers and the
    credentials given by the caller. *)
Record request := Request {
  rq_method : string;
  rq_url : string;
  rq_headers : list (string * string);
  rq_auth : option (string * string)
}.

Section World.
Context {elt : Type}.

(** The arguments of a [print]. *)
Inductive printable :=
| PStr (s : string)
| PCfg (cfg : list (string * pyval))
| PTensor (t : tensor elt)
| PScalar (x : elt).

(** What a run does that can be seen from outside, in order. *)
Inductive event :=
| EvCall (function : string)
| EvPrint (args : list printable)
| EvHttp (rq : request)
| EvMakedirs (path : string)
| EvWrite (path : string) (content : bytes)
| EvLibrary (call : string) (args : list string)
| EvAssign (layer attr : string) (value : tensor elt).

(** Files and directories are kept under their normalised paths, relative
    to the working directory. *)
Record world := World {
  files : gmap string bytes;
  dirs : gset string;
  trace : list event
}.

(** A computation changes the world and returns or raises; the changes
    made before an exception stay. *)
Definition M (A : Type) : Type := world → world * result A.

Definition ret {A} (a : A) : M A := fun w => (w, Ok a).

Definition bind {A B} (m : M A) (f : A → M B) : M B :=
  fun w =>
    match m w with
    | (w', Ok a) => f a w'
    | (w', Raise e) => (w', Raise e)
    end.

Definition lift {A} (r : result A) : M A := fun w => (w, r).

Definition emit (ev : event) : M unit :=
  fun w => (World (files w) (dirs w) (trace w ++ [ev]), Ok tt).

Definition print (args : list printable) : M unit := emit (EvPrint args).

(** Sequencing of pure fallible steps. *)
Definition rbind {A B} (r : result A) (f : A → result B) : result B :=
  match r with
  | Ok a => f a
  | Raise e => Raise e
  end.

(** *** The file system *)

Definition is_cwd (q : string) : bool :=
  bool_decide (q = "") || bool_decide (q = ".").

Definition path_exists (w : world) (p : string) : bool :=
  let q := normpath p in
  is_cwd q || bool_decide (q ∈ dirs w) || bool_decide (is_Some (files w !! q)).

(** [os.path.exists(p)]. *)
Definition os_path_exists (p : string) : M bool :=
  fun w => (w, Ok (path_exists w p)).

(** [os.makedirs(p)]: the directory and its missing parents are made; an
    existing path is an error, and so is a parent that is a file. *)
Definition os_makedirs (p : string) : M unit :=
  fun w =>
    let q := normpath p in
    if path_exists w p then (w, Raise (FileExistsError p))
    else if bool_decide (Exists (fun d => is_Some (files w !! d)) (dir_prefixes q))
    then (w, Raise (NotADirectoryError p))
    else (World (files w)
            (dirs w ∪ {[q]} ∪ list_to_set (dir_prefixes q))
            (trace w ++ [EvMakedirs p]), Ok tt).

(** [open(p, "wb").write(content)]: the file is created or replaced; its
    directory has to exist. *)
Definition write_file (p : string) (content : bytes) : M unit :=
  fun w =>
    let q := normpath p in
    let d := parent_dir q in
    if is_cwd q || bool_decide (q ∈ dirs w) then (w, Raise (IsADirectoryError p))
    else if bool_decide (d = "") || bool_decide (d ∈ dirs w)
    then (World (<[q := content]> (files w)) (dirs w)
            (trace w ++ [EvWrite p content]), Ok tt)
    else if bool_decide (is_Some (files w !! d))
    then (w, Raise (NotADirectoryError p))
    else (w, Raise (FileNotFoundError p)).

(** Reading a whole file. *)
Definition read_file (p : string) : M bytes :=
  fun w =>
    let q := normpath p in
    match files w !! q with
    | Some c => (w, Ok c)
    | None =>
        if is_cwd q || bool_decide (q ∈ dirs w)
        then (w, Raise (IsADirectoryError p))
        else (w, Raise (FileNotFoundError p))
    end.

(** *** The two models *)

(** A KerasHub model: its layers by name, each with its weight variables
    by attribute path; a variable is its current value. *)
Record keras_model := KerasModel {
  num_layers : Z;
  layers : gmap string (gmap string (tensor elt))
}.

(** A Hugging Face model: its state dictionary and its mode. *)
Record hf_model := HFModel {
  state_dict : list (string * tensor elt);
  training : bool
}.

(** [model.get_layer(name)]. *)
Definition get_layer (km : keras_model) (name : string)
  : result (gmap string (tensor elt)) :=
  match layers km !! name with
  | Some l => Ok l
  | None => Raise (ValueError ("No such layer: " +:+ name))
  end.

(** The attribute path from a layer to one of its variables. *)
Definition get_variable (l : gmap string (tensor elt)) (attr : string)
  : result (tensor elt) :=
  match l !! attr with
  | Some v => Ok v
  | None => Raise (AttributeError attr)
  end.

(** [variable.assign(value)]: the shapes have to agree. *)
Definition variable_assign (var value : tensor elt) : result (tensor elt) :=
  if decide (shape var = shape value) then Ok value
  else Raise (ValueError "The shape of the target variable and the shape of the target value in `variable.assign(value)` must match.").

(** [hf_model.eval()]. *)
Definition hf_eval (m : hf_model) : hf_model := HFModel (state_dict m) false.

(** *** The libraries *)

(** The library calls of the script whose results the script only passes
    on.  Each may raise.  A call is known by its answer only: what a
    library does on its own behalf while it answers (the requests that the
    loaders of [transformers] and [keras_hub] send to their hubs, the files
    they keep in their caches) is not part of the world, which holds the
    working directory and what the statements of the script do. *)
Record Env := {
  KerasTokenizer : Type;
  KerasPreprocessor : Type;
  HFTokenizer : Type;
  KerasInputs : Type;
  HFInputs : Type;
  (** [requests.get(...).content] *)
  requests_get : request → result bytes;
  (** [json.load] on the content of a file *)
  json_loads : bytes → result (list (string * pyval));
  (** [hashlib.md5(...).hexdigest()] *)
  md5_hexdigest : bytes → string;
  (** [keras_hub.models.DistilBertTokenizer(vocabulary=...)], given the
      content of the vocabulary file *)
  distilbert_tokenizer : bytes → result KerasTokenizer;
  (** [keras_hub.models.DistilBertTextClassifierPreprocessor(tokenizer)] *)
  distilbert_preprocessor : KerasTokenizer → result KerasPreprocessor;
  (** [transformers.AutoTokenizer.from_pretrained(name)] *)
  auto_tokenizer_from_pretrained : string → result HFTokenizer;
  (** [keras_hub.models.DistilBertBackbone.from_preset(preset, load_weights=...)] *)
  backbone_from_preset : string → bool → result keras_model;
  (** [transformers.AutoModel.from_pretrained(name)] *)
  auto_model_from_pretrained : string → result hf_model;
  (** the bytes that [model.save_weights(path)] writes *)
  save_weights_bytes : keras_model → string → result bytes;
  (** [preprocessor(tf.constant(texts))] *)
  keras_preprocess : KerasPreprocessor → list string → result KerasInputs;
  (** [model.predict(inputs)] *)
  keras_predict : keras_model → KerasInputs → result (tensor elt);
  (** [tokenizer(texts, padding=..., return_tensors=...)] *)
  hf_tokenize : HFTokenizer → list string → string → string → result HFInputs;
  (** the [last_hidden_state] of the model called on the inputs *)
  hf_forward : hf_model → HFInputs → result (tensor elt);
  (** [a - b] on arrays, with broadcasting *)
  np_subtract : tensor elt → tensor elt → result (tensor elt);
  (** [np.mean(a)] *)
  np_mean : tensor elt → elt;
  (** what [absl] makes of the flags of a command line that the script
      does not define, given as [(name, value)] in order: [None] when it
      takes them all (they are flags of [absl] itself, such as
      [--verbosity], or of an imported library) and goes on, or the way
      it stops the run before [main] (a flag that nobody defines, a value
      that does not parse, [--help]) *)
  absl_flags : list (string * string) → option exit_status
}.
End World.
Arguments printable elt : clear implicits.
Arguments event elt : clear implicits.
Arguments world elt : clear implicits.
Arguments M elt A : clear implicits.
Arguments keras_model elt : clear implicits.
Arguments hf_model elt : clear implicits.
Arguments Env elt : clear implicits.

Declare Scope script_scope.
Delimit Scope script_scope with script.
Notation "'let*' x ':=' m 'in' k" := (bind m (fun x => k))
  (at level 10, x name, m at level 100, k at level 200) : script_scope.
Notation "'let*' ' p ':=' m 'in' k" := (bind m (fun x => match x with p => k end))
  (at level 10, p pattern, m at level 100, k at level 200) : script_scope.
Open Scope script_scope.

(* ===================================================================== *)
(** ** The script *)
(* ===================================================================== *)

Definition nl : string := String "010" "".

Definition PRESET_MAP : list (string * string) :=
  [ ("distil_bert_base_en_uncased", "distilbert-base-uncased");
    ("distil_bert_base_en_cased", "distilbert-base-cased");
    ("distil_bert_base_multi_cased", "distilbert-base-multilingual-cased") ].

(** [EXTRACT_DIR.format(preset)] with [EXTRACT_DIR = "./{}"]. *)
Definition EXTRACT_DIR_format (preset : string) : string := "./" +:+ preset.

(** A flag as [flags.DEFINE_string(name, default, help)] declares it. *)
Record flag_def := FlagDef {
  flag_name : string;
  flag_default : option string;
  flag_help : string
}.

(** The flags the script defines, and those it marks as required. *)
Definition script_flags : list flag_def :=
  [ FlagDef "preset" None
      ("Must be one of " +:+ str_join "," (dict_keys PRESET_MAP)) ].

Definition required_flags : list string := [ "preset" ].

Definition config_url (hf_model_name : string) : string :=
  "https://huggingface.co/" +:+ hf_model_name +:+ "/raw/main/config.json".

Definition vocab_url (hf_model_name : string) : string :=
  "https://huggingface.co/" +:+ hf_model_name +:+ "/raw/main/vocab.txt".

Definition sample_text : list string :=
  [ "cricket is awesome, easily the best sport in the world!" ].

(** The shape given to [reshape] as a tuple of integers.  What decides
    whether the argument is a tuple of integers is its first element,
    where an [int] is taken and a [bool] is not; in the elements after it
    a [bool] counts as the integer it is, [True] as 1 and [False] as 0.
    The other types are refused everywhere. *)
Definition as_int (v : pyval) : result Z :=
  match v with
  | PyInt z => Ok z
  | _ => Raise (TypeError "reshape(): argument 'shape' must be tuple of ints")
  end.

Definition as_index (v : pyval) : result Z :=
  match v with
  | PyInt z => Ok z
  | PyBool b => Ok (if b then 1 else 0)
  | _ => Raise (TypeError "reshape(): argument 'shape' must be tuple of ints")
  end.

Fixpoint as_indices (vs : list pyval) : result (list Z) :=
  match vs with
  | [] => Ok []
  | v :: vs' =>
      match as_index v with
      | Ok z => match as_indices vs' with
                | Ok zs => Ok (z :: zs)
                | Raise e => Raise e
                end
      | Raise e => Raise e
      end
  end.

Definition as_ints (vs : list pyval) : result (list Z) :=
  match vs with
  | [] => Ok []
  | v :: vs' =>
      match as_int v with
      | Ok z => match as_indices vs' with
                | Ok zs => Ok (z :: zs)
                | Raise e => Raise e
                end
      | Raise e => Raise e
      end
  end.

Section Script.
Context {elt : Type}.
Variable env : Env elt.
(** [FLAGS.preset] *)
Variable preset : string.

Local Abbreviation M := (M elt).

(** [requests.get(url)]: no header, no credentials. *)
Definition http_get (url : string) : M bytes :=
  let rq := Request "GET" url [] None in
  let* _ := emit (EvHttp rq) in
  lift (requests_get env rq).

(** Modelled from the spec: [get_md5_checksum(path)] of
    [tools/checkpoint_conversion/checkpoint_conversion_utils.py], which is
    not among the sources: the MD5 checksum of the content of the file. *)
Definition get_md5_checksum (path : string) : M string :=
  let* content := read_file path in
  ret (md5_hexdigest env content).

Definition download_files (hf_model_name : string) : M unit :=
  let* _ := emit (EvCall "download_files") in
  let* _ := print [PStr "-> Download original vocab and config."] in
  let extract_dir := EXTRACT_DIR_format preset in
  let* present := os_path_exists extract_dir in
  let* _ := (if present then ret tt else os_makedirs extract_dir) in
  (* Config. *)
  let config_path := os_path_join extract_dir "config.json" in
  let* response := http_get (config_url hf_model_name) in
  let* _ := write_file config_path response in
  let* _ := print [PStr ("`" +:+ config_path +:+ "`")] in
  (* Vocab. *)
  let vocab_path := os_path_join extract_dir "vocab.txt" in
  let* response := http_get (vocab_url hf_model_name) in
  let* _ := write_file vocab_path response in
  print [PStr ("`" +:+ vocab_path +:+ "`")].

Definition define_preprocessor (hf_model_name : string)
  : M (KerasPreprocessor env * HFTokenizer env) :=
  let* _ := emit (EvCall "define_preprocessor") in
  let* _ := print [PStr (nl +:+ "-> Define the tokenizers.")] in
  let extract_dir := EXTRACT_DIR_format preset in
  let vocab_path := os_path_join extract_dir "vocab.txt" in
  let* _ := emit (EvLibrary "keras_hub.models.DistilBertTokenizer" [vocab_path]) in
  let* vocabulary := read_file vocab_path in
  let* keras_hub_tokenizer := lift (distilbert_tokenizer env vocabulary) in
  let* _ := emit (EvLibrary "keras_hub.models.DistilBertTextClassifierPreprocessor" []) in
  let* keras_hub_preprocessor :=
    lift (distilbert_preprocessor env keras_hub_tokenizer) in
  let* _ := emit (EvLibrary "transformers.AutoTokenizer.from_pretrained" [hf_model_name]) in
  let* hf_tokenizer := lift (auto_tokenizer_from_pretrained env hf_model_name) in
  let* _ := print [PStr (nl +:+ "-> Print MD5 checksum of the vocab files.")] in
  let* sum := get_md5_checksum vocab_path in
  let* _ := print [PStr ("`" +:+ vocab_path +:+ "` md5sum: "); PStr sum] in
  ret (keras_hub_preprocessor, hf_tokenizer).

(** The configuration built from [config.json]. *)
Definition build_cfg (pt_cfg : list (string * pyval))
  : result (list (string * pyval)) :=
  rbind (dict_item pt_cfg "vocab_size") (fun vocab_size =>
  rbind (dict_item pt_cfg "n_layers") (fun n_layers =>
  rbind (dict_item pt_cfg "n_heads") (fun n_heads =>
  rbind (dict_item pt_cfg "dim") (fun dim =>
  rbind (dict_item pt_cfg "hidden_dim") (fun hidden_dim =>
  rbind (dict_item pt_cfg "dropout") (fun dropout =>
  rbind (dict_item pt_cfg "max_position_embeddings") (fun max_pos =>
  Ok [ ("vocabulary_size", vocab_size);
       ("num_layers", n_layers);
       ("num_heads", n_heads);
       ("hidden_dim", dim);
       ("intermediate_dim", hidden_dim);
       ("dropout", dropout);
       ("max_sequence_length", max_pos) ]))))))).

(** [t.reshape(dims)] with the dimensions as Python values. *)
Definition reshape_py (t : tensor elt) (dims : list (result pyval))
  : result (tensor elt) :=
  rbind (foldr (fun d acc => rbind d (fun v => rbind acc (fun vs => Ok (v :: vs))))
           (Ok []) dims) (fun vs =>
  rbind (as_ints vs) (fun zs => reshape t zs)).

Section Layouts.
Variable cfg : list (string * pyval).

(** The four layout changes of the loop, each as the source writes it.
    [w.transpose(1, 0).reshape((cfg["hidden_dim"], cfg["num_heads"], -1)).numpy()] *)
Definition qkv_kernel (w : tensor elt) : result (tensor elt) :=
  rbind (transpose_1_0 w) (fun t =>
  rbind (reshape_py t [dict_item cfg "hidden_dim"; dict_item cfg "num_heads";
                       Ok (PyInt (-1))]) (fun t =>
  Ok (numpy t))).

(** [b.reshape((cfg["num_heads"], -1)).numpy()] *)
Definition qkv_bias (b : tensor elt) : result (tensor elt) :=
  rbind (reshape_py b [dict_item cfg "num_heads"; Ok (PyInt (-1))]) (fun t =>
  Ok (numpy t)).

(** [w.transpose(1, 0).reshape((cfg["num_heads"], -1, cfg["hidden_dim"])).numpy()] *)
Definition out_kernel (w : tensor elt) : result (tensor elt) :=
  rbind (transpose_1_0 w) (fun t =>
  rbind (reshape_py t [dict_item cfg "num_heads"; Ok (PyInt (-1));
                       dict_item cfg "hidden_dim"]) (fun t =>
  Ok (numpy t))).

(** [w.transpose(1, 0).numpy()] *)
Definition transposed (w : tensor elt) : result (tensor elt) :=
  rbind (transpose_1_0 w) (fun t => Ok (numpy t)).

(** [w.numpy()] *)
Definition unchanged (w : tensor elt) : result (tensor elt) := Ok (numpy w).
End Layouts.

(** One statement
    [model.get_layer(layer).<attr>.assign(<layout>(hf_wts[key]))]:
    the layer and its variable are looked up first, then the source
    tensor, then the layout is changed, then the value is assigned. *)
Definition assign_weight (hf_wts : list (string * tensor elt))
    (layer attr key : string) (layout : tensor elt → result (tensor elt))
    (km : keras_model elt) : M (keras_model elt) :=
  let* l := lift (get_layer km layer) in
  let* var := lift (get_variable l attr) in
  let* src := lift (dict_item hf_wts key) in
  let* value := lift (layout src) in
  let* var' := lift (variable_assign var value) in
  let* _ := emit (EvAssign layer attr value) in
  ret (KerasModel (num_layers km) (<[layer := <[attr := var']> l]> (layers km))).

(** The statements of the loop body for layer [i], in source order. *)
Definition convert_layer (cfg : list (string * pyval))
    (hf_wts : list (string * tensor elt)) (i : Z)
    (km : keras_model elt) : M (keras_model elt) :=
  let layer := "transformer_layer_" +:+ pretty i in
  let hf := fun suffix => "transformer.layer." +:+ pretty i +:+ suffix in
  let* km := assign_weight hf_wts layer "_self_attention_layer._query_dense.kernel"
               (hf ".attention.q_lin.weight") (qkv_kernel cfg) km in
  let* km := assign_weight hf_wts layer "_self_attention_layer._query_dense.bias"
               (hf ".attention.q_lin.bias") (qkv_bias cfg) km in
  let* km := assign_weight hf_wts layer "_self_attention_layer._key_dense.kernel"
               (hf ".attention.k_lin.weight") (qkv_kernel cfg) km in
  let* km := assign_weight hf_wts layer "_self_attention_layer._key_dense.bias"
               (hf ".attention.k_lin.bias") (qkv_bias cfg) km in
  let* km := assign_weight hf_wts layer "_self_attention_layer._value_dense.kernel"
               (hf ".attention.v_lin.weight") (qkv_kernel cfg) km in
  let* km := assign_weight hf_wts layer "_self_attention_layer._value_dense.bias"
               (hf ".attention.v_lin.bias") (qkv_bias cfg) km in
  let* km := assign_weight hf_wts layer "_self_attention_layer._output_dense.kernel"
               (hf ".attention.out_lin.weight") (out_kernel cfg) km in
  let* km := assign_weight hf_wts layer "_self_attention_layer._output_dense.bias"
               (hf ".attention.out_lin.bias") unchanged km in
  let* km := assign_weight hf_wts layer "_self_attention_layer_norm.gamma"
               (hf ".sa_layer_norm.weight") unchanged km in
  let* km := assign_weight hf_wts layer "_self_attention_layer_norm.beta"
               (hf ".sa_layer_norm.bias") unchanged km in
  let* km := assign_weight hf_wts layer "_feedforward_intermediate_dense.kernel"
               (hf ".ffn.lin1.weight") transposed km in
  let* km := assign_weight hf_wts layer "_feedforward_intermediate_dense.bias"
               (hf ".ffn.lin1.bias") unchanged km in
  let* km := assign_weight hf_wts layer "_feedforward_output_dense.kernel"
               (hf ".ffn.lin2.weight") transposed km in
  let* km := assign_weight hf_wts layer "_feedforward_output_dense.bias"
               (hf ".ffn.lin2.bias") unchanged km in
  let* km := assign_weight hf_wts layer "_feedforward_layer_norm.gamma"
               (hf ".output_layer_norm.weight") unchanged km in
  assign_weight hf_wts layer "_feedforward_layer_norm.beta"
    (hf ".output_layer_norm.bias") unchanged km.

(** [for i in idx: body(i)], threading the model. *)
Fixpoint for_each (idx : list Z) (body : Z → keras_model elt → M (keras_model elt))
    (km : keras_model elt) : M (keras_model elt) :=
  match idx with
  | [] => ret km
  | i :: idx' => let* km := body i km in for_each idx' body km
  end.

(** [str(hf_wts.keys())] and the four replacements applied to it. *)
Definition keys_listing (hf_wts : list (string * tensor elt)) : string :=
  str_replace ")" ""
    (str_replace "]" ""
       (str_replace "odict_keys([" ""
          (str_replace ", " nl
             ("odict_keys([" +:+ str_join ", " (py_repr_str <$> dict_keys hf_wts)
                +:+ "])")))).

(** The assignments of [convert_checkpoints]: the embeddings, then the
    loop over [range(keras_hub_model.num_layers)]. *)
Definition copy_weights (cfg : list (string * pyval))
    (hf_wts : list (string * tensor elt))
    (keras_hub_model : keras_model elt) : M (keras_model elt) :=
  let* km := assign_weight hf_wts "token_and_position_embedding"
               "token_embedding.embeddings"
               "embeddings.word_embeddings.weight" Ok keras_hub_model in
  let* km := assign_weight hf_wts "token_and_position_embedding"
               "position_embedding.position_embeddings"
               "embeddings.position_embeddings.weight" Ok km in
  let* km := assign_weight hf_wts "embeddings_layer_norm" "gamma"
               "embeddings.LayerNorm.weight" Ok km in
  let* km := assign_weight hf_wts "embeddings_layer_norm" "beta"
               "embeddings.LayerNorm.bias" Ok km in
  for_each (seqZ 0 (num_layers km)) (convert_layer cfg hf_wts) km.

Definition convert_checkpoints (keras_hub_model : keras_model elt)
    (hf_model_ : hf_model elt) : M (keras_model elt) :=
  let* _ := emit (EvCall "convert_checkpoints") in
  let* _ := print [PStr (nl +:+ "-> Convert original weights to KerasHub format.")] in
  let extract_dir := EXTRACT_DIR_format preset in
  let config_path := os_path_join extract_dir "config.json" in
  (* Build config. *)
  let* content := read_file config_path in
  let* pt_cfg := lift (json_loads env content) in
  let* cfg := lift (build_cfg pt_cfg) in
  let* _ := print [PStr "Config:"; PCfg cfg] in
  let hf_wts := state_dict hf_model_ in
  let* _ := print [PStr "Original weights:"] in
  let* _ := print [PStr (keys_listing hf_wts)] in
  let* km := copy_weights cfg hf_wts keras_hub_model in
  (* Save the model. *)
  let* _ := print [PStr (nl +:+ "-> Save KerasHub model weights to `" +:+ preset
                           +:+ ".h5`.")] in
  let* saved := lift (save_weights_bytes env km (preset +:+ ".h5")) in
  let* _ := write_file (preset +:+ ".h5") saved in
  ret km.

Definition check_output (keras_hub_preprocessor : KerasPreprocessor env)
    (keras_hub_model : keras_model elt) (hf_tokenizer : HFTokenizer env)
    (hf_model_ : hf_model elt) : M unit :=
  let* _ := emit (EvCall "check_output") in
  let* _ := print [PStr (nl +:+ "-> Check the outputs.")] in
  (* KerasHub *)
  let* keras_hub_inputs := lift (keras_preprocess env keras_hub_preprocessor sample_text) in
  let* _ := emit (EvLibrary "keras_hub_model.predict" sample_text) in
  let* keras_hub_output := lift (keras_predict env keras_hub_model keras_hub_inputs) in
  (* HF *)
  let* hf_inputs := lift (hf_tokenize env hf_tokenizer sample_text "max_length" "pt") in
  let* _ := emit (EvLibrary "hf_model" sample_text) in
  let* hf_output := lift (hf_forward env hf_model_ hf_inputs) in
  let* k10 := lift (slice_0_0_10 keras_hub_output) in
  let* _ := print [PStr "KerasHub output:"; PTensor k10] in
  let* h10 := lift (slice_0_0_10 hf_output) in
  let* _ := print [PStr "HF output:"; PTensor h10] in
  let* diff := lift (np_subtract env keras_hub_output (numpy hf_output)) in
  let* _ := print [PStr "Difference:"; PScalar (np_mean env diff)] in
  (* Show the MD5 checksum of the model weights. *)
  let* sum := get_md5_checksum ("./" +:+ preset +:+ ".h5") in
  print [PStr "Model md5sum: "; PStr sum].

Definition main : M unit :=
  let* hf_model_name := lift (dict_item PRESET_MAP preset) in
  let* _ := download_files hf_model_name in
  let* '(keras_hub_preprocessor, hf_tokenizer) := define_preprocessor hf_model_name in
  let* _ := print [PStr (nl +:+ "-> Load KerasHub model.")] in
  let* _ := emit (EvLibrary "keras_hub.models.DistilBertBackbone.from_preset" [preset]) in
  let* keras_hub_model := lift (backbone_from_preset env preset false) in
  let* _ := print [PStr (nl +:+ "-> Load HF model.")] in
  let* _ := emit (EvLibrary "transformers.AutoModel.from_pretrained" [hf_model_name]) in
  let* hf_model_ := lift (auto_model_from_pretrained env hf_model_name) in
  let hf_model_ := hf_eval hf_model_ in
  let* keras_hub_model := convert_checkpoints keras_hub_model hf_model_ in
  check_output keras_hub_preprocessor keras_hub_model hf_tokenizer hf_model_.
End Script.

(** *** The entry point *)

(** [FLAGS.<name>] after parsing: the last value given on the command line,
    or the default of the flag. *)
Definition flag_value (args : list (string * string)) (name : string)
  : option string :=
  match last (filter (fun a => a.1 = name) args) with
  | Some a => Some a.2
  | None =>
      match find (fun d => bool_decide (flag_name d = name)) script_flags with
      | Some d => flag_default d
      | None => None
      end
  end.

Section EntryPoint.
Context {elt : Type}.
Variable env : Env elt.

(** [flags.mark_flag_as_required("preset"); app.run(main)] on the flags
    [--name=value] of the command line.  The flags that the script did
    not define are left to [absl], which takes them or stops the run;
    the script does not read them.  A required flag without a value stops
    the run before [main]; an exception of [main] ends it with a
    traceback. *)
Definition app_run (args : list (string * string))
  : world elt → world elt * exit_status :=
  fun w =>
    let others := filter (fun a => a.1 ∉ flag_name <$> script_flags) args in
    match (if decide (others = []) then None else absl_flags env others) with
    | Some status => (w, status)
    | None =>
        match find (fun n => bool_decide (flag_value args n = None)) required_flags with
        | Some n =>
            (w, ExitUsage ("Flag --" +:+ n +:+ " must have a value other than None."))
        | None =>
            match flag_value args "preset" with
            | Some preset =>
                match main env preset w with
                | (w', Ok _) => (w', ExitSuccess)
                | (w', Raise e) => (w', ExitTraceback e)
                end
            | None => (w, ExitTraceback (KeyError "None"))
            end
        end
    end.
End EntryPoint.

(* ===================================================================== *)
(** ** The correspondence table and what a trace shows *)
(* ===================================================================== *)

Section Tables.
Context {elt : Type}.

(** One row of the table: the destination layer and variable, the source
    key, and the layout change in between. *)
Record entry := Entry {
  e_layer : string;
  e_attr : string;
  e_key : string;
  e_layout : tensor elt → result (tensor elt)
}.

(** The rows for the embeddings. *)
Definition embedding_entries : list entry :=
  [ Entry "token_and_position_embedding" "token_embedding.embeddings"
      "embeddings.word_embeddings.weight" Ok;
    Entry "token_and_position_embedding" "position_embedding.position_embeddings"
      "embeddings.position_embeddings.weight" Ok;
    Entry "embeddings_layer_norm" "gamma" "embeddings.LayerNorm.weight" Ok;
    Entry "embeddings_layer_norm" "beta" "embeddings.LayerNorm.bias" Ok ].

Definition layer_name (i : Z) : string := "transformer_layer_" +:+ pretty i.

Definition hf_key (i : Z) (suffix : string) : string :=
  "transformer.layer." +:+ pretty i +:+ suffix.

(** The rows of the loop body for layer [i], in source order. *)
Definition layer_entries (cfg : list (string * pyval)) (i : Z) : list entry :=
  [ Entry (layer_name i) "_self_attention_layer._query_dense.kernel"
      (hf_key i ".attention.q_lin.weight") (qkv_kernel cfg);
    Entry (layer_name i) "_self_attention_layer._query_dense.bias"
      (hf_key i ".attention.q_lin.bias") (qkv_bias cfg);
    Entry (layer_name i) "_self_attention_layer._key_dense.kernel"
      (hf_key i ".attention.k_lin.weight") (qkv_kernel cfg);
    Entry (layer_name i) "_self_attention_layer._key_dense.bias"
      (hf_key i ".attention.k_lin.bias") (qkv_bias cfg);
    Entry (layer_name i) "_self_attention_layer._value_dense.kernel"
      (hf_key i ".attention.v_lin.weight") (qkv_kernel cfg);
    Entry (layer_name i) "_self_attention_layer._value_dense.bias"
      (hf_key i ".attention.v_lin.bias") (qkv_bias cfg);
    Entry (layer_name i) "_self_attention_layer._output_dense.kernel"
      (hf_key i ".attention.out_lin.weight") (out_kernel cfg);
    Entry (layer_name i) "_self_attention_layer._output_dense.bias"
      (hf_key i ".attention.out_lin.bias") unchanged;
    Entry (layer_name i) "_self_attention_layer_norm.gamma"
      (hf_key i ".sa_layer_norm.weight") unchanged;
    Entry (layer_name i) "_self_attention_layer_norm.beta"
      (hf_key i ".sa_layer_norm.bias") unchanged;
    Entry (layer_name i) "_feedforward_intermediate_dense.kernel"
      (hf_key i ".ffn.lin1.weight") transposed;
    Entry (layer_name i) "_feedforward_intermediate_dense.bias"
      (hf_key i ".ffn.lin1.bias") unchanged;
    Entry (layer_name i) "_feedforward_output_dense.kernel"
      (hf_key i ".ffn.lin2.weight") transposed;
    Entry (layer_name i) "_feedforward_output_dense.bias"
      (hf_key i ".ffn.lin2.bias") unchanged;
    Entry (layer_name i) "_feedforward_layer_norm.gamma"
      (hf_key i ".output_layer_norm.weight") unchanged;
    Entry (layer_name i) "_feedforward_layer_norm.beta"
      (hf_key i ".output_layer_norm.bias") unchanged ].

(** The whole table for a model of [n] layers. *)
Definition all_entries (cfg : list (string * pyval)) (n : Z) : list entry :=
  embedding_entries ++ concat (layer_entries cfg <$> seqZ 0 n).

(** The rows carried out one after the other. *)
Fixpoint run_entries (hf_wts : list (string * tensor elt)) (es : list entry)
    (km : keras_model elt) : M elt (keras_model elt) :=
  match es with
  | [] => ret km
  | e :: es' =>
      let* km := assign_weight hf_wts (e_layer e) (e_attr e) (e_key e)
                   (e_layout e) km in
      run_entries hf_wts es' km
  end.

(** The value a row assigns, when its source is there and its layout
    change goes through. *)
Definition entry_value (hf_wts : list (string * tensor elt)) (e : entry)
  : option (tensor elt) :=
  match dict_get hf_wts (e_key e) with
  | Some src => match e_layout e src with Ok v => Some v | Raise _ => None end
  | None => None
  end.

(** The sub-layer a variable belongs to: its attribute path without the
    last component. *)
Definition sublayer_of (attr : string) : string :=
  default "" (last (prefixes_before "."%char "" attr)).

(** The current value of a variable of the model. *)
Definition variable_of (km : keras_model elt) (layer attr : string)
  : option (tensor elt) :=
  match layers km !! layer with
  | Some l => l !! attr
  | None => None
  end.

(** A row fits a model when its value is there and has the shape of the
    variable it is assigned to. *)
Definition entry_fits (hf_wts : list (string * tensor elt))
    (km : keras_model elt) (e : entry) : Prop :=
  ∃ v, entry_value hf_wts e = Some v ∧
       shape <$> variable_of km (e_layer e) (e_attr e) = Some (shape v).

(** The variable a row assigns to. *)
Definition target (e : entry) : string * string := (e_layer e, e_attr e).

(** The model with a variable set to a value. *)
Definition set_variable (km : keras_model elt) (layer attr : string)
    (v : tensor elt) : keras_model elt :=
  KerasModel (num_layers km)
    (<[layer := <[attr := v]> (default ∅ (layers km !! layer))]> (layers km)).

(** The model after the rows of a table, each row setting its variable
    to its value. *)
Definition apply_entries (hf_wts : list (string * tensor elt))
    (es : list entry) (km : keras_model elt) : keras_model elt :=
  foldl (fun km e =>
           match entry_value hf_wts e with
           | Some v => set_variable km (e_layer e) (e_attr e) v
           | None => km
           end) km es.

(** The world with more events in its trace. *)
Definition after (w : world elt) (evs : list (event elt)) : world elt :=
  World (files w) (dirs w) (trace w ++ evs).

(** *** Reading a trace *)

Definition calls (evs : list (event elt)) : list string :=
  omap (fun ev => match ev with EvCall f => Some f | _ => None end) evs.

Definition http_requests (evs : list (event elt)) : list request :=
  omap (fun ev => match ev with EvHttp rq => Some rq | _ => None end) evs.

Definition written_paths (evs : list (event elt)) : list string :=
  omap (fun ev => match ev with EvWrite p _ => Some p | _ => None end) evs.

Definition made_dirs (evs : list (event elt)) : list string :=
  omap (fun ev => match ev with EvMakedirs p => Some p | _ => None end) evs.

Definition printed (evs : list (event elt)) : list (list (printable elt)) :=
  omap (fun ev => match ev with EvPrint a => Some a | _ => None end) evs.

(** The variables assigned in a layer, in order. *)
Definition assigned_in (layer : string) (evs : list (event elt))
  : list (string * tensor elt) :=
  omap (fun ev => match ev with
                  | EvAssign l a v => if decide (l = layer) then Some (a, v) else None
                  | _ => None
                  end) evs.

Definition assign_event (hf_wts : list (string * tensor elt)) (e : entry)
  : option (event elt) :=
  EvAssign (e_layer e) (e_attr e) <$> entry_value hf_wts e.
End Tables.
Arguments entry elt : clear implicits.

(* ===================================================================== *)
(** ** The shapes of a DistilBERT *)
(* ===================================================================== *)

(** The dimensions that [config.json] declares. *)
Record dims := Dims {
  d_vocab_size : Z;
  d_max_position_embeddings : Z;
  d_dim : Z;
  d_n_heads : Z;
  d_hidden_dim : Z;
  d_n_layers : Z
}.

(** Positive sizes, and a hidden size that the heads divide. *)
Definition dims_wf (d : dims) : Prop :=
  0 < d_dim d ∧ 0 < d_n_heads d ∧ (d_n_heads d | d_dim d).

Definition dim_H (d : dims) : nat := Z.to_nat (d_dim d).
Definition dim_N (d : dims) : nat := Z.to_nat (d_n_heads d).
Definition dim_D (d : dims) : nat := Z.to_nat (d_dim d / d_n_heads d).
Definition dim_I (d : dims) : nat := Z.to_nat (d_hidden_dim d).

(** The shapes of the tensors in the state dictionary of a Hugging Face
    DistilBERT of dimensions [d], by key: a [Linear(in, out)] holds its
    weight as [out, in]. *)
Definition state_dict_layer_shapes (d : dims) (i : Z) : list (string * list nat) :=
  let H := dim_H d in let I := dim_I d in
  [ (hf_key i ".attention.q_lin.weight", [H; H]);
    (hf_key i ".attention.q_lin.bias", [H]);
    (hf_key i ".attention.k_lin.weight", [H; H]);
    (hf_key i ".attention.k_lin.bias", [H]);
    (hf_key i ".attention.v_lin.weight", [H; H]);
    (hf_key i ".attention.v_lin.bias", [H]);
    (hf_key i ".attention.out_lin.weight", [H; H]);
    (hf_key i ".attention.out_lin.bias", [H]);
    (hf_key i ".sa_layer_norm.weight", [H]);
    (hf_key i ".sa_layer_norm.bias", [H]);
    (hf_key i ".ffn.lin1.weight", [I; H]);
    (hf_key i ".ffn.lin1.bias", [I]);
    (hf_key i ".ffn.lin2.weight", [H; I]);
    (hf_key i ".ffn.lin2.bias", [H]);
    (hf_key i ".output_layer_norm.weight", [H]);
    (hf_key i ".output_layer_norm.bias", [H]) ].

Definition state_dict_shapes (d : dims) : list (string * list nat) :=
  let H := dim_H d in
  [ ("embeddings.word_embeddings.weight", [Z.to_nat (d_vocab_size d); H]);
    ("embeddings.position_embeddings.weight",
       [Z.to_nat (d_max_position_embeddings d); H]);
    ("embeddings.LayerNorm.weight", [H]);
    ("embeddings.LayerNorm.bias", [H]) ]
  ++ concat (state_dict_layer_shapes d <$> seqZ 0 (d_n_layers d)).

(** Modelled from the spec: the shapes of the weight variables of
    [keras_hub]'s [DistilBertBackbone], whose code is not among the
    sources.  The attention projections keep one kernel slice per head, of
    size [hidden_dim / num_heads]; a dense kernel is [in, out]. *)
Definition backbone_layer_shapes (d : dims) (i : Z)
  : list (string * string * list nat) :=
  let H := dim_H d in let N := dim_N d in let D := dim_D d in let I := dim_I d in
  [ (layer_name i, "_self_attention_layer._query_dense.kernel", [H; N; D]);
    (layer_name i, "_self_attention_layer._query_dense.bias", [N; D]);
    (layer_name i, "_self_attention_layer._key_dense.kernel", [H; N; D]);
    (layer_name i, "_self_attention_layer._key_dense.bias", [N; D]);
    (layer_name i, "_self_attention_layer._value_dense.kernel", [H; N; D]);
    (layer_name i, "_self_attention_layer._value_dense.bias", [N; D]);
    (layer_name i, "_self_attention_layer._output_dense.kernel", [N; D; H]);
    (layer_name i, "_self_attention_layer._output_dense.bias", [H]);
    (layer_name i, "_self_attention_layer_norm.gamma", [H]);
    (layer_name i, "_self_attention_layer_norm.beta", [H]);
    (layer_name i, "_feedforward_intermediate_dense.kernel", [H; I]);
    (layer_name i, "_feedforward_intermediate_dense.bias", [I]);
    (layer_name i, "_feedforward_output_dense.kernel", [I; H]);
    (layer_name i, "_feedforward_output_dense.bias", [H]);
    (layer_name i, "_feedforward_layer_norm.gamma", [H]);
    (layer_name i, "_feedforward_layer_norm.beta", [H]) ].

(** Modelled from the spec: the same for the whole backbone, its two
    embeddings and its embedding layer norm included. *)
Definition backbone_shapes (d : dims) : list (string * string * list nat) :=
  let H := dim_H d in
  [ ("token_and_position_embedding", "token_embedding.embeddings",
       [Z.to_nat (d_vocab_size d); H]);
    ("token_and_position_embedding", "position_embedding.position_embeddings",
       [Z.to_nat (d_max_position_embeddings d); H]);
    ("embeddings_layer_norm", "gamma", [H]);
    ("embeddings_layer_norm", "beta", [H]) ]
  ++ concat (backbone_layer_shapes d <$> seqZ 0 (d_n_layers d)).

Section Shaped.
Context {elt : Type}.

(** The state dictionary holds a tensor of the declared shape under every
    key of a DistilBERT of dimensions [d]. *)
Definition state_dict_shaped (d : dims) (hf_wts : list (string * tensor elt))
  : Prop :=
  ∀ key s, (key, s) ∈ state_dict_shapes d →
    ∃ t, dict_get hf_wts key = Some t ∧ shape t = s ∧ tensor_wf t.

(** The KerasHub model is a backbone of dimensions [d]. *)
Definition backbone_shaped (d : dims) (km : keras_model elt) : Prop :=
  num_layers km = d_n_layers d ∧
  ∀ layer attr s, (layer, attr, s) ∈ backbone_shapes d →
    ∃ var, variable_of km layer attr = Some var ∧ shape var = s.

(** The configuration names the hidden size and the number of heads of
    [d]. *)
Definition cfg_of (d : dims) (cfg : list (string * pyval)) : Prop :=
  dict_get cfg "hidden_dim" = Some (PyInt (d_dim d)) ∧
  dict_get cfg "num_heads" = Some (PyInt (d_n_heads d)).
End Shaped.

(** The three input projections of the attention: the dense sub-layer of the
    destination and the linear module of the source. *)
Definition projections : list (string * string) :=
  [ ("_query_dense", "q_lin"); ("_key_dense", "k_lin"); ("_value_dense", "v_lin") ].

(* ===================================================================== *)
(** ** A small concrete run *)
(* ===================================================================== *)

(** A DistilBERT of two layers, hidden size 4, two heads, feed-forward size
    6, three tokens and two positions, with integers for weights. *)
Definition demo_dims : dims := Dims 3 2 4 2 6 2.

Definition demo_tensor (base : Z) (s : list nat) : tensor Z :=
  Tensor s (seqZ base (Z.of_nat (numel s))).

Definition demo_wts : list (string * tensor Z) :=
  imap (fun k '(key, s) => (key, demo_tensor (100 * Z.of_nat k) s))
    (state_dict_shapes demo_dims).

Definition demo_km : keras_model Z :=
  KerasModel 2
    (foldr (fun '(layer, attr, s) m =>
              <[layer := <[attr := Tensor s (replicate (numel s) 0)]>
                           (default ∅ (m !! layer))]> m)
       ∅ (backbone_shapes demo_dims)).

Definition demo_pt_cfg : list (string * pyval) :=
  [ ("vocab_size", PyInt 3); ("n_layers", PyInt 2); ("n_heads", PyInt 2);
    ("dim", PyInt 4); ("hidden_dim", PyInt 6); ("dropout", PyFloat "0.1");
    ("max_position_embeddings", PyInt 2) ].

Definition demo_cfg : list (string * pyval) :=
  [ ("vocabulary_size", PyInt 3); ("num_layers", PyInt 2); ("num_heads", PyInt 2);
    ("hidden_dim", PyInt 4); ("intermediate_dim", PyInt 6);
    ("dropout", PyFloat "0.1"); ("max_sequence_length", PyInt 2) ].

Definition demo_subtract (a b : tensor Z) : result (tensor Z) :=
  if decide (shape a = shape b)
  then Ok (Tensor (shape a) (zip_with Z.sub (data a) (data b)))
  else Raise (ValueError "operands could not be broadcast together").

(** [Model.save_weights(filepath)] of Keras 3 takes a file name that ends
    in [.weights.h5] and raises [ValueError] for any other. *)
Definition keras3_save_weights (filepath : string) (content : bytes) : result bytes :=
  if str_endswith filepath ".weights.h5" then Ok content
  else Raise (ValueError ("The filename must end in `.weights.h5`. Received: filepath="
                            +:+ filepath)).

(** The flags of [absl.logging], which [absl] defines for every program. *)
Definition absl_logging_flags : list string :=
  [ "logtostderr"; "alsologtostderr"; "log_dir"; "verbosity"; "logger_levels";
    "stderrthreshold"; "showprefixforinfo"; "v" ].

(** An [absl] as far as the small runs need it: it takes its logging
    flags, whatever their values, and treats any other flag as one that
    nobody defines. *)
Definition demo_absl (others : list (string * string)) : option exit_status :=
  match find (fun a => bool_decide (a.1 ∉ absl_logging_flags)) others with
  | Some a => Some (ExitUsage ("Unknown command line flag '" +:+ a.1 +:+ "'"))
  | None => None
  end.

(** Libraries that answer as given: the network, the JSON parser, the
    backbone of a preset and the weights of the upstream model.  The
    weights are saved by the rule of Keras 3. *)
Definition demo_env_with (get : request → result bytes)
    (loads : bytes → result (list (string * pyval)))
    (km : keras_model Z) (wts : list (string * tensor Z)) : Env Z := {|
  KerasTokenizer := bytes;
  KerasPreprocessor := bytes;
  HFTokenizer := string;
  KerasInputs := list string;
  HFInputs := list string;
  requests_get := get;
  json_loads := loads;
  md5_hexdigest := fun _ => "99914b932bd37a50b983c5e7c90ae93b";
  distilbert_tokenizer := fun vocab => Ok vocab;
  distilbert_preprocessor := fun tok => Ok tok;
  auto_tokenizer_from_pretrained := fun name => Ok name;
  backbone_from_preset := fun _ _ => Ok km;
  auto_model_from_pretrained := fun _ => Ok (HFModel wts true);
  save_weights_bytes := fun _ filepath => keras3_save_weights filepath [Byte.x89; Byte.x48];
  keras_preprocess := fun _ texts => Ok texts;
  keras_predict := fun _ _ => Ok (demo_tensor 1 [1; 2; 4]%nat);
  hf_tokenize := fun _ texts _ _ => Ok texts;
  hf_forward := fun _ _ => Ok (demo_tensor 0 [1; 2; 4]%nat);
  np_subtract := demo_subtract;
  np_mean := fun t => foldr Z.add 0 (data t) / Z.of_nat (length (data t));
  absl_flags := demo_absl
|}.

Definition demo_get (rq : request) : result bytes := Ok [Byte.x7b; Byte.x7d].

Definition demo_loads (content : bytes) : result (list (string * pyval)) :=
  Ok demo_pt_cfg.

(** All libraries answer, the saving of the weights by the rule of
    Keras 3. *)
Definition demo_env : Env Z := demo_env_with demo_get demo_loads demo_km demo_wts.

(** The same libraries, but without a network. *)
Definition offline_env : Env Z :=
  demo_env_with (fun rq => Raise (ConnectionError (rq_url rq))) demo_loads
    demo_km demo_wts.

(** A configuration file that is no JSON. *)
Definition garbled_env : Env Z :=
  demo_env_with demo_get (fun _ => Raise (JSONDecodeError "Expecting value"))
    demo_km demo_wts.

(** An upstream model whose first attention layer norm has five weights
    where the backbone has four. *)
Definition misshapen_wts : list (string * tensor Z) :=
  (fun kt : string * tensor Z =>
     if decide (kt.1 = hf_key 0 ".sa_layer_norm.weight")
     then (kt.1, demo_tensor 0 [5]%nat) else kt) <$> demo_wts.

Definition misshapen_env : Env Z :=
  demo_env_with demo_get demo_loads demo_km misshapen_wts.

(** A backbone without its second transformer layer. *)
Definition layerless_km : keras_model Z :=
  KerasModel 2 (delete (layer_name 1) (layers demo_km)).

Definition layerless_env : Env Z :=
  demo_env_with demo_get demo_loads layerless_km demo_wts.

(** An empty working directory and an empty trace. *)
Definition empty_world : world Z := World ∅ ∅ [].

Definition demo_preset : string := "distil_bert_base_en_uncased".

(* ===================================================================== *)
(** ** How a run of [main] fails *)
(* ===================================================================== *)

Section Failures.
Context {elt : Type}.
Variable env : Env elt.
Variable preset : string.

(** The events of [main] between [define_preprocessor] and
    [convert_checkpoints]: the two models are loaded. *)
Definition load_keras_events : list (event elt) :=
  [ EvPrint [PStr (nl +:+ "-> Load KerasHub model.")];
    EvLibrary "keras_hub.models.DistilBertBackbone.from_preset" [preset] ].

Definition load_hf_events (hf_model_name : string) : list (event elt) :=
  [ EvPrint [PStr (nl +:+ "-> Load HF model.")];
    EvLibrary "transformers.AutoModel.from_pretrained" [hf_model_name] ].

(** [main_failure w w' e]: a statement of [main], run after the statements
    before it have returned, raises [e] and leaves the world [w']. *)
Inductive main_failure (w : world elt) : world elt → exn → Prop :=
| unknown_preset :
    dict_get PRESET_MAP preset = None →
    main_failure w w (KeyError preset)
| download_failed hf w1 e :
    dict_get PRESET_MAP preset = Some hf →
    download_files env preset hf w = (w1, Raise e) →
    main_failure w w1 e
| preprocessor_failed hf w1 w2 e :
    dict_get PRESET_MAP preset = Some hf →
    download_files env preset hf w = (w1, Ok tt) →
    define_preprocessor env preset hf w1 = (w2, Raise e) →
    main_failure w w2 e
| backbone_failed hf w1 w2 pp e :
    dict_get PRESET_MAP preset = Some hf →
    download_files env preset hf w = (w1, Ok tt) →
    define_preprocessor env preset hf w1 = (w2, Ok pp) →
    backbone_from_preset env preset false = Raise e →
    main_failure w (after w2 load_keras_events) e
| hf_model_failed hf w1 w2 pp km e :
    dict_get PRESET_MAP preset = Some hf →
    download_files env preset hf w = (w1, Ok tt) →
    define_preprocessor env preset hf w1 = (w2, Ok pp) →
    backbone_from_preset env preset false = Ok km →
    auto_model_from_pretrained env hf = Raise e →
    main_failure w (after w2 (load_keras_events ++ load_hf_events hf)) e
| convert_failed hf w1 w2 pp km hfm w3 e :
    dict_get PRESET_MAP preset = Some hf →
    download_files env preset hf w = (w1, Ok tt) →
    define_preprocessor env preset hf w1 = (w2, Ok pp) →
    backbone_from_preset env preset false = Ok km →
    auto_model_from_pretrained env hf = Ok hfm →
    convert_checkpoints env preset km (hf_eval hfm)
      (after w2 (load_keras_events ++ load_hf_events hf)) = (w3, Raise e) →
    main_failure w w3 e
| check_failed hf w1 w2 pp km hfm w3 km' w4 e :
    dict_get PRESET_MAP preset = Some hf →
    download_files env preset hf w = (w1, Ok tt) →
    define_preprocessor env preset hf w1 = (w2, Ok pp) →
    backbone_from_preset env preset false = Ok km →
    auto_model_from_pretrained env hf = Ok hfm →
    convert_checkpoints env preset km (hf_eval hfm)
      (after w2 (load_keras_events ++ load_hf_events hf)) = (w3, Ok km') →
    check_output env preset pp.1 km' pp.2 (hf_eval hfm) w3 = (w4, Raise e) →
    main_failure w w4 e.
End Failures.

(** What a row contributes to the assignments of a layer. *)
Definition assigned_by {elt : Type} (hf_wts : list (string * tensor elt))
    (layer : string) (e : entry elt) : option (string * tensor elt) :=
  if decide (e_layer e = layer) then pair (e_attr e) <$> entry_value hf_wts e
  else None.

(** The layout changes that occur in the loop. *)
Definition fixed_layouts {elt : Type} (cfg : list (string * pyval))
  : list (tensor elt → result (tensor elt)) :=
  [ unchanged; transposed; qkv_kernel cfg; qkv_bias cfg; out_kernel cfg ].

(** The sub-layers of a transformer layer that hold weights. *)
Definition weight_sublayers : list string :=
  [ "_self_attention_layer._query_dense"; "_self_attention_layer._key_dense";
    "_self_attention_layer._value_dense"; "_self_attention_layer._output_dense";
    "_self_attention_layer_norm"; "_feedforward_intermediate_dense";
    "_feedforward_output_dense"; "_feedforward_layer_norm" ].

(** The three paths of the script. *)
Definition config_path (preset : string) : string :=
  os_path_join (EXTRACT_DIR_format preset) "config.json".

Definition vocab_path (preset : string) : string :=
  os_path_join (EXTRACT_DIR_format preset) "vocab.txt".

Definition weights_path (preset : string) : string := preset +:+ ".h5".

(** Events that are no call of a function of the script, no request, no
    write and no new directory. *)
Definition quiet {elt : Type} (evs : list (event elt)) : Prop :=
  calls evs = [] ∧ http_requests evs = [] ∧ written_paths evs = [] ∧
  made_dirs evs = [].

(** The request that [requests.get(url)] sends. *)
Definition get_request (url : string) : request := Request "GET" url [] None.

(** The saving of the weights follows the rule of Keras 3:
    [Model.save_weights(filepath)] raises [ValueError] unless the file
    name ends in [.weights.h5]. *)
Definition keras3_saving {elt : Type} (env : Env elt) : Prop :=
  ∀ km filepath, str_endswith filepath ".weights.h5" = false →
    ∃ msg, save_weights_bytes env km filepath = Raise (ValueError msg).

(** The message that [convert_checkpoints] prints before it saves. *)
Definition save_message {elt : Type} (preset : string) : event elt :=
  EvPrint [PStr (nl +:+ "-> Save KerasHub model weights to `" +:+ preset +:+ ".h5`.")].

(* ===================================================================== *)
(** ** Further notions: the configuration keys, key names, equal rows *)
(* ===================================================================== *)



(** The characters of the keys of a state dictionary: the names of modules
    and parameters are identifiers or numbers, joined by dots. *)
Definition dotted_name_char (c : ascii) : bool :=
  let n := nat_of_ascii c in
  ((48 <=? n) && (n <=? 57) || (65 <=? n) && (n <=? 90) ||
   (97 <=? n) && (n <=? 122) || (n =? 95) || (n =? 46))%nat.

Definition dotted_name (s : string) : Prop :=
  Forall (fun c => dotted_name_char c = true) (String.list_ascii_of_string s).

Section MoreTables.
Context {elt : Type}.

(** Two rows that do the same: the same variable, the same source tensor,
    the same layout change. *)
Definition same_row (wts1 wts2 : list (string * tensor elt)) (e1 e2 : entry elt)
  : Prop :=
  e_layer e1 = e_layer e2 ∧ e_attr e1 = e_attr e2 ∧
  dict_item wts1 (e_key e1) = dict_item wts2 (e_key e2) ∧
  ∀ t, e_layout e1 t = e_layout e2 t.

(** The events of [convert_checkpoints] before the first assignment. *)
Definition convert_prologue (cfg : list (string * pyval)) (hfm : hf_model elt)
  : list (event elt) :=
  [ EvCall "convert_checkpoints";
    EvPrint [PStr (nl +:+ "-> Convert original weights to KerasHub format.")];
    EvPrint [PStr "Config:"; PCfg cfg];
    EvPrint [PStr "Original weights:"];
    EvPrint [PStr (keys_listing (state_dict hfm))] ].
End MoreTables.

(** The variables that the assignments of a trace assign to, in order. *)
Definition assigned_targets {elt : Type} (evs : list (event elt))
  : list (string * string) :=
  omap (fun ev => match ev with EvAssign l a _ => Some (l, a) | _ => None end) evs.

(** *** More small models *)

(** A backbone of three layers for the checkpoint of two: the layers of the
    small backbone and the query kernel of a third. *)
Definition deeper_km : keras_model Z :=
  KerasModel 3
    (<[layer_name 2 :=
         {[ "_self_attention_layer._query_dense.kernel"
            := Tensor [4; 2; 2]%nat (replicate 16 0) ]}]> (layers demo_km)).


(** A network that loses the second request. *)
Definition half_offline_env : Env Z :=
  demo_env_with
    (fun rq => if decide (rq_url rq = vocab_url "distilbert-base-uncased")
               then Raise (ConnectionError (rq_url rq))
               else Ok [Byte.x7b; Byte.x7d])
    demo_loads demo_km demo_wts.

(** The small checkpoint with a tensor of a third layer. *)
Definition longer_wts : list (string * tensor Z) :=
  (hf_key 2 ".attention.q_lin.weight", demo_tensor 3600 [4; 4]%nat) :: demo_wts.

(** The working directory after the download of the small run. *)
Definition downloaded_world : world Z :=
  (download_files demo_env demo_preset "distilbert-base-uncased" empty_world).1.


(** A working directory that holds a weights file under the name that the
    check reads. *)
Definition weights_world : world Z :=
  World {[ "distil_bert_base_en_uncased.h5" := [Byte.x89; Byte.x48] ]} ∅ [].

(* ===================================================================== *)
(** ** Checks on small inputs *)
(* ===================================================================== *)

Example transpose_2x3 :
  transpose_1_0 (Tensor [2; 3]%nat [1; 2; 3; 4; 5; 6])
  = Ok (Tensor [3; 2]%nat [1; 4; 2; 5; 3; 6]).
Proof. reflexivity. Qed.

Example reshape_infer :
  reshape (Tensor [4; 4]%nat (seqZ 0 16)) [4; 2; -1]
  = Ok (Tensor [4; 2; 2]%nat (seqZ 0 16)).
Proof. reflexivity. Qed.

Example reshape_not_divisible :
  reshape (Tensor [3; 3]%nat (seqZ 0 9)) [3; 2; -1]
  = Raise (RuntimeError "shape is invalid for input size").
Proof. reflexivity. Qed.

Example path_join : os_path_join "./distil_bert_base_en_uncased" "config.json"
                    = "./distil_bert_base_en_uncased/config.json".
Proof. reflexivity. Qed.

Example replace_keys :
  str_replace ")" "" (str_replace "]" "" (str_replace "odict_keys([" ""
    (str_replace ", " (String "010" "") "odict_keys(['a', 'b'])")))
  = "'a'" +:+ String "010" "" +:+ "'b'".
Proof. reflexivity. Qed.

(* ===================================================================== *)
(** ** Lemmas on tensors *)
(* ===================================================================== *)

Section TensorFacts.
Context {elt : Type}.
Implicit Types (t : tensor elt) (l : list elt).

Lemma lookup_concat_uniform (ls : list (list elt)) (m j i : nat) :
  Forall (fun l => length l = m) ls → (i < m)%nat →
  concat ls !! (j * m + i)%nat = ls !! j ≫= (fun l => l !! i).
Proof.
  intros Hall Hi. revert j. induction Hall as [|l ls Hl _ IH]; intros j.
  - by rewrite lookup_nil.
  - destruct j as [|j]; simpl.
    + rewrite lookup_app_l by lia. done.
    + rewrite lookup_app_r by lia.
      replace (m + j * m + i - length l)%nat with (j * m + i)%nat by lia.
      apply IH.
Qed.

Lemma length_concat_uniform (ls : list (list elt)) (m : nat) :
  Forall (fun l => length l = m) ls → length (concat ls) = (length ls * m)%nat.
Proof.
  induction 1 as [|l ls Hl _ IH]; simpl; [done|].
  rewrite length_app, IH, Hl. lia.
Qed.

Lemma block_index_bound (r c b i j : nat) :
  (i < r)%nat → (j < c)%nat → ((i * c + j + 1) * b ≤ r * (c * b))%nat.
Proof.
  intros Hi Hj. rewrite Nat.mul_assoc. apply Nat.mul_le_mono_r.
  assert (i * c + c ≤ r * c)%nat by nia. lia.
Qed.

Lemma length_block b k l :
  ((k + 1) * b ≤ length l)%nat → length (block b k l) = b.
Proof.
  intros H. unfold block. rewrite length_take, length_drop. lia.
Qed.

Lemma lookup_block b k l x :
  (x < b)%nat → block b k l !! x = l !! (k * b + x)%nat.
Proof.
  intros H. unfold block. rewrite lookup_take_lt by done. apply lookup_drop.
Qed.

(** The elements of a transposed tensor, block by block. *)
Lemma transpose_lookup t r c rest i j x :
  tensor_wf t → shape t = r :: c :: rest →
  (i < r)%nat → (j < c)%nat → (x < numel rest)%nat →
  ∃ t', transpose_1_0 t = Ok t' ∧ shape t' = c :: r :: rest ∧
        data t' !! ((j * r + i) * numel rest + x)%nat
        = data t !! ((i * c + j) * numel rest + x)%nat.
Proof.
  intros Hwf Hs Hi Hj Hx. unfold transpose_1_0. rewrite Hs.
  eexists. split; [done|]. split; [done|]. simpl.
  set (b := numel rest) in *.
  assert (Hlen : length (data t) = (r * (c * b))%nat).
  { unfold tensor_wf in Hwf. rewrite Hwf, Hs. done. }
  assert (Hinner : ∀ j', (j' < c)%nat →
    Forall (fun l => length l = b)
      (map (fun i' => block b (i' * c + j') (data t)) (seq 0 r))).
  { intros j' Hj'. apply Forall_forall. intros l Hl.
    apply list_elem_of_fmap in Hl as (i' & -> & Hi').
    apply elem_of_seq in Hi'. apply length_block. rewrite Hlen.
    apply block_index_bound; lia. }
  replace ((j * r + i) * b + x)%nat with (j * (r * b) + (i * b + x))%nat by lia.
  rewrite (lookup_concat_uniform _ (r * b)); [|..|nia].
  - rewrite list_lookup_fmap, lookup_seq_lt by done. simpl.
    rewrite (lookup_concat_uniform _ b) by auto.
    rewrite list_lookup_fmap, lookup_seq_lt by done. simpl.
    by apply lookup_block.
  - apply Forall_forall. intros l Hl.
    apply list_elem_of_fmap in Hl as (j' & -> & Hj').
    apply elem_of_seq in Hj'.
    rewrite (length_concat_uniform _ b) by (apply Hinner; lia).
    by rewrite length_map, length_seq.
Qed.

Lemma transpose_shape t r c rest :
  shape t = r :: c :: rest →
  ∃ t', transpose_1_0 t = Ok t' ∧ shape t' = c :: r :: rest.
Proof. intros Hs. unfold transpose_1_0. rewrite Hs. eauto. Qed.

(** A matrix and its transpose. *)
Lemma transpose_get2 t r c i j :
  tensor_wf t → shape t = [r; c] →
  ∃ t', transpose_1_0 t = Ok t' ∧ shape t' = [c; r] ∧
        get2 t' j i = get2 t i j.
Proof.
  intros Hwf Hs.
  destruct (transpose_shape t r c [] Hs) as (t' & Ht' & Hs').
  exists t'. split; [done|]. split; [done|].
  unfold get2. rewrite Hs, Hs'.
  destruct (decide (i < r ∧ j < c)%nat) as [[Hi Hj]|Hn].
  - rewrite decide_True by done.
    destruct (transpose_lookup t r c [] i j 0 Hwf Hs Hi Hj) as (t'' & Ht'' & _ & Hl).
    { simpl. lia. }
    rewrite Ht' in Ht''. injection Ht'' as <-. simpl in Hl.
    by rewrite !Nat.mul_1_r, !Nat.add_0_r in Hl.
  - rewrite decide_False; [done|]. intros [??]. by apply Hn.
Qed.
End TensorFacts.

(* ===================================================================== *)
(** ** Lemmas on the layout changes *)
(* ===================================================================== *)

Section LayoutFacts.
Context {elt : Type}.
Implicit Types (t : tensor elt).

Lemma not_minus_one (z : Z) : 0 <= z → (z =? -1) = false.
Proof. intros. apply Z.eqb_neq. lia. Qed.

Lemma nonneg_leb (z : Z) : 0 <= z → (0 <=? z) = true.
Proof. intros. by apply Z.leb_le. Qed.

Lemma heads_divide_square (h n : Z) :
  0 < h → 0 < n → (n | h) → (h * h) mod (h * n) = 0 ∧ (h * h) mod (n * h) = 0.
Proof.
  intros Hh Hn Hd. assert (h mod n = 0) as Hm by (apply Z.mod_divide; [lia|done]).
  split.
  - rewrite Z.mul_mod_distr_l by lia. rewrite Hm. lia.
  - rewrite Z.mul_mod_distr_r by lia. rewrite Hm. lia.
Qed.

(** [reshape((hidden_dim, num_heads, -1))] on [hidden_dim * hidden_dim]
    elements. *)
Lemma infer_size_kernel (h n : Z) :
  0 < h → 0 < n → (n | h) →
  infer_size [h; n; -1] (h * h) = Ok [Z.to_nat h; Z.to_nat n; Z.to_nat (h / n)].
Proof.
  intros Hh Hn Hd. unfold infer_size. simpl.
  rewrite !not_minus_one, !nonneg_leb by lia. simpl.
  rewrite Z.mul_1_l.
  destruct (heads_divide_square h n Hh Hn Hd) as [Hm _]. rewrite Hm.
  assert ((0 <? h * n) = true) as -> by (apply Z.ltb_lt; nia).
  rewrite orb_true_r.
  assert ((h * n =? 0) = false) as -> by (apply Z.eqb_neq; nia).
  by rewrite Z.div_mul_cancel_l by lia.
Qed.

(** [reshape((num_heads, -1))] on [hidden_dim] elements. *)
Lemma infer_size_bias (h n : Z) :
  0 < h → 0 < n → (n | h) →
  infer_size [n; -1] h = Ok [Z.to_nat n; Z.to_nat (h / n)].
Proof.
  intros Hh Hn Hd. unfold infer_size. simpl.
  rewrite !not_minus_one, !nonneg_leb by lia. simpl.
  rewrite Z.mul_1_l.
  assert (h mod n = 0) as -> by (apply Z.mod_divide; [lia|done]).
  assert ((0 <? n) = true) as -> by (by apply Z.ltb_lt).
  rewrite orb_true_r.
  by assert ((n =? 0) = false) as -> by (apply Z.eqb_neq; lia).
Qed.

(** [reshape((num_heads, -1, hidden_dim))] on [hidden_dim * hidden_dim]
    elements. *)
Lemma infer_size_out (h n : Z) :
  0 < h → 0 < n → (n | h) →
  infer_size [n; -1; h] (h * h) = Ok [Z.to_nat n; Z.to_nat (h / n); Z.to_nat h].
Proof.
  intros Hh Hn Hd. unfold infer_size. simpl.
  rewrite !not_minus_one, !nonneg_leb by lia. simpl.
  rewrite Z.mul_1_l.
  destruct (heads_divide_square h n Hh Hn Hd) as [_ Hm]. rewrite Hm.
  assert ((0 <? n * h) = true) as -> by (apply Z.ltb_lt; nia).
  rewrite orb_true_r.
  assert ((n * h =? 0) = false) as -> by (apply Z.eqb_neq; nia).
  by rewrite Z.div_mul_cancel_r by lia.
Qed.

Lemma dict_item_get {V} (d : list (string * V)) k v :
  dict_get d k = Some v → dict_item d k = Ok v.
Proof. unfold dict_item. by intros ->. Qed.

Section WithDims.
Variables (d : dims) (cfg : list (string * pyval)).
Hypothesis Hwf : dims_wf d.
Hypothesis Hcfg : cfg_of d cfg.

Lemma square_numel : Z.of_nat (numel [dim_H d; dim_H d]) = d_dim d * d_dim d.
Proof.
  destruct Hwf as (Hh & _). unfold dim_H. simpl. lia.
Qed.

Lemma vector_numel : Z.of_nat (numel [dim_H d]) = d_dim d.
Proof.
  destruct Hwf as (Hh & _). unfold dim_H. simpl. lia.
Qed.

Lemma qkv_kernel_ok t :
  shape t = [dim_H d; dim_H d] →
  ∃ t', transpose_1_0 t = Ok t' ∧ shape t' = [dim_H d; dim_H d] ∧
        qkv_kernel cfg t = Ok (Tensor [dim_H d; dim_N d; dim_D d] (data t')).
Proof.
  intros Hs. destruct (transpose_shape t _ _ _ Hs) as (t' & Ht' & Hs').
  exists t'. split; [done|]. split; [done|].
  destruct Hwf as (Hh & Hn & Hd). destruct Hcfg as [Hhd Hnh].
  unfold qkv_kernel, reshape_py. rewrite Ht'. simpl.
  rewrite (dict_item_get _ _ _ Hhd), (dict_item_get _ _ _ Hnh). simpl.
  unfold reshape. rewrite Hs', square_numel.
  by rewrite infer_size_kernel.
Qed.

Lemma qkv_bias_ok t :
  shape t = [dim_H d] →
  qkv_bias cfg t = Ok (Tensor [dim_N d; dim_D d] (data t)).
Proof.
  intros Hs. destruct Hwf as (Hh & Hn & Hd). destruct Hcfg as [Hhd Hnh].
  unfold qkv_bias, reshape_py. simpl.
  rewrite (dict_item_get _ _ _ Hnh). simpl.
  unfold reshape. rewrite Hs, vector_numel.
  by rewrite infer_size_bias.
Qed.

Lemma out_kernel_ok t :
  shape t = [dim_H d; dim_H d] →
  ∃ t', transpose_1_0 t = Ok t' ∧ shape t' = [dim_H d; dim_H d] ∧
        out_kernel cfg t = Ok (Tensor [dim_N d; dim_D d; dim_H d] (data t')).
Proof.
  intros Hs. destruct (transpose_shape t _ _ _ Hs) as (t' & Ht' & Hs').
  exists t'. split; [done|]. split; [done|].
  destruct Hwf as (Hh & Hn & Hd). destruct Hcfg as [Hhd Hnh].
  unfold out_kernel, reshape_py. rewrite Ht'. simpl.
  rewrite (dict_item_get _ _ _ Hhd), (dict_item_get _ _ _ Hnh). simpl.
  unfold reshape. rewrite Hs', square_numel.
  by rewrite infer_size_out.
Qed.

(** The heads times the head size give the hidden size. *)
Lemma heads_times_size : (dim_N d * dim_D d)%nat = dim_H d.
Proof.
  destruct Hwf as (Hh & Hn & [k Hk]). unfold dim_N, dim_D, dim_H.
  rewrite Hk, Z.div_mul by lia. nia.
Qed.
(** The query, key and value kernels, element by element. *)
Lemma qkv_kernel_elements t :
  tensor_wf t → shape t = [dim_H d; dim_H d] →
  ∃ K, qkv_kernel cfg t = Ok K ∧ shape K = [dim_H d; dim_N d; dim_D d] ∧
       ∀ h n x, (h < dim_H d)%nat → (n < dim_N d)%nat → (x < dim_D d)%nat →
         ∃ y, get2 t (n * dim_D d + x) h = Some y ∧ get3 K h n x = Some y.
Proof.
  intros Ht Hs. destruct (qkv_kernel_ok t Hs) as (t' & Ht' & Hs' & HK).
  eexists. split; [exact HK|]. split; [done|].
  intros h n x Hh Hn Hx.
  pose proof heads_times_size as HND.
  assert (n * dim_D d + x < dim_H d)%nat as Hj by nia.
  destruct (transpose_get2 t _ _ (n * dim_D d + x)%nat h Ht Hs)
    as (t'' & Ht'' & _ & Hget).
  rewrite Ht' in Ht''. injection Ht'' as <-.
  assert (is_Some (get2 t (n * dim_D d + x) h)) as [y Hy].
  { unfold get2. rewrite Hs, decide_True by done.
    apply lookup_lt_is_Some. rewrite Ht, Hs. simpl. nia. }
  exists y. split; [done|]. rewrite <- Hy, <- Hget.
  unfold get3, get2. simpl. rewrite Hs'.
  rewrite !decide_True by done. f_equal. nia.
Qed.

(** The query, key and value biases, element by element. *)
Lemma qkv_bias_elements t :
  tensor_wf t → shape t = [dim_H d] →
  ∃ B, qkv_bias cfg t = Ok B ∧ shape B = [dim_N d; dim_D d] ∧
       ∀ n x, (n < dim_N d)%nat → (x < dim_D d)%nat →
         ∃ y, get1 t (n * dim_D d + x) = Some y ∧ get2 B n x = Some y.
Proof.
  intros Ht Hs. eexists. split; [by apply qkv_bias_ok|]. split; [done|].
  intros n x Hn Hx.
  pose proof heads_times_size as HND.
  assert (n * dim_D d + x < dim_H d)%nat as Hj by nia.
  assert (is_Some (get1 t (n * dim_D d + x))) as [y Hy].
  { unfold get1. rewrite Hs, decide_True by done.
    apply lookup_lt_is_Some. rewrite Ht, Hs. simpl. lia. }
  exists y. split; [done|]. rewrite <- Hy.
  unfold get1, get2. simpl. rewrite Hs.
  by rewrite !decide_True by done.
Qed.
End WithDims.

Lemma transposed_ok t r c :
  shape t = [r; c] →
  ∃ t', transposed t = Ok t' ∧ transpose_1_0 t = Ok t' ∧ shape t' = [c; r].
Proof.
  intros Hs. destruct (transpose_shape t _ _ _ Hs) as (t' & Ht' & Hs').
  exists t'. unfold transposed. by rewrite Ht'.
Qed.
End LayoutFacts.

(* ===================================================================== *)
(** ** Lemmas on computations *)
(* ===================================================================== *)

Section MonadFacts.
Context {elt : Type}.
Implicit Types (w : world elt) (km : keras_model elt).

Lemma after_nil w : after w [] = w.
Proof. destruct w. unfold after. simpl. by rewrite app_nil_r. Qed.

Lemma after_after w evs1 evs2 : after (after w evs1) evs2 = after w (evs1 ++ evs2).
Proof. unfold after. simpl. by rewrite app_assoc. Qed.

Lemma bind_Ok {A B} (m : M elt A) (f : A → M elt B) w w1 a :
  m w = (w1, Ok a) → bind m f w = f a w1.
Proof. unfold bind. by intros ->. Qed.

Lemma bind_Raise {A B} (m : M elt A) (f : A → M elt B) w w1 e :
  m w = (w1, Raise e) → bind m f w = (w1, Raise e).
Proof. unfold bind. by intros ->. Qed.

Lemma bind_inv_Ok {A B} (m : M elt A) (f : A → M elt B) w w' b :
  bind m f w = (w', Ok b) →
  ∃ a w1, m w = (w1, Ok a) ∧ f a w1 = (w', Ok b).
Proof.
  unfold bind. destruct (m w) as [w1 [a|e]]; [eauto|done].
Qed.

Lemma bind_ret_r {A} (m : M elt A) w : bind m ret w = m w.
Proof. unfold bind, ret. by destruct (m w) as [w1 [a|e]]. Qed.

Lemma bind_congr {A B} (m : M elt A) (f g : A → M elt B) w :
  (∀ a w1, m w = (w1, Ok a) → f a w1 = g a w1) → bind m f w = bind m g w.
Proof. unfold bind. destruct (m w) as [w1 [a|e]]; [auto|done]. Qed.

(** *** One assignment *)

Lemma variable_of_set km layer attr v layer' attr' :
  variable_of (set_variable km layer attr v) layer' attr'
  = if decide (layer = layer' ∧ attr = attr') then Some v
    else variable_of km layer' attr'.
Proof.
  unfold variable_of, set_variable. simpl.
  destruct (decide (layer = layer')) as [->|Hl].
  - rewrite lookup_insert_eq.
    destruct (decide (attr = attr')) as [->|Ha].
    + rewrite lookup_insert_eq. by rewrite decide_True.
    + rewrite lookup_insert_ne by done.
      rewrite decide_False by (intros [_ ?]; done).
      by destruct (layers km !! layer').
  - rewrite lookup_insert_ne by done.
    by rewrite decide_False by (intros [? _]; done).
Qed.

Lemma assign_weight_Ok hf_wts layer attr key layout km w var src v :
  variable_of km layer attr = Some var →
  dict_get hf_wts key = Some src →
  layout src = Ok v →
  shape var = shape v →
  assign_weight hf_wts layer attr key layout km w
  = (after w [EvAssign layer attr v], Ok (set_variable km layer attr v)).
Proof.
  unfold variable_of, assign_weight, get_layer, get_variable, dict_item,
    variable_assign, bind, lift, set_variable.
  intros Hv Hsrc Hlay Hsh.
  destruct (layers km !! layer) as [l|]; [|done]. simpl in *.
  rewrite Hv, Hsrc, Hlay. rewrite decide_True by done. done.
Qed.

Lemma assign_weight_inv_Ok hf_wts layer attr key layout km w w' km' :
  assign_weight hf_wts layer attr key layout km w = (w', Ok km') →
  ∃ var src v,
    variable_of km layer attr = Some var ∧
    dict_get hf_wts key = Some src ∧
    layout src = Ok v ∧
    shape var = shape v ∧
    w' = after w [EvAssign layer attr v] ∧
    km' = set_variable km layer attr v.
Proof.
  unfold variable_of, assign_weight, get_layer, get_variable, dict_item,
    variable_assign, bind, lift, set_variable, emit, ret, after.
  destruct (layers km !! layer) as [l|]; [|done]. simpl.
  destruct (l !! attr) as [var|]; [|done].
  destruct (dict_get hf_wts key) as [src|]; [|done].
  destruct (layout src) as [v|] eqn:Hlay; [|done].
  destruct (decide (shape var = shape v)); [|done].
  intros [= <- <-]. by eexists var, src, v.
Qed.

(** An assignment that fails leaves the world as it was. *)
Lemma assign_weight_inv_Raise hf_wts layer attr key layout km w w' e :
  assign_weight hf_wts layer attr key layout km w = (w', Raise e) → w' = w.
Proof.
  unfold assign_weight, get_layer, get_variable, dict_item,
    variable_assign, bind, lift.
  destruct (layers km !! layer) as [l|]; [|by intros [= <-]]. simpl.
  destruct (l !! attr) as [var|]; [|by intros [= <-]].
  destruct (dict_get hf_wts key) as [src|]; [|by intros [= <-]].
  destruct (layout src) as [v|]; [|by intros [= <-]].
  destruct (decide (shape var = shape v)); [done|by intros [= <-]].
Qed.
End MonadFacts.

(* ===================================================================== *)
(** ** The loop as a table *)
(* ===================================================================== *)

Section TableFacts.
Context {elt : Type}.
Variable hf_wts : list (string * tensor elt).
Implicit Types (w : world elt) (km : keras_model elt) (es : list (entry elt)).

Lemma run_entries_app es1 es2 km w :
  run_entries hf_wts (es1 ++ es2) km w
  = bind (run_entries hf_wts es1 km) (run_entries hf_wts es2) w.
Proof.
  revert km w. induction es1 as [|e es1 IH]; intros km w; [done|].
  simpl. unfold bind.
  destruct (assign_weight _ _ _ _ _ km w) as [w1 [km1|err]]; [|done].
  by rewrite IH.
Qed.

Lemma convert_layer_entries cfg i km w :
  convert_layer cfg hf_wts i km w = run_entries hf_wts (layer_entries cfg i) km w.
Proof.
  unfold convert_layer, layer_entries, run_entries, layer_name, hf_key. simpl.
  repeat (apply bind_congr; intros ? ? _).
  by rewrite bind_ret_r.
Qed.

Lemma for_each_entries cfg idx km w :
  for_each idx (convert_layer cfg hf_wts) km w
  = run_entries hf_wts (concat (layer_entries cfg <$> idx)) km w.
Proof.
  revert km w. induction idx as [|i idx IH]; intros km w; [done|].
  cbn [for_each]. rewrite fmap_cons, concat_cons, run_entries_app.
  unfold bind. rewrite convert_layer_entries.
  destruct (run_entries _ _ km w) as [w1 [km1|err]]; [apply IH|done].
Qed.

Lemma assign_weight_num_layers layer attr key layout km w w' km' :
  assign_weight hf_wts layer attr key layout km w = (w', Ok km') →
  num_layers km' = num_layers km.
Proof.
  intros H. apply assign_weight_inv_Ok in H as (?&?&?&_&_&_&_&_&->). done.
Qed.

(** The assignments of [convert_checkpoints] are the rows of the table,
    in order. *)
Lemma copy_weights_entries cfg km w :
  copy_weights cfg hf_wts km w
  = run_entries hf_wts (all_entries cfg (num_layers km)) km w.
Proof.
  unfold copy_weights, all_entries, embedding_entries.
  simpl app. simpl run_entries.
  apply bind_congr; intros km1 w1 H1.
  apply bind_congr; intros km2 w2 H2.
  apply bind_congr; intros km3 w3 H3.
  apply bind_congr; intros km4 w4 H4.
  rewrite for_each_entries.
  apply assign_weight_num_layers in H1, H2, H3, H4. congruence.
Qed.

Lemma omap_assign_cons e es v :
  entry_value hf_wts e = Some v →
  omap (assign_event hf_wts) (e :: es)
  = EvAssign (e_layer e) (e_attr e) v :: omap (assign_event hf_wts) es.
Proof.
  intros Hv. change (omap (assign_event hf_wts) (e :: es))
    with (match assign_event hf_wts e with
          | Some y => y :: omap (assign_event hf_wts) es
          | None => omap (assign_event hf_wts) es
          end).
  unfold assign_event at 1. by rewrite Hv.
Qed.

(** A table that runs to its end has assigned the value of every row. *)
Lemma run_entries_inv_Ok es km w w' km' :
  run_entries hf_wts es km w = (w', Ok km') →
  Forall (fun e => is_Some (entry_value hf_wts e)) es ∧
  w' = after w (omap (assign_event hf_wts) es) ∧
  km' = apply_entries hf_wts es km.
Proof.
  revert km w w' km'.
  induction es as [|e es IH]; intros km w w' km'; cbn [run_entries].
  - intros [= <- <-]. simpl. by rewrite after_nil.
  - intros H. apply bind_inv_Ok in H as (km1 & w1 & H1 & H2).
    apply assign_weight_inv_Ok in H1 as (var & src & v & _ & Hsrc & Hlay & _ & -> & ->).
    apply IH in H2 as (Hall & -> & ->).
    assert (entry_value hf_wts e = Some v) as Hv.
    { unfold entry_value. by rewrite Hsrc, Hlay. }
    split; [constructor; [by rewrite Hv|done]|].
    rewrite (omap_assign_cons _ _ _ Hv), after_after.
    split; [done|]. simpl. by rewrite Hv.
Qed.

(** Whatever the outcome, the rows change neither files nor directories,
    and the events are assignments of rows from the start of the
    table. *)
Lemma run_entries_world es km w w' r :
  run_entries hf_wts es km w = (w', r) →
  ∃ es1, es1 `prefix_of` es ∧ w' = after w (omap (assign_event hf_wts) es1) ∧
         length (omap (assign_event hf_wts) es1) = length es1.
Proof.
  revert km w w' r.
  induction es as [|e es IH]; intros km w w' r; cbn [run_entries].
  - intros [= <- <-]. exists []. simpl. by rewrite after_nil.
  - unfold bind.
    destruct (assign_weight _ _ _ _ _ km w) as [w1 [km1|err]] eqn:H1.
    + intros H2.
      apply assign_weight_inv_Ok in H1 as (var & src & v & _ & Hsrc & Hlay & _ & -> & ->).
      apply IH in H2 as (es1 & Hpre & -> & Hlen).
      exists (e :: es1). split; [by apply prefix_cons|].
      assert (entry_value hf_wts e = Some v) as Hv.
      { unfold entry_value. by rewrite Hsrc, Hlay. }
      rewrite (omap_assign_cons _ _ _ Hv), after_after. simpl.
      by rewrite Hlen.
    + intros [= <- <-]. apply assign_weight_inv_Raise in H1 as ->.
      exists []. split; [apply prefix_nil|]. simpl. by rewrite after_nil.
Qed.
End TableFacts.

(* ===================================================================== *)
(** ** Tables that fit the model *)
(* ===================================================================== *)

Section FitFacts.
Context {elt : Type}.
Variable hf_wts : list (string * tensor elt).
Implicit Types (w : world elt) (km : keras_model elt) (es : list (entry elt)).

Lemma entry_value_Some e v :
  entry_value hf_wts e = Some v →
  ∃ src, dict_get hf_wts (e_key e) = Some src ∧ e_layout e src = Ok v.
Proof.
  unfold entry_value. destruct (dict_get hf_wts (e_key e)) as [src|]; [|done].
  destruct (e_layout e src) as [v'|] eqn:Hl; [|done].
  intros [= <-]. eauto.
Qed.

Lemma entry_value_intro e src v :
  dict_get hf_wts (e_key e) = Some src → e_layout e src = Ok v →
  entry_value hf_wts e = Some v.
Proof. unfold entry_value. by intros -> ->. Qed.

(** Setting a variable to a value of its shape changes no shape. *)
Lemma set_variable_shape km layer attr v l a :
  shape <$> variable_of km layer attr = Some (shape v) →
  shape <$> variable_of (set_variable km layer attr v) l a
  = shape <$> variable_of km l a.
Proof.
  intros H. rewrite variable_of_set. case_decide as Hd; [|done].
  destruct Hd as [<- <-]. by rewrite H.
Qed.

Lemma entry_fits_set km layer attr v e :
  shape <$> variable_of km layer attr = Some (shape v) →
  entry_fits hf_wts km e → entry_fits hf_wts (set_variable km layer attr v) e.
Proof.
  intros H (v' & Hv' & Hs). exists v'. split; [done|].
  by rewrite set_variable_shape.
Qed.

(** A table whose rows all fit runs to its end: no lookup fails, no
    layout change fails, no shape differs. *)
Lemma run_entries_fit es km w :
  Forall (entry_fits hf_wts km) es →
  run_entries hf_wts es km w
  = (after w (omap (assign_event hf_wts) es), Ok (apply_entries hf_wts es km)).
Proof.
  revert km w. induction es as [|e es IH]; intros km w Hall.
  - simpl. by rewrite after_nil.
  - apply Forall_cons in Hall as [(v & Hv & Hs) Hall].
    destruct (entry_value_Some _ _ Hv) as (src & Hsrc & Hlay).
    destruct (variable_of km (e_layer e) (e_attr e)) as [var|] eqn:Hvar; [|done].
    injection Hs as Hs.
    cbn [run_entries].
    rewrite (bind_Ok _ _ _ _ _
               (assign_weight_Ok _ _ _ _ _ _ _ _ _ _ Hvar Hsrc Hlay Hs)).
    rewrite IH.
    + rewrite (omap_assign_cons _ _ _ _ Hv), after_after. simpl. by rewrite Hv.
    + eapply Forall_impl; [exact Hall|]. intros e'. apply entry_fits_set.
      rewrite Hvar. simpl. by rewrite Hs.
Qed.

(** *** The value a variable ends with *)

Lemma apply_entries_other es km l a :
  (l, a) ∉ target <$> es →
  variable_of (apply_entries hf_wts es km) l a = variable_of km l a.
Proof.
  revert km. induction es as [|e es IH]; intros km Hn; [done|].
  rewrite fmap_cons, not_elem_of_cons in Hn. destruct Hn as [Hne Hn].
  simpl. fold (apply_entries hf_wts es). rewrite IH by done.
  destruct (entry_value hf_wts e) as [v|]; [|done].
  rewrite variable_of_set. rewrite decide_False; [done|].
  intros [<- <-]. by apply Hne.
Qed.

Lemma apply_entries_lookup es km e v :
  NoDup (target <$> es) → e ∈ es → entry_value hf_wts e = Some v →
  variable_of (apply_entries hf_wts es km) (e_layer e) (e_attr e) = Some v.
Proof.
  revert km. induction es as [|e0 es IH]; intros km Hnd Hin Hv.
  - by apply elem_of_nil in Hin.
  - rewrite fmap_cons in Hnd. apply NoDup_cons in Hnd as [Hfresh Hnd].
    simpl. fold (apply_entries hf_wts es).
    apply elem_of_cons in Hin as [<-|Hin].
    + rewrite apply_entries_other by done. rewrite Hv, variable_of_set.
      by rewrite decide_True.
    + by apply IH.
Qed.
End FitFacts.

(* ===================================================================== *)
(** ** The table of a DistilBERT fits its backbone *)
(* ===================================================================== *)

Lemma layer_name_inj : Inj (=) (=) layer_name.
Proof.
  intros i j H. unfold layer_name in H. simpl in H.
  injection H as H. by apply pretty_Z_inj in H.
Qed.

Section DistilBertFacts.
Context {elt : Type}.
Variables (d : dims) (cfg : list (string * pyval)).
Variable hf_wts : list (string * tensor elt).
Variable km : keras_model elt.
Hypothesis Hwf : dims_wf d.
Hypothesis Hcfg : cfg_of d cfg.
Hypothesis Hsd : state_dict_shaped d hf_wts.
Hypothesis Hbb : backbone_shaped d km.

Lemma state_dict_layer (i : Z) :
  i ∈ seqZ 0 (d_n_layers d) →
  Forall (fun ks => ∃ t, dict_get hf_wts ks.1 = Some t ∧ shape t = ks.2 ∧ tensor_wf t)
    (state_dict_layer_shapes d i).
Proof.
  intros Hi. apply Forall_forall. intros [key s] Hin. apply Hsd.
  unfold state_dict_shapes. apply elem_of_app. right.
  apply list_elem_of_In, in_concat. exists (state_dict_layer_shapes d i).
  split; [|by apply list_elem_of_In].
  apply list_elem_of_In. by apply list_elem_of_fmap_2.
Qed.

Lemma backbone_layer (i : Z) :
  i ∈ seqZ 0 (d_n_layers d) →
  Forall (fun las => ∃ var, variable_of km las.1.1 las.1.2 = Some var ∧ shape var = las.2)
    (backbone_layer_shapes d i).
Proof.
  intros Hi. apply Forall_forall. intros [[layer attr] s] Hin.
  apply (proj2 Hbb).
  unfold backbone_shapes. apply elem_of_app. right.
  apply list_elem_of_In, in_concat. exists (backbone_layer_shapes d i).
  split; [|by apply list_elem_of_In].
  apply list_elem_of_In. by apply list_elem_of_fmap_2.
Qed.

(** Takes a list of facts apart, row by row. *)
Ltac split_rows H :=
  repeat match type of H with
         | Forall _ (_ :: _) =>
             let H1 := fresh "Hrow" in
             apply Forall_cons in H as [H1 H]; simpl in H1;
             destruct H1 as (? & H1);
             repeat match type of H1 with
                    | _ ∧ _ => let H2 := fresh "Hrow" in destruct H1 as [H2 H1]
                    end
         end.

(** The value of a row of the loop, by the layout change of the row. *)
Ltac row_value :=
  match goal with
  | Hs : shape ?t = _ |- context [qkv_kernel cfg ?t] =>
      let H := fresh in
      destruct (qkv_kernel_ok d cfg Hwf Hcfg t Hs) as (? & _ & _ & H); rewrite H
  | Hs : shape ?t = _ |- context [out_kernel cfg ?t] =>
      let H := fresh in
      destruct (out_kernel_ok d cfg Hwf Hcfg t Hs) as (? & _ & _ & H); rewrite H
  | Hs : shape ?t = _ |- context [qkv_bias cfg ?t] =>
      rewrite (qkv_bias_ok d cfg Hwf Hcfg t Hs)
  | Hs : shape ?t = _ |- context [transposed ?t] =>
      let H := fresh in let Hs' := fresh in
      destruct (transposed_ok t _ _ Hs) as (? & H & _ & Hs'); rewrite H
  | |- context [unchanged ?t] => unfold unchanged, numpy
  end.

Ltac fit_row :=
  unfold entry_fits, entry_value; cbn [e_key e_layout e_layer e_attr];
  match goal with
  | H : dict_get hf_wts ?k = Some _ |- context [dict_get hf_wts ?k] => rewrite H
  end;
  try row_value;
  eexists; split; [reflexivity|];
  match goal with
  | H : variable_of km ?l ?a = Some _ |- context [variable_of km ?l ?a] => rewrite H
  end;
  simpl; congruence.

Lemma layer_entries_fit (i : Z) :
  i ∈ seqZ 0 (d_n_layers d) →
  Forall (entry_fits hf_wts km) (layer_entries cfg i).
Proof.
  intros Hi.
  pose proof (state_dict_layer i Hi) as Hs.
  pose proof (backbone_layer i Hi) as Hb.
  unfold state_dict_layer_shapes in Hs. unfold backbone_layer_shapes in Hb.
  split_rows Hs. split_rows Hb.
  unfold layer_entries. repeat (apply Forall_cons; split); [fit_row..|].
  constructor.
Qed.

Lemma embedding_entries_fit : Forall (entry_fits hf_wts km) (@embedding_entries elt).
Proof.
  assert (Forall (fun ks => ∃ t, dict_get hf_wts ks.1 = Some t ∧ shape t = ks.2
                                 ∧ tensor_wf t)
            (take 4 (state_dict_shapes d))) as Hs.
  { apply Forall_forall. intros [key s] Hin. apply Hsd.
    unfold state_dict_shapes. apply elem_of_app. by left. }
  assert (Forall (fun las => ∃ var, variable_of km las.1.1 las.1.2 = Some var
                                    ∧ shape var = las.2)
            (take 4 (backbone_shapes d))) as Hb.
  { apply Forall_forall. intros [[layer attr] s] Hin. apply (proj2 Hbb).
    unfold backbone_shapes. apply elem_of_app. by left. }
  simpl in Hs, Hb. split_rows Hs. split_rows Hb.
  unfold embedding_entries. repeat (apply Forall_cons; split); [fit_row..|].
  constructor.
Qed.

Lemma Forall_concat_fmap {A B} (P : B → Prop) (f : A → list B) (l : list A) :
  (∀ x, x ∈ l → Forall P (f x)) → Forall P (concat (f <$> l)).
Proof.
  induction l as [|x l IH]; intros H; [constructor|].
  rewrite fmap_cons, concat_cons. apply Forall_app. split.
  - apply H. left.
  - apply IH. intros y Hy. apply H. by right.
Qed.

(** Every row of the table of a DistilBERT fits its backbone. *)
Lemma all_entries_fit :
  Forall (entry_fits hf_wts km) (all_entries cfg (d_n_layers d)).
Proof.
  unfold all_entries. apply Forall_app. split.
  - apply embedding_entries_fit.
  - apply Forall_concat_fmap. intros i Hi. by apply layer_entries_fit.
Qed.
End DistilBertFacts.

(** *** No variable is assigned twice *)

Section Targets.
Context {elt : Type}.
Variable cfg : list (string * pyval).

Lemma layer_targets_layer (i : Z) (x : string * string) :
  x ∈ target <$> @layer_entries elt cfg i → x.1 = layer_name i.
Proof.
  unfold layer_entries. simpl. rewrite !elem_of_cons, elem_of_nil.
  intros H. repeat destruct H as [->|H]; done.
Qed.

Lemma layer_targets_NoDup (i : Z) : NoDup (target <$> @layer_entries elt cfg i).
Proof.
  change (target <$> @layer_entries elt cfg i)
    with (pair (layer_name i) <$>
            [ "_self_attention_layer._query_dense.kernel";
              "_self_attention_layer._query_dense.bias";
              "_self_attention_layer._key_dense.kernel";
              "_self_attention_layer._key_dense.bias";
              "_self_attention_layer._value_dense.kernel";
              "_self_attention_layer._value_dense.bias";
              "_self_attention_layer._output_dense.kernel";
              "_self_attention_layer._output_dense.bias";
              "_self_attention_layer_norm.gamma";
              "_self_attention_layer_norm.beta";
              "_feedforward_intermediate_dense.kernel";
              "_feedforward_intermediate_dense.bias";
              "_feedforward_output_dense.kernel";
              "_feedforward_output_dense.bias";
              "_feedforward_layer_norm.gamma";
              "_feedforward_layer_norm.beta" ]).
  apply NoDup_fmap_2; [by intros a b [= ->]|].
  apply (bool_decide_unpack _). by vm_compute.
Qed.

Lemma loop_targets_layer (idx : list Z) (x : string * string) :
  x ∈ target <$> concat (@layer_entries elt cfg <$> idx) →
  ∃ j, j ∈ idx ∧ x.1 = layer_name j.
Proof.
  induction idx as [|i idx IH].
  - simpl. by intros ?%elem_of_nil.
  - rewrite fmap_cons, concat_cons, fmap_app, elem_of_app. intros [H|H].
    + exists i. split; [left|]. by apply layer_targets_layer.
    + destruct (IH H) as (j & Hj & Hx). exists j. split; [by right|done].
Qed.

Lemma loop_targets_NoDup (idx : list Z) :
  NoDup idx → NoDup (target <$> concat (@layer_entries elt cfg <$> idx)).
Proof.
  induction 1 as [|i idx Hi Hnd IH]; [constructor|].
  rewrite fmap_cons, concat_cons, fmap_app. apply NoDup_app.
  split; [apply layer_targets_NoDup|]. split; [|done].
  intros x Hx Hx'. apply layer_targets_layer in Hx.
  apply loop_targets_layer in Hx' as (j & Hj & Hx').
  rewrite Hx in Hx'. apply layer_name_inj in Hx'. by subst.
Qed.

(** The rows of the whole table assign to different variables. *)
Lemma all_targets_NoDup (n : Z) : NoDup (target <$> @all_entries elt cfg n).
Proof.
  unfold all_entries. rewrite fmap_app. apply NoDup_app.
  split; [|split].
  - apply (bool_decide_unpack _). by vm_compute.
  - intros x Hx Hx'. apply loop_targets_layer in Hx' as (j & _ & Hj).
    unfold embedding_entries in Hx. simpl in Hx.
    rewrite !elem_of_cons, elem_of_nil in Hx.
    unfold layer_name in Hj. simpl in Hj.
    repeat destruct Hx as [->|Hx]; done.
  - apply loop_targets_NoDup, NoDup_seqZ.
Qed.
End Targets.

(* ===================================================================== *)
(** ** What the loop leaves in the model *)
(* ===================================================================== *)

Section Assigned.
Context {elt : Type}.
Variable cfg : list (string * pyval).
Variable hf_wts : list (string * tensor elt).
Variable km : keras_model elt.

Lemma layer_entry_in_all (e : entry elt) (i n : Z) :
  i ∈ seqZ 0 n → e ∈ layer_entries cfg i → e ∈ all_entries cfg n.
Proof.
  intros Hi He. unfold all_entries. apply elem_of_app. right.
  apply list_elem_of_In, in_concat. exists (layer_entries cfg i).
  split; [|by apply list_elem_of_In].
  apply list_elem_of_In. by apply list_elem_of_fmap_2.
Qed.

(** After a run that returns, the variable of a row holds the value of
    the row. *)
Lemma row_assigned w w' km' (e : entry elt) v :
  copy_weights cfg hf_wts km w = (w', Ok km') →
  e ∈ all_entries cfg (num_layers km) →
  entry_value hf_wts e = Some v →
  variable_of km' (e_layer e) (e_attr e) = Some v.
Proof.
  rewrite copy_weights_entries. intros H He Hv.
  apply run_entries_inv_Ok in H as (_ & _ & ->).
  by apply apply_entries_lookup; [apply all_targets_NoDup|..].
Qed.

(** The assignments of a DistilBERT to its backbone all go through. *)
Lemma copy_weights_fit d w :
  dims_wf d → cfg_of d cfg → state_dict_shaped d hf_wts → backbone_shaped d km →
  copy_weights cfg hf_wts km w
  = (after w (omap (assign_event hf_wts) (all_entries cfg (d_n_layers d))),
     Ok (apply_entries hf_wts (all_entries cfg (d_n_layers d)) km)).
Proof.
  intros Hwf Hcfg Hsd Hbb.
  rewrite copy_weights_entries. rewrite (proj1 Hbb).
  apply run_entries_fit. by apply (all_entries_fit d).
Qed.

Lemma fitting_rows_all_assign (es : list (entry elt)) :
  Forall (entry_fits hf_wts km) es →
  length (omap (assign_event hf_wts) es) = length es.
Proof.
  induction 1 as [|e es (v & Hv & _) _ IH]; [done|].
  rewrite (omap_assign_cons _ _ _ _ Hv). simpl. by rewrite IH.
Qed.
End Assigned.

Ltac in_table := repeat first [apply list_elem_of_here | apply list_elem_of_further].

(** C8.  When the configuration has positive sizes with a hidden size that
    the number of heads divides, the state dictionary holds the tensors of
    a DistilBERT of that configuration and the destination is a backbone of
    the same configuration, the assignments of [convert_checkpoints] run to
    the end, one event for each row of the table; and each row finds its
    variable and its source, its layout change goes through (the [-1] of
    each reshape is resolved), and [variable.assign] accepts the value:
    the shape-mismatch error is not reached. *)
Theorem shape_mismatch_unreachable {elt : Type} (d : dims)
    (cfg : list (string * pyval)) (hf_wts : list (string * tensor elt))
    (km : keras_model elt) (w : world elt) :
  dims_wf d → cfg_of d cfg → state_dict_shaped d hf_wts → backbone_shaped d km →
  (∃ evs km',
     copy_weights cfg hf_wts km w = (after w evs, Ok km') ∧
     length evs = length (all_entries (elt:=elt) cfg (num_layers km))) ∧
  ∀ e, e ∈ all_entries cfg (num_layers km) →
    ∃ var src value,
      variable_of km (e_layer e) (e_attr e) = Some var ∧
      dict_get hf_wts (e_key e) = Some src ∧
      e_layout e src = Ok value ∧
      variable_assign var value = Ok value.
Proof.
  intros Hwf Hcfg Hsd Hbb.
  pose proof (all_entries_fit d cfg hf_wts km Hwf Hcfg Hsd Hbb) as Hfit.
  rewrite (proj1 Hbb). split.
  - eexists _, _. split; [by apply (copy_weights_fit cfg hf_wts km d)|].
    by apply (fitting_rows_all_assign hf_wts km).
  - intros e He. rewrite Forall_forall in Hfit.
    destruct (Hfit e He) as (v & Hv & Hs).
    destruct (entry_value_Some _ _ _ Hv) as (src & Hsrc & Hlay).
    destruct (variable_of km (e_layer e) (e_attr e)) as [var|]; [|done].
    exists var, src, v. repeat split; try done.
    unfold variable_assign. injection Hs as Hs. by rewrite decide_True.
Qed.

(** C10.  After a weight remapping that returns, for every layer [i] and
    each of the query, key and value projections: the kernel of the
    destination is the source weight matrix [W], of shape
    [[hidden_dim, hidden_dim]], transposed and reshaped to
    [(hidden_dim, num_heads, hidden_dim / num_heads)], that is
    [kernel[h, n, x] = W[n * (hidden_dim / num_heads) + x, h]]; and the
    bias is the source bias [b] reshaped to
    [(num_heads, hidden_dim / num_heads)], that is
    [bias[n, x] = b[n * (hidden_dim / num_heads) + x]]. *)
Theorem qkv_kernels_and_biases {elt : Type} (d : dims)
    (cfg : list (string * pyval)) (hf_wts : list (string * tensor elt))
    (km : keras_model elt) (w w' : world elt) (km' : keras_model elt)
    (i : Z) (dense lin : string) (W b : tensor elt) :
  dims_wf d → cfg_of d cfg →
  copy_weights cfg hf_wts km w = (w', Ok km') →
  0 <= i < num_layers km →
  (dense, lin) ∈ projections →
  dict_get hf_wts (hf_key i (".attention." +:+ lin +:+ ".weight")) = Some W →
  tensor_wf W → shape W = [dim_H d; dim_H d] →
  dict_get hf_wts (hf_key i (".attention." +:+ lin +:+ ".bias")) = Some b →
  tensor_wf b → shape b = [dim_H d] →
  ∃ K B,
    variable_of km' (layer_name i)
      ("_self_attention_layer." +:+ dense +:+ ".kernel") = Some K ∧
    shape K = [dim_H d; dim_N d; dim_D d] ∧
    variable_of km' (layer_name i)
      ("_self_attention_layer." +:+ dense +:+ ".bias") = Some B ∧
    shape B = [dim_N d; dim_D d] ∧
    (∀ h n x, (h < dim_H d)%nat → (n < dim_N d)%nat → (x < dim_D d)%nat →
       ∃ y, get2 W (n * dim_D d + x) h = Some y ∧ get3 K h n x = Some y) ∧
    (∀ n x, (n < dim_N d)%nat → (x < dim_D d)%nat →
       ∃ y, get1 b (n * dim_D d + x) = Some y ∧ get2 B n x = Some y).
Proof.
  intros Hwf Hcfg Hrun Hi Hp HW HWwf HWs Hb Hbwf Hbs.
  destruct (qkv_kernel_elements d cfg Hwf Hcfg W HWwf HWs) as (K & HK & HKs & HKel).
  destruct (qkv_bias_elements d cfg Hwf Hcfg b Hbwf Hbs) as (B & HB & HBs & HBel).
  exists K, B.
  assert (i ∈ seqZ 0 (num_layers km)) as Hin by (apply elem_of_seqZ; lia).
  unfold projections in Hp. rewrite !elem_of_cons, elem_of_nil in Hp.
  destruct Hp as [[= -> ->]|[[= -> ->]|[[= -> ->]|[]]]].
  all: repeat split; try done.
  - apply (row_assigned cfg hf_wts km w w' km'
             (Entry (layer_name i) "_self_attention_layer._query_dense.kernel"
                (hf_key i ".attention.q_lin.weight") (qkv_kernel cfg)) K Hrun).
    + apply (layer_entry_in_all cfg _ i _ Hin). in_table.
    + apply (entry_value_intro hf_wts _ W); [exact HW|exact HK].
  - apply (row_assigned cfg hf_wts km w w' km'
             (Entry (layer_name i) "_self_attention_layer._query_dense.bias"
                (hf_key i ".attention.q_lin.bias") (qkv_bias cfg)) B Hrun).
    + apply (layer_entry_in_all cfg _ i _ Hin). in_table.
    + apply (entry_value_intro hf_wts _ b); [exact Hb|exact HB].
  - apply (row_assigned cfg hf_wts km w w' km'
             (Entry (layer_name i) "_self_attention_layer._key_dense.kernel"
                (hf_key i ".attention.k_lin.weight") (qkv_kernel cfg)) K Hrun).
    + apply (layer_entry_in_all cfg _ i _ Hin). in_table.
    + apply (entry_value_intro hf_wts _ W); [exact HW|exact HK].
  - apply (row_assigned cfg hf_wts km w w' km'
             (Entry (layer_name i) "_self_attention_layer._key_dense.bias"
                (hf_key i ".attention.k_lin.bias") (qkv_bias cfg)) B Hrun).
    + apply (layer_entry_in_all cfg _ i _ Hin). in_table.
    + apply (entry_value_intro hf_wts _ b); [exact Hb|exact HB].
  - apply (row_assigned cfg hf_wts km w w' km'
             (Entry (layer_name i) "_self_attention_layer._value_dense.kernel"
                (hf_key i ".attention.v_lin.weight") (qkv_kernel cfg)) K Hrun).
    + apply (layer_entry_in_all cfg _ i _ Hin). in_table.
    + apply (entry_value_intro hf_wts _ W); [exact HW|exact HK].
  - apply (row_assigned cfg hf_wts km w w' km'
             (Entry (layer_name i) "_self_attention_layer._value_dense.bias"
                (hf_key i ".attention.v_lin.bias") (qkv_bias cfg)) B Hrun).
    + apply (layer_entry_in_all cfg _ i _ Hin). in_table.
    + apply (entry_value_intro hf_wts _ b); [exact Hb|exact HB].
Qed.

(* ===================================================================== *)
(** ** The concrete run *)
(* ===================================================================== *)

Lemma demo_dims_wf : dims_wf demo_dims.
Proof. unfold dims_wf, demo_dims. simpl. repeat split; try lia. by exists 2. Qed.

Lemma demo_cfg_of : cfg_of demo_dims demo_cfg.
Proof. by split. Qed.

Lemma demo_state_dict_shaped : state_dict_shaped demo_dims demo_wts.
Proof.
  intros key s Hin.
  assert (Forall (fun ks => ∃ t, dict_get demo_wts ks.1 = Some t ∧ shape t = ks.2
                                 ∧ tensor_wf t)
            (state_dict_shapes demo_dims)) as Hall.
  { vm_compute state_dict_shapes.
    repeat (apply Forall_cons; split;
            [eexists; split; [by vm_compute|by split]|]).
    constructor. }
  rewrite Forall_forall in Hall. apply (Hall _ Hin).
Qed.

Lemma demo_backbone_shaped : backbone_shaped demo_dims demo_km.
Proof.
  split; [done|]. intros layer attr s Hin.
  assert (Forall (fun las => ∃ var, variable_of demo_km las.1.1 las.1.2 = Some var
                                    ∧ shape var = las.2)
            (backbone_shapes demo_dims)) as Hall.
  { vm_compute backbone_shapes.
    repeat (apply Forall_cons; split;
            [eexists; split; [by vm_compute|done]|]).
    constructor. }
  rewrite Forall_forall in Hall. apply (Hall _ Hin).
Qed.

Lemma shape_mismatch_unreachable_witness :
  dims_wf demo_dims ∧ cfg_of demo_dims demo_cfg ∧
  state_dict_shaped demo_dims demo_wts ∧ backbone_shaped demo_dims demo_km ∧
  ∃ evs km',
    copy_weights demo_cfg demo_wts demo_km empty_world = (after empty_world evs, Ok km') ∧
    length evs = length (all_entries (elt:=Z) demo_cfg (num_layers demo_km)).
Proof.
  split; [exact demo_dims_wf|]. split; [exact demo_cfg_of|].
  split; [exact demo_state_dict_shaped|]. split; [exact demo_backbone_shaped|].
  exact (proj1 (shape_mismatch_unreachable demo_dims demo_cfg demo_wts demo_km
                  empty_world demo_dims_wf demo_cfg_of demo_state_dict_shaped
                  demo_backbone_shaped)).
Defined.

Lemma qkv_kernels_and_biases_witness :
  ∃ w' km' K,
    copy_weights demo_cfg demo_wts demo_km empty_world = (w', Ok km') ∧
    variable_of km' (layer_name 1) "_self_attention_layer._key_dense.kernel"
    = Some K ∧
    ∃ y, get2 (demo_tensor 2200 [4; 4]%nat) (1 * 2 + 0) 3 = Some y ∧
         get3 K 3 1 0 = Some y.
Proof.
  pose proof (copy_weights_fit demo_cfg demo_wts demo_km demo_dims empty_world
                demo_dims_wf demo_cfg_of demo_state_dict_shaped
                demo_backbone_shaped) as Hrun.
  destruct (qkv_kernels_and_biases demo_dims demo_cfg demo_wts demo_km
              empty_world _ _ 1 "_key_dense" "k_lin"
              (demo_tensor 2200 [4; 4]%nat) (demo_tensor 2300 [4]%nat)
              demo_dims_wf demo_cfg_of Hrun)
    as (K & B & HK & _ & _ & _ & Hel & _).
  - unfold demo_km. cbn [num_layers]. lia.
  - unfold projections. in_table.
  - by vm_compute.
  - reflexivity.
  - reflexivity.
  - by vm_compute.
  - reflexivity.
  - reflexivity.
  - eexists _, _, K. split; [exact Hrun|]. split; [exact HK|].
    apply (Hel 3 1 0)%nat; vm_compute; lia.
Defined.
(* ===================================================================== *)
(** ** The runs of the input and output steps *)
(* ===================================================================== *)

Section RunFacts.
Context {elt : Type}.
Variable env : Env elt.
Implicit Types (w : world elt).

Lemma lift_run {A} (r : result A) w w' r' : lift r w = (w', r') → w' = w ∧ r' = r.
Proof. by intros [= <- <-]. Qed.

Lemma emit_inv (ev : event elt) w w' r :
  emit ev w = (w', r) → w' = after w [ev] ∧ r = Ok tt.
Proof. by intros [= <- <-]. Qed.

Lemma ret_run {A} (a : A) w w' r : ret a w = (w', r) → w' = w ∧ r = Ok a.
Proof. by intros [= <- <-]. Qed.

Lemma os_path_exists_run p w w' r :
  os_path_exists p w = (w', r) → w' = w ∧ r = Ok (path_exists w p).
Proof. by intros [= <- <-]. Qed.

Lemma os_makedirs_run p w w' r :
  os_makedirs p w = (w', r) →
  (r = Ok tt ∧
   w' = World (files w)
          (dirs w ∪ {[normpath p]} ∪ list_to_set (dir_prefixes (normpath p)))
          (trace w ++ [EvMakedirs p])) ∨
  (∃ e, r = Raise e ∧ w' = w).
Proof.
  unfold os_makedirs. repeat case_match; intros [= <- <-]; eauto.
Qed.

Lemma write_file_run p c w w' r :
  write_file p c w = (w', r) →
  (r = Ok tt ∧
   w' = World (<[normpath p := c]> (files w)) (dirs w) (trace w ++ [EvWrite p c])) ∨
  (∃ e, r = Raise e ∧ w' = w).
Proof.
  unfold write_file. repeat case_match; intros [= <- <-]; eauto.
Qed.

Lemma read_file_run p w w' r :
  read_file p w = (w', r) →
  w' = w ∧ ((∃ c, r = Ok c ∧ files w !! normpath p = Some c) ∨ ∃ e, r = Raise e).
Proof.
  unfold read_file. repeat case_match; intros [= <- <-]; eauto.
Qed.

Lemma http_get_run url w w' r :
  http_get env url w = (w', r) →
  w' = after w [EvHttp (get_request url)] ∧ r = requests_get env (get_request url).
Proof. unfold http_get, bind, emit, lift. simpl. by intros [= <- <-]. Qed.

Lemma get_md5_checksum_run p w w' r :
  get_md5_checksum env p w = (w', r) →
  w' = w ∧ ((∃ c, r = Ok (md5_hexdigest env c) ∧ files w !! normpath p = Some c)
            ∨ ∃ e, r = Raise e).
Proof.
  unfold get_md5_checksum, bind, ret.
  destruct (read_file p w) as [w1 [c|e]] eqn:Hr;
    apply read_file_run in Hr as [-> Hr]; intros [= <- <-]; split; try done.
  - destruct Hr as [(c' & [= <-] & Hc)|[e [=]]]. eauto.
  - eauto.
Qed.

Lemma calls_app (l k : list (event elt)) : calls (l ++ k) = calls l ++ calls k.
Proof. apply omap_app. Qed.

Lemma http_requests_app (l k : list (event elt)) :
  http_requests (l ++ k) = http_requests l ++ http_requests k.
Proof. apply omap_app. Qed.

Lemma written_paths_app (l k : list (event elt)) :
  written_paths (l ++ k) = written_paths l ++ written_paths k.
Proof. apply omap_app. Qed.

Lemma made_dirs_app (l k : list (event elt)) :
  made_dirs (l ++ k) = made_dirs l ++ made_dirs k.
Proof. apply omap_app. Qed.

Lemma quiet_app (l k : list (event elt)) : quiet l → quiet k → quiet (l ++ k).
Proof.
  unfold quiet. intros (H1 & H2 & H3 & H4) (K1 & K2 & K3 & K4).
  by rewrite calls_app, http_requests_app, written_paths_app, made_dirs_app,
    H1, H2, H3, H4, K1, K2, K3, K4.
Qed.

(** The events of the table are assignments only. *)
Lemma assign_events_quiet hf_wts (es : list (entry elt)) :
  quiet (omap (assign_event hf_wts) es).
Proof.
  induction es as [|e es IH]; [done|].
  destruct (entry_value hf_wts e) as [v|] eqn:Hv.
  - rewrite (omap_assign_cons _ _ _ _ Hv). apply (quiet_app [_]); done.
  - replace (omap (assign_event hf_wts) (e :: es))
      with (omap (assign_event hf_wts) es); [done|].
    change (omap (assign_event hf_wts) (e :: es))
      with (match assign_event hf_wts e with
            | Some y => y :: omap (assign_event hf_wts) es
            | None => omap (assign_event hf_wts) es
            end).
    unfold assign_event at 2. by rewrite Hv.
Qed.

(** Whatever its outcome, [copy_weights] touches no file and its events
    are assignments. *)
Lemma copy_weights_run cfg hf_wts km w w' r :
  copy_weights cfg hf_wts km w = (w', r) →
  ∃ evs, w' = after w evs ∧ quiet evs.
Proof.
  rewrite copy_weights_entries. intros H.
  apply run_entries_world in H as (es1 & _ & -> & _).
  eexists. split; [done|]. apply assign_events_quiet.
Qed.
End RunFacts.

(** Takes the outcome of a primitive step apart. *)
Ltac prim_inv Hm :=
  lazymatch type of Hm with
  | (if ?c then _ else _) _ = _ => destruct c eqn:?; prim_inv Hm
  | emit _ _ = _ => apply emit_inv in Hm as [-> [=]]
  | print _ _ = _ => apply emit_inv in Hm as [-> [=]]
  | lift _ _ = _ => apply lift_run in Hm as [-> Hm]; symmetry in Hm
  | ret _ _ = _ => apply ret_run in Hm as [-> [=]]
  | os_path_exists _ _ = _ => apply os_path_exists_run in Hm as [-> [=]]
  | os_makedirs _ _ = _ =>
      apply os_makedirs_run in Hm as [[[=] ->]|(? & [=] & ->)]
  | write_file _ _ _ = _ =>
      apply write_file_run in Hm as [[[=] ->]|(? & [=] & ->)]
  | read_file _ _ = _ =>
      apply read_file_run in Hm as [-> [(? & [=] & Hm)|(? & [=])]]
  | get_md5_checksum _ _ _ = _ =>
      apply get_md5_checksum_run in Hm as [-> [(? & [=] & Hm)|(? & [=])]]
  | http_get _ _ _ = _ => apply http_get_run in Hm as [-> Hm]; symmetry in Hm
  | copy_weights _ _ _ _ = _ =>
      let Hq := fresh "Hquiet" in
      apply copy_weights_run in Hm as (? & -> & Hq)
  | _ => idtac
  end; subst.

(** Runs the first statement of a sequence, in both outcomes. *)
Ltac run_step H :=
  lazymatch type of H with
  | (let (_, _) := ?p in _) _ = _ => destruct p
  | bind ?m ?k ?w = _ =>
      let Hm := fresh "Hm" in
      let w1 := fresh "w" in
      destruct (m w) as [w1 [?|?]] eqn:Hm;
      [ rewrite (bind_Ok _ _ _ _ _ Hm) in H
      | rewrite (bind_Raise _ _ _ _ _ Hm) in H;
        first [discriminate H | injection H as <- <-] ];
      prim_inv Hm; cbv beta zeta in *
  end.

Ltac run_all H := cbv zeta in H; repeat run_step H; try prim_inv H.

(** Reads the trace of an explicit world. *)
Ltac read_trace :=
  unfold after; cbn [trace files dirs];
  rewrite <- ?app_assoc; try reflexivity.

Ltac is_prefix := eexists; reflexivity.

(* ===================================================================== *)
(** ** The runs of the four functions *)
(* ===================================================================== *)

Section StepFacts.
Context {elt : Type}.
Variable env : Env elt.
Variable preset : string.
Implicit Types (w : world elt).

(** [download_files], whatever its outcome: it announces itself, sends at
    most the two requests, in order, and writes at most the two files. *)
Lemma download_files_run hf w w' r :
  download_files env preset hf w = (w', r) →
  ∃ evs,
    trace w' = trace w ++ EvCall "download_files" :: evs ∧
    calls evs = [] ∧
    http_requests evs `prefix_of`
      [get_request (config_url hf); get_request (vocab_url hf)] ∧
    written_paths evs `prefix_of` [config_path preset; vocab_path preset] ∧
    made_dirs evs `prefix_of` [EXTRACT_DIR_format preset] ∧
    (∀ u, r = Ok u →
       http_requests evs = [get_request (config_url hf); get_request (vocab_url hf)] ∧
       written_paths evs = [config_path preset; vocab_path preset] ∧
       ∃ c v,
         requests_get env (get_request (config_url hf)) = Ok c ∧
         requests_get env (get_request (vocab_url hf)) = Ok v ∧
         files w' = <[normpath (vocab_path preset) := v]>
                      (<[normpath (config_path preset) := c]> (files w))).
Proof.
  unfold download_files. intros H. run_all H.
  all: eexists; split; [read_trace|].
  all: repeat split; try reflexivity; try is_prefix; try (by intros ? [=]).
  all: try discriminate.
  all: eexists _, _; split; [eassumption|]; split; [eassumption|]; reflexivity.
Qed.

(** [define_preprocessor], whatever its outcome: it announces itself and
    touches neither the network nor the files. *)
Lemma define_preprocessor_run hf w w' r :
  define_preprocessor env preset hf w = (w', r) →
  ∃ evs, w' = after w (EvCall "define_preprocessor" :: evs) ∧ quiet evs.
Proof.
  unfold define_preprocessor. intros H. run_all H.
  all: rewrite ?after_after; eexists; split; [reflexivity|done].
Qed.

(** [check_output], whatever its outcome. *)
Lemma check_output_run kp km ht hfm w w' r :
  check_output env preset kp km ht hfm w = (w', r) →
  ∃ evs, w' = after w (EvCall "check_output" :: evs) ∧ quiet evs.
Proof.
  unfold check_output. intros H. run_all H.
  all: rewrite ?after_after; eexists; split; [reflexivity|done].
Qed.

(** [convert_checkpoints], whatever its outcome: it announces itself,
    sends nothing, and writes at most the weights file, as its last
    step. *)
Lemma convert_checkpoints_run km hfm w w' r :
  convert_checkpoints env preset km hfm w = (w', r) →
  ∃ evs,
    trace w' = trace w ++ EvCall "convert_checkpoints" :: evs ∧
    calls evs = [] ∧ http_requests evs = [] ∧ made_dirs evs = [] ∧
    dirs w' = dirs w ∧
    written_paths evs `prefix_of` [weights_path preset] ∧
    (∀ e, r = Raise e → files w' = files w ∧ written_paths evs = []) ∧
    (∀ km', r = Ok km' →
       written_paths evs = [weights_path preset] ∧
       ∃ saved,
         save_weights_bytes env km' (weights_path preset) = Ok saved ∧
         files w' = <[normpath (weights_path preset) := saved]> (files w)).
Proof.
  unfold convert_checkpoints. intros H. run_all H.
  all: try match goal with Hq : quiet _ |- _ => destruct Hq as (Hq1 & Hq2 & Hq3 & Hq4) end.
  all: eexists; split; [read_trace|].
  all: rewrite ?calls_app, ?http_requests_app, ?made_dirs_app, ?written_paths_app,
         ?Hq1, ?Hq2, ?Hq3, ?Hq4; cbn [trace files dirs].
  all: repeat split; try reflexivity; try is_prefix.
  all: intros; try discriminate; simplify_eq; try reflexivity.
  all: eexists; split; [eassumption|reflexivity].
Qed.
End StepFacts.

(* ===================================================================== *)
(** ** The runs of [main] *)
(* ===================================================================== *)

Section MainFacts.
Context {elt : Type}.
Variable env : Env elt.
Variable preset : string.
Implicit Types (w : world elt).

Lemma dict_item_Ok {V} (d : list (string * V)) k v :
  dict_item d k = Ok v ↔ dict_get d k = Some v.
Proof. unfold dict_item. destruct (dict_get d k); split; congruence. Qed.

Lemma dict_item_Raise {V} (d : list (string * V)) k e :
  dict_item d k = Raise e ↔ dict_get d k = None ∧ e = KeyError k.
Proof.
  unfold dict_item. destruct (dict_get d k); split; try congruence.
  - by intros [[=] _].
  - by intros [= <-].
  - by intros [_ ->].
Qed.

(** What [main] does when all its statements return. *)
Lemma main_inv_Ok w w' u :
  main env preset w = (w', Ok u) →
  ∃ hf w1 w2 pp km hfm w3 km',
    dict_get PRESET_MAP preset = Some hf ∧
    download_files env preset hf w = (w1, Ok tt) ∧
    define_preprocessor env preset hf w1 = (w2, Ok pp) ∧
    backbone_from_preset env preset false = Ok km ∧
    auto_model_from_pretrained env hf = Ok hfm ∧
    convert_checkpoints env preset km (hf_eval hfm)
      (after w2 (load_keras_events preset ++ load_hf_events hf)) = (w3, Ok km') ∧
    check_output env preset pp.1 km' pp.2 (hf_eval hfm) w3 = (w', Ok u).
Proof.
  unfold main. intros H. run_all H.
  match goal with u : unit |- _ => destruct u end.
  apply dict_item_Ok in Hm.
  rewrite !after_after in *. cbn [app] in *.
  eexists _, _, _, (_, _), _, _, _, _. repeat split; eassumption.
Qed.

(** A run of [main] ends with an exception exactly when one of its
    statements raises it; the world is then the one that statement left. *)
Lemma main_Raise_iff w w' e :
  main env preset w = (w', Raise e) ↔ main_failure env preset w w' e.
Proof.
  split.
  - unfold main. intros H. run_all H.
    all: rewrite ?after_after in *; cbn [app] in *.
    all: try match goal with u : unit |- _ => destruct u end.
    all: try (apply dict_item_Ok in Hm).
    + eapply (check_failed _ _ _ _ _ _ (_, _)); eassumption.
    + eapply (convert_failed _ _ _ _ _ _ (_, _)); eassumption.
    + eapply (hf_model_failed _ _ _ _ _ _ (_, _)); eassumption.
    + eapply (backbone_failed _ _ _ _ _ _ (_, _)); eassumption.
    + eapply preprocessor_failed; eassumption.
    + eapply download_failed; eassumption.
    + apply dict_item_Raise in Hm as [Hm ->]. by apply unknown_preset.
  - intros H. unfold main.
    destruct H as [Hp|hf w1 e Hp Hd|hf w1 w2 e Hp Hd Hpp|hf w1 w2 pp e Hp Hd Hpp Hk
                  |hf w1 w2 pp km e Hp Hd Hpp Hk Hh
                  |hf w1 w2 pp km hfm w3 e Hp Hd Hpp Hk Hh Hc
                  |hf w1 w2 pp km hfm w3 km' w4 e Hp Hd Hpp Hk Hh Hc Hch].
    all: unfold bind, lift, print, emit.
    all: try (rewrite (proj2 (dict_item_Ok _ _ _) Hp)).
    + by rewrite (proj2 (dict_item_Raise _ _ _) (conj Hp eq_refl)).
    + by rewrite Hd.
    + by rewrite Hd, Hpp.
    + rewrite Hd, Hpp. destruct pp. cbn [trace files dirs]. rewrite Hk.
      unfold after, load_keras_events. cbn [trace files dirs].
      by rewrite <- !app_assoc.
    + rewrite Hd, Hpp. destruct pp. cbn [trace files dirs]. rewrite Hk, Hh.
      unfold after, load_keras_events, load_hf_events. cbn [trace files dirs].
      by rewrite <- !app_assoc.
    + rewrite Hd, Hpp. destruct pp. cbn [trace files dirs]. rewrite Hk, Hh.
      unfold after, load_keras_events, load_hf_events in Hc.
      cbn [trace files dirs] in *. rewrite <- !app_assoc. cbn [app] in *.
      by rewrite Hc.
    + rewrite Hd, Hpp. destruct pp. cbn [trace files dirs]. rewrite Hk, Hh.
      unfold after, load_keras_events, load_hf_events in Hc.
      cbn [trace files dirs] in *. rewrite <- !app_assoc. cbn [app] in *.
      by rewrite Hc.
Qed.
End MainFacts.

(** Splits the events of a call off, and reads the four things a trace
    shows with the facts at hand. *)
Ltac split_calls :=
  repeat match goal with
         | |- context [@EvCall ?T ?f :: ?l] =>
             lazymatch l with
             | [] => fail
             | _ => change (@EvCall T f :: l) with ([@EvCall T f] ++ l)
             end
         end.

Ltac obs_rewrite :=
  rewrite ?calls_app, ?http_requests_app, ?written_paths_app, ?made_dirs_app;
  repeat match goal with
         | H : calls ?x = _ |- context [calls ?x] => rewrite H
         | H : http_requests ?x = _ |- context [http_requests ?x] => rewrite H
         | H : written_paths ?x = _ |- context [written_paths ?x] => rewrite H
         | H : made_dirs ?x = _ |- context [made_dirs ?x] => rewrite H
         end;
  cbn [app]; rewrite ?app_nil_r.

Section MainRun.
Context {elt : Type}.
Variable env : Env elt.
Variable preset : string.
Implicit Types (w : world elt).

Lemma call_event_obs (f : string) :
  calls [EvCall (elt:=elt) f] = [f] ∧ http_requests [EvCall (elt:=elt) f] = [] ∧
  written_paths [EvCall (elt:=elt) f] = [] ∧ made_dirs [EvCall (elt:=elt) f] = [].
Proof. done. Qed.

Lemma load_keras_events_quiet : quiet (load_keras_events (elt:=elt) preset).
Proof. done. Qed.

Lemma load_hf_events_quiet hf : quiet (load_hf_events (elt:=elt) hf).
Proof. done. Qed.

(** What a run of [main] shows, whatever its outcome. *)
Lemma main_run w w' r :
  main env preset w = (w', r) →
  ∃ evs,
    trace w' = trace w ++ evs ∧
    calls evs `prefix_of`
      ["download_files"; "define_preprocessor"; "convert_checkpoints";
       "check_output"] ∧
    (∀ hf, dict_get PRESET_MAP preset = Some hf →
       http_requests evs `prefix_of`
         [get_request (config_url hf); get_request (vocab_url hf)]) ∧
    written_paths evs `prefix_of`
      [config_path preset; vocab_path preset; weights_path preset] ∧
    made_dirs evs `prefix_of` [EXTRACT_DIR_format preset] ∧
    (∀ u, r = Ok u →
       calls evs = ["download_files"; "define_preprocessor";
                    "convert_checkpoints"; "check_output"] ∧
       written_paths evs
       = [config_path preset; vocab_path preset; weights_path preset] ∧
       ∃ hf c v km' saved,
         dict_get PRESET_MAP preset = Some hf ∧
         http_requests evs
         = [get_request (config_url hf); get_request (vocab_url hf)] ∧
         requests_get env (get_request (config_url hf)) = Ok c ∧
         requests_get env (get_request (vocab_url hf)) = Ok v ∧
         save_weights_bytes env km' (weights_path preset) = Ok saved ∧
         files w' = <[normpath (weights_path preset) := saved]>
                      (<[normpath (vocab_path preset) := v]>
                         (<[normpath (config_path preset) := c]> (files w)))).
Proof.
  intros H.
  destruct (call_event_obs "download_files") as (? & ? & ? & ?).
  destruct (call_event_obs "define_preprocessor") as (? & ? & ? & ?).
  destruct (call_event_obs "convert_checkpoints") as (? & ? & ? & ?).
  destruct (call_event_obs "check_output") as (? & ? & ? & ?).
  destruct load_keras_events_quiet as (? & ? & ? & ?).
  destruct r as [u|e].
  - apply main_inv_Ok in H
      as (hf & w1 & w2 & pp & km & hfm & w3 & km' & Hp & Hd & Hpp & Hk & Hh & Hc & Hch).
    destruct (load_hf_events_quiet hf) as (? & ? & ? & ?).
    apply download_files_run in Hd
      as (evs1 & Ht1 & Hc1 & Hh1 & Hw1 & Hm1 & Hok1).
    destruct (Hok1 tt eq_refl) as (Hh1' & Hw1' & c & v & Hgc & Hgv & Hf1).
    apply define_preprocessor_run in Hpp as (evs2 & -> & (Hc2 & Hh2 & Hw2 & Hm2)).
    apply convert_checkpoints_run in Hc
      as (evs3 & Ht3 & Hc3 & Hh3 & Hm3 & Hd3 & Hw3 & _ & Hok3).
    destruct (Hok3 km' eq_refl) as (Hw3' & saved & Hsv & Hf3).
    apply check_output_run in Hch as (evs4 & -> & (Hc4 & Hh4 & Hw4 & Hm4)).
    eexists. split.
    { cbn [trace after]. rewrite Ht3. cbn [trace after]. rewrite Ht1.
      rewrite <- !app_assoc. reflexivity. }
    split_calls. obs_rewrite.
    split; [done|]. split; [intros hf' Hp'; by simplify_eq|].
    split; [done|]. split; [done|].
    intros _ _. split; [done|]. split; [done|].
    exists hf, c, v, km', saved. repeat split; try done.
    cbn [files after]. rewrite Hf3. cbn [files after]. by rewrite Hf1.
  - apply main_Raise_iff in H.
    destruct H as [Hp|hf w1 e Hp Hd|hf w1 w2 e Hp Hd Hpp|hf w1 w2 pp e Hp Hd Hpp Hk
                  |hf w1 w2 pp km e Hp Hd Hpp Hk Hh
                  |hf w1 w2 pp km hfm w3 e Hp Hd Hpp Hk Hh Hc
                  |hf w1 w2 pp km hfm w3 km' w4 e Hp Hd Hpp Hk Hh Hc Hch].
    all: try destruct (load_hf_events_quiet hf) as (? & ? & ? & ?).
    all: try (apply download_files_run in Hd
                as (evs1 & Ht1 & Hc1 & Hh1 & Hw1 & Hm1 & Hok1)).
    all: try (destruct (Hok1 tt eq_refl) as (Hh1' & Hw1' & c & v & Hgc & Hgv & Hf1);
              clear Hh1 Hw1).
    all: try (apply define_preprocessor_run in Hpp
                as (evs2 & -> & (Hc2 & Hh2 & Hw2 & Hm2))).
    all: try (apply convert_checkpoints_run in Hc
                as (evs3 & Ht3 & Hc3 & Hh3 & Hm3 & Hd3 & Hw3 & Herr3 & Hok3)).
    all: try (destruct (Hok3 km' eq_refl) as (Hw3' & saved & Hsv & Hf3); clear Hw3).
    all: try (apply check_output_run in Hch
                as (evs4 & -> & (Hc4 & Hh4 & Hw4 & Hm4))).
    all: eexists; split;
      [ cbn [trace after]; rewrite ?Ht3; cbn [trace after]; rewrite ?Ht1;
        rewrite <- ?app_assoc; try reflexivity; by rewrite app_nil_r |].
    all: split_calls; obs_rewrite.
    all: (split; [|split; [|split; [|split; [|by intros ? [=]]]]]).
    all: try (intros hf' Hp'; simplify_eq).
    all: try is_prefix; try done.
    + etrans; [exact Hw1|]. by exists [weights_path preset].
    + by do 2 apply prefix_cons.
Qed.
End MainRun.

(* ===================================================================== *)
(** ** The command line, the steps, the requests and the files *)
(* ===================================================================== *)

Lemma preset_cases (preset hf : string) :
  dict_get PRESET_MAP preset = Some hf →
  (preset = "distil_bert_base_en_uncased" ∧ hf = "distilbert-base-uncased") ∨
  (preset = "distil_bert_base_en_cased" ∧ hf = "distilbert-base-cased") ∨
  (preset = "distil_bert_base_multi_cased" ∧ hf = "distilbert-base-multilingual-cased").
Proof.
  unfold PRESET_MAP. cbn [dict_get]. repeat case_decide; intros [= <-]; auto.
Qed.

Lemma dict_get_None_keys {V} (d : list (string * V)) (k : string) :
  dict_get d k = None ↔ k ∉ dict_keys d.
Proof.
  unfold dict_keys. induction d as [|[k' v] d IH]; simpl.
  - split; [intros _; apply not_elem_of_nil|done].
  - rewrite not_elem_of_cons. case_decide as Hk.
    + split; [done|]. intros [Hne _]. by destruct Hne.
    + rewrite IH. split; [intros ?; split; [congruence|done]|by intros [_ ?]].
Qed.

(** The paths of a preset of the table, written out. *)
Lemma preset_paths (preset hf : string) :
  dict_get PRESET_MAP preset = Some hf →
  EXTRACT_DIR_format preset = "./" +:+ preset ∧
  config_path preset = "./" +:+ preset +:+ "/config.json" ∧
  vocab_path preset = "./" +:+ preset +:+ "/vocab.txt" ∧
  normpath (config_path preset) = preset +:+ "/config.json" ∧
  normpath (vocab_path preset) = preset +:+ "/vocab.txt" ∧
  normpath (weights_path preset) = preset +:+ ".h5".
Proof.
  intros H. apply preset_cases in H as [[-> _]|[[-> _]|[-> _]]]; by vm_compute.
Qed.

(** The run of the script on the command line [--preset=<preset>]. *)
Lemma app_run_preset {elt : Type} (env : Env elt) (preset : string) (w : world elt) :
  app_run env [("preset", preset)] w
  = match main env preset w with
    | (w', Ok _) => (w', ExitSuccess)
    | (w', Raise e) => (w', ExitTraceback e)
    end.
Proof. reflexivity. Qed.

(** C9.  With a preset that is not a key of [PRESET_MAP], [main] raises
    [KeyError] at its first statement: the world is the one it started in
    (no request, no directory, no file, no event), and the process ends
    with that traceback. *)
Theorem unknown_preset_changes_nothing {elt : Type} (env : Env elt)
    (preset : string) (w : world elt) :
  preset ∉ dict_keys PRESET_MAP →
  main env preset w = (w, Raise (KeyError preset)) ∧
  app_run env [("preset", preset)] w = (w, ExitTraceback (KeyError preset)).
Proof.
  intros Hk. apply dict_get_None_keys in Hk.
  assert (main env preset w = (w, Raise (KeyError preset))) as Hmain.
  { apply main_Raise_iff. by constructor. }
  split; [done|]. by rewrite app_run_preset, Hmain.
Qed.

Lemma unknown_preset_changes_nothing_witness :
  ("bert_base_en" ∉ dict_keys PRESET_MAP) ∧
  main demo_env "bert_base_en" empty_world
  = (empty_world, Raise (KeyError "bert_base_en")).
Proof.
  assert ("bert_base_en" ∉ dict_keys PRESET_MAP) as H.
  { apply dict_get_None_keys. reflexivity. }
  split; [exact H|].
  exact (proj1 (unknown_preset_changes_nothing demo_env "bert_base_en" empty_world H)).
Defined.



(** C6.  The requests of a run for a preset of the table are the
    beginning of the list of two: a [GET] of
    [https://huggingface.co/<hf_model_name>/raw/main/config.json], then a
    [GET] of [.../vocab.txt], each without a header and without
    credentials; a run that returns has sent both, once each. *)
Theorem downloads_are_plain_gets {elt : Type} (env : Env elt)
    (preset hf_model_name : string) (w w' : world elt) (r : result unit) :
  dict_get PRESET_MAP preset = Some hf_model_name →
  main env preset w = (w', r) →
  ∃ evs,
    trace w' = trace w ++ evs ∧
    http_requests evs `prefix_of`
      [ Request "GET"
          ("https://huggingface.co/" +:+ hf_model_name +:+ "/raw/main/config.json")
          [] None;
        Request "GET"
          ("https://huggingface.co/" +:+ hf_model_name +:+ "/raw/main/vocab.txt")
          [] None ] ∧
    (∀ u, r = Ok u →
       http_requests evs
       = [ Request "GET"
             ("https://huggingface.co/" +:+ hf_model_name +:+ "/raw/main/config.json")
             [] None;
           Request "GET"
             ("https://huggingface.co/" +:+ hf_model_name +:+ "/raw/main/vocab.txt")
             [] None ]).
Proof.
  intros Hp H. apply main_run in H as (evs & Ht & _ & Hh & _ & _ & Hok).
  exists evs. split; [done|]. split; [by apply Hh|].
  intros u Hu.
  destruct (Hok u Hu) as (_ & _ & hf & c & v & km' & saved & Hp' & Hreq & _).
  by simplify_eq.
Qed.

Lemma downloads_are_plain_gets_witness :
  dict_get PRESET_MAP demo_preset = Some "distilbert-base-uncased" ∧
  http_requests (trace (main demo_env demo_preset empty_world).1)
  `prefix_of`
    [ Request "GET"
        "https://huggingface.co/distilbert-base-uncased/raw/main/config.json"
        [] None;
      Request "GET"
        "https://huggingface.co/distilbert-base-uncased/raw/main/vocab.txt"
        [] None ].
Proof.
  split; [reflexivity|].
  destruct (downloads_are_plain_gets demo_env demo_preset "distilbert-base-uncased"
              empty_world
              (main demo_env demo_preset empty_world).1
              (main demo_env demo_preset empty_world).2
              eq_refl (surjective_pairing _)) as (evs & Ht & Hpre & _).
  rewrite Ht. exact Hpre.
Defined.

Lemma normpath_dot_slash (s : string) : normpath ("./" +:+ s) = normpath s.
Proof. reflexivity. Qed.

(** C7.  When the two preprocessing calls and the two models return, the
    check step runs both models on the one sentence
    ["cricket is awesome, easily the best sport in the world!"], prints the
    first ten values of each output, prints the difference as one number,
    the mean of the element-wise difference of the two outputs, and prints
    the MD5 checksum of the weights file [<preset>.h5]; it does nothing
    else and returns. *)
Theorem check_output_prints {elt : Type} (env : Env elt) (preset : string)
    (keras_hub_preprocessor : KerasPreprocessor env)
    (keras_hub_model : keras_model elt) (hf_tokenizer : HFTokenizer env)
    (hf_model_ : hf_model elt) (w : world elt)
    (keras_hub_inputs : KerasInputs env) (hf_inputs : HFInputs env)
    (keras_hub_output hf_output k10 h10 diff : tensor elt) (weights : bytes) :
  keras_preprocess env keras_hub_preprocessor
    ["cricket is awesome, easily the best sport in the world!"]
  = Ok keras_hub_inputs →
  keras_predict env keras_hub_model keras_hub_inputs = Ok keras_hub_output →
  hf_tokenize env hf_tokenizer
    ["cricket is awesome, easily the best sport in the world!"] "max_length" "pt"
  = Ok hf_inputs →
  hf_forward env hf_model_ hf_inputs = Ok hf_output →
  slice_0_0_10 keras_hub_output = Ok k10 →
  slice_0_0_10 hf_output = Ok h10 →
  np_subtract env keras_hub_output hf_output = Ok diff →
  files w !! normpath (preset +:+ ".h5") = Some weights →
  check_output env preset keras_hub_preprocessor keras_hub_model hf_tokenizer
    hf_model_ w
  = (after w
       [ EvCall "check_output";
         EvPrint [PStr (nl +:+ "-> Check the outputs.")];
         EvLibrary "keras_hub_model.predict"
           ["cricket is awesome, easily the best sport in the world!"];
         EvLibrary "hf_model"
           ["cricket is awesome, easily the best sport in the world!"];
         EvPrint [PStr "KerasHub output:"; PTensor k10];
         EvPrint [PStr "HF output:"; PTensor h10];
         EvPrint [PStr "Difference:"; PScalar (np_mean env diff)];
         EvPrint [PStr "Model md5sum: "; PStr (md5_hexdigest env weights)] ],
     Ok tt).
Proof.
  intros Hkp Hk Hht Hh Hk10 Hh10 Hd Hf.
  unfold check_output, get_md5_checksum, read_file, print, sample_text, numpy.
  unfold bind, lift, emit, ret.
  rewrite Hkp. cbn [trace files dirs]. rewrite Hk, Hht. cbn [trace files dirs].
  rewrite Hh, Hk10. cbn [trace files dirs]. rewrite Hh10. cbn [trace files dirs].
  rewrite Hd. cbn [trace files dirs]. rewrite normpath_dot_slash, Hf.
  unfold after. cbn [trace files dirs]. by rewrite <- !app_assoc.
Qed.

Lemma check_output_prints_witness :
  files weights_world !! normpath (demo_preset +:+ ".h5") = Some [Byte.x89; Byte.x48] ∧
  printed (trace (check_output demo_env demo_preset [] demo_km
                    "distilbert-base-uncased" (HFModel demo_wts false)
                    weights_world).1)
  = [ [PStr (nl +:+ "-> Check the outputs.")];
      [PStr "KerasHub output:"; PTensor (Tensor [4]%nat [1; 2; 3; 4])];
      [PStr "HF output:"; PTensor (Tensor [4]%nat [0; 1; 2; 3])];
      [PStr "Difference:"; PScalar 1];
      [PStr "Model md5sum: "; PStr "99914b932bd37a50b983c5e7c90ae93b"] ].
Proof.
  assert (files weights_world !! normpath (demo_preset +:+ ".h5")
          = Some [Byte.x89; Byte.x48]) as Hf by (by vm_compute).
  split; [exact Hf|].
  rewrite (check_output_prints demo_env demo_preset [] demo_km
             "distilbert-base-uncased" (HFModel demo_wts false) weights_world
             sample_text sample_text
             (demo_tensor 1 [1; 2; 4]%nat) (demo_tensor 0 [1; 2; 4]%nat)
             (Tensor [4]%nat [1; 2; 3; 4]) (Tensor [4]%nat [0; 1; 2; 3])
             (Tensor [1; 2; 4]%nat [1; 1; 1; 1; 1; 1; 1; 1]) [Byte.x89; Byte.x48]
             eq_refl eq_refl eq_refl eq_refl eq_refl eq_refl eq_refl Hf).
  reflexivity.
Defined.







(** The command line on the small model. *)
Example undefined_flag_refused :
  app_run demo_env [("preset", demo_preset); ("epochs", "3")] empty_world
  = (empty_world, ExitUsage "Unknown command line flag 'epochs'").
Proof. reflexivity. Qed.

Example preset_required :
  app_run demo_env [] empty_world
  = (empty_world, ExitUsage "Flag --preset must have a value other than None.").
Proof. reflexivity. Qed.

Example preset_help :
  flag_help <$> script_flags
  = [ "Must be one of distil_bert_base_en_uncased,distil_bert_base_en_cased,distil_bert_base_multi_cased" ].
Proof. reflexivity. Qed.

Example demo_run_ends_at_save_weights :
  (app_run demo_env [("preset", demo_preset)] empty_world).2
  = ExitTraceback (ValueError "The filename must end in `.weights.h5`. Received: filepath=distil_bert_base_en_uncased.h5").
Proof. by vm_compute. Qed.

(* ===================================================================== *)
(** ** Errors *)
(* ===================================================================== *)

Section ErrorFacts.
Context {elt : Type}.
Variable env : Env elt.
Variable preset : string.
Implicit Types (w : world elt).

(** A request of [download_files] that was sent and failed is the failure
    of [download_files]. *)
Lemma download_files_request_fails hf w w' e' url e :
  download_files env preset hf w = (w', Raise e') →
  requests_get env (get_request url) = Raise e →
  ∃ evs, trace w' = trace w ++ evs ∧
         (get_request url ∈ http_requests evs → e' = e).
Proof.
  unfold download_files. intros H Hurl. run_all H.
  all: eexists; split; [read_trace|].
  all: cbn [http_requests omap list_omap app]; rewrite ?elem_of_cons, ?elem_of_nil.
  all: unfold get_request in *; intros Hin.
  all: repeat match goal with H : _ ∨ _ |- _ => destruct H end; try done.
  all: simplify_eq; congruence.
Qed.

(** A configuration that does not parse stops [convert_checkpoints] before
    anything is assigned or written. *)
Lemma convert_checkpoints_json_fails km hfm w c e :
  files w !! normpath (config_path preset) = Some c →
  json_loads env c = Raise e →
  convert_checkpoints env preset km hfm w
  = (after w [ EvCall "convert_checkpoints";
               EvPrint [PStr (nl +:+ "-> Convert original weights to KerasHub format.")] ],
     Raise e).
Proof.
  intros Hf Hj. unfold convert_checkpoints, read_file, print.
  unfold bind, lift, emit. cbn [trace files dirs].
  unfold config_path in Hf. rewrite Hf, Hj.
  unfold after. cbn [trace files dirs]. by rewrite <- app_assoc.
Qed.

(** An assignment that fails makes [convert_checkpoints] fail, with the
    world that the assignment left. *)
Lemma convert_checkpoints_copy_fails km hfm w c pt_cfg cfg w1 e :
  files w !! normpath (config_path preset) = Some c →
  json_loads env c = Ok pt_cfg →
  build_cfg pt_cfg = Ok cfg →
  copy_weights cfg (state_dict hfm) km
    (after w [ EvCall "convert_checkpoints";
               EvPrint [PStr (nl +:+ "-> Convert original weights to KerasHub format.")];
               EvPrint [PStr "Config:"; PCfg cfg];
               EvPrint [PStr "Original weights:"];
               EvPrint [PStr (keys_listing (state_dict hfm))] ]) = (w1, Raise e) →
  convert_checkpoints env preset km hfm w = (w1, Raise e).
Proof.
  intros Hf Hj Hb Hc. unfold convert_checkpoints, read_file, print.
  unfold bind, lift, emit. cbn [trace files dirs].
  unfold config_path in Hf. rewrite Hf, Hj, Hb. cbn [trace files dirs].
  unfold after in Hc. cbn [trace files dirs] in Hc.
  rewrite <- !app_assoc. cbn [app]. by rewrite Hc.
Qed.

(** A row that fails makes the whole table fail, with the world that the
    rows before it left. *)
Lemma copy_weights_row_fails cfg hf_wts km w es1 e0 es2 w1 km1 w2 err :
  all_entries cfg (num_layers km) = es1 ++ e0 :: es2 →
  run_entries hf_wts es1 km w = (w1, Ok km1) →
  assign_weight hf_wts (e_layer e0) (e_attr e0) (e_key e0) (e_layout e0) km1 w1
  = (w2, Raise err) →
  copy_weights cfg hf_wts km w = (w1, Raise err).
Proof.
  intros Hall H1 H0. rewrite copy_weights_entries, Hall, run_entries_app.
  rewrite (bind_Ok _ _ _ _ _ H1). cbn [run_entries].
  rewrite (bind_Raise _ _ _ _ _ H0).
  by apply assign_weight_inv_Raise in H0 as ->.
Qed.

Lemma assign_weight_missing_layer hf_wts layer attr key layout km w :
  layers km !! layer = None →
  assign_weight hf_wts layer attr key layout km w
  = (w, Raise (ValueError ("No such layer: " +:+ layer))).
Proof.
  intros H. unfold assign_weight, get_layer, bind, lift. by rewrite H.
Qed.

Lemma assign_weight_shape_mismatch hf_wts layer attr key layout km w var src v :
  variable_of km layer attr = Some var →
  dict_get hf_wts key = Some src →
  layout src = Ok v →
  shape var ≠ shape v →
  ∃ msg, assign_weight hf_wts layer attr key layout km w = (w, Raise (ValueError msg)).
Proof.
  unfold variable_of, assign_weight, get_layer, get_variable, dict_item,
    variable_assign, bind, lift.
  intros Hv Hsrc Hlay Hsh.
  destruct (layers km !! layer) as [l|]; [|done]. cbn.
  rewrite Hv, Hsrc, Hlay. rewrite decide_False by done. by eexists.
Qed.
End ErrorFacts.

(** Takes a run of [main] apart: into the run that returns and the seven
    ways to fail, each with what its steps show. *)
Ltac main_cases H :=
  let e := fresh "e" in
  lazymatch type of H with
  | main _ _ _ = (_, ?r) =>
      destruct r as [?|e];
      [ apply main_inv_Ok in H
          as (?hf & ?w1 & ?w2 & ?pp & ?km & ?hfm & ?w3 & ?km' &
              ?Hp & ?Hd & ?Hpp & ?Hk & ?Hh & ?Hc & ?Hch)
      | apply main_Raise_iff in H;
        destruct H as [?Hp|?hf ?w1 ?e ?Hp ?Hd|?hf ?w1 ?w2 ?e ?Hp ?Hd ?Hpp
                      |?hf ?w1 ?w2 ?pp ?e ?Hp ?Hd ?Hpp ?Hk
                      |?hf ?w1 ?w2 ?pp ?km ?e ?Hp ?Hd ?Hpp ?Hk ?Hh
                      |?hf ?w1 ?w2 ?pp ?km ?hfm ?w3 ?e ?Hp ?Hd ?Hpp ?Hk ?Hh ?Hc
                      |?hf ?w1 ?w2 ?pp ?km ?hfm ?w3 ?km' ?w4 ?e
                         ?Hp ?Hd ?Hpp ?Hk ?Hh ?Hc ?Hch] ]
  end.

Section MainErrors.
Context {elt : Type}.
Variable env : Env elt.
Variable preset : string.
Implicit Types (w : world elt).

(** A request that was sent and failed ends the run with its exception. *)
Lemma main_request_fails hf w w' r url e :
  dict_get PRESET_MAP preset = Some hf →
  main env preset w = (w', r) →
  url ∈ [config_url hf; vocab_url hf] →
  requests_get env (get_request url) = Raise e →
  (∀ u, r ≠ Ok u) ∧
  ∃ evs, trace w' = trace w ++ evs ∧
         (get_request url ∈ http_requests evs → r = Raise e).
Proof.
  intros Hp0 H Hurl Hreq.
  assert (∀ w1, download_files env preset hf w ≠ (w1, Ok tt)) as Hnot.
  { intros w1 Hd. apply download_files_run in Hd as (evs & _ & _ & _ & _ & _ & Hok).
    destruct (Hok tt eq_refl) as (_ & _ & c & v & Hc & Hv & _).
    rewrite !elem_of_cons, elem_of_nil in Hurl.
    destruct Hurl as [->|[->|[]]]; congruence. }
  main_cases H; simplify_eq; try (by destruct (Hnot _ Hd)).
  split; [done|].
  destruct (download_files_request_fails _ _ _ _ _ _ _ _ Hd Hreq) as (evs & Ht & He).
  exists evs. split; [done|]. intros Hin. by rewrite (He Hin).
Qed.

(** A configuration that does not parse ends the run with that exception,
    once the run has come to [convert_checkpoints]. *)
Lemma main_json_fails hf w w' r c e :
  dict_get PRESET_MAP preset = Some hf →
  main env preset w = (w', r) →
  requests_get env (get_request (config_url hf)) = Ok c →
  json_loads env c = Raise e →
  (∀ u, r ≠ Ok u) ∧
  ∃ evs, trace w' = trace w ++ evs ∧
         ("convert_checkpoints" ∈ calls evs → r = Raise e).
Proof.
  intros Hp0 H Hreq Hjson.
  assert (∀ w1 w2 pp km hfm w3 r3,
            download_files env preset hf w = (w1, Ok tt) →
            define_preprocessor env preset hf w1 = (w2, Ok pp) →
            convert_checkpoints env preset km hfm
              (after w2 (load_keras_events preset ++ load_hf_events hf)) = (w3, r3) →
            r3 = Raise e) as Hconv.
  { intros w1 w2 pp km hfm w3 r3 Hd Hpp Hc.
    apply download_files_run in Hd as (evs & _ & _ & _ & _ & _ & Hok).
    destruct (Hok tt eq_refl) as (_ & _ & c' & v & Hc' & _ & Hf).
    apply define_preprocessor_run in Hpp as (evs2 & -> & _).
    destruct (preset_paths _ _ Hp0) as (_ & _ & _ & Hncp & Hnvp & _).
    rewrite (convert_checkpoints_json_fails env preset km hfm _ c e) in Hc.
    - by injection Hc as _ <-.
    - cbn [files after]. rewrite Hf, Hncp, Hnvp.
      rewrite lookup_insert_ne, lookup_insert_eq; [congruence|].
      apply preset_cases in Hp0 as [[-> _]|[[-> _]|[-> _]]]; done.
    - done. }
  destruct (call_event_obs (elt:=elt) "download_files") as (? & _).
  destruct (call_event_obs (elt:=elt) "define_preprocessor") as (? & _).
  destruct (call_event_obs (elt:=elt) "convert_checkpoints") as (? & _).
  destruct (load_keras_events_quiet (elt:=elt) preset) as (? & _).
  main_cases H; simplify_eq.
  all: try (by pose proof (Hconv _ _ _ _ _ _ _ Hd Hpp Hc)).
  all: try (pose proof (Hconv _ _ _ _ _ _ _ Hd Hpp Hc); simplify_eq).
  all: try destruct (load_hf_events_quiet (elt:=elt) hf) as (? & _).
  all: split; [done|].
  all: apply download_files_run in Hd as (evs1 & Ht1 & Hc1 & _).
  all: try (apply define_preprocessor_run in Hpp as (evs2 & -> & (Hc2 & _))).
  all: try (apply convert_checkpoints_run in Hc as (evs3 & Ht3 & Hc3 & _)).
  all: eexists; split;
    [ cbn [trace after]; rewrite ?Ht3; cbn [trace after]; rewrite ?Ht1;
      rewrite <- ?app_assoc; reflexivity |].
  all: split_calls; obs_rewrite.
  all: rewrite ?elem_of_cons, ?elem_of_nil; intros Hin; try done.
  all: repeat match goal with H : _ ∨ _ |- _ => destruct H end; done.
Qed.
End MainErrors.

(** C2.  Nothing in the script catches an exception.  In every run of
    [main]: it ends with an exception exactly when one of its statements
    raised that exception, in the world that statement left, and the
    process then ends with the traceback; each of the two requests is sent
    at most once.  In particular a request that was sent and failed, and a
    [config.json] that does not parse once [convert_checkpoints] is
    entered, end the run with their exception; and in the loop a row whose
    layer is missing, or whose value has another shape than its variable,
    ends [copy_weights] with its [ValueError] after the rows before it,
    which ends [convert_checkpoints] and [main] in turn. *)
Theorem errors_propagate_uncaught {elt : Type} (env : Env elt)
    (preset : string) (w w' : world elt) (r : result unit) :
  main env preset w = (w', r) →
  (∀ e, r = Raise e ↔ main_failure env preset w w' e) ∧
  (∀ e, r = Raise e →
     app_run env [("preset", preset)] w = (w', ExitTraceback e)) ∧
  (∃ evs, trace w' = trace w ++ evs ∧
     ∀ hf, dict_get PRESET_MAP preset = Some hf →
       http_requests evs `prefix_of`
         [get_request (config_url hf); get_request (vocab_url hf)]) ∧
  (∀ hf url e,
     dict_get PRESET_MAP preset = Some hf →
     url ∈ [config_url hf; vocab_url hf] →
     requests_get env (get_request url) = Raise e →
     (∀ u, r ≠ Ok u) ∧
     ∃ evs, trace w' = trace w ++ evs ∧
            (get_request url ∈ http_requests evs → r = Raise e)) ∧
  (∀ hf c e,
     dict_get PRESET_MAP preset = Some hf →
     requests_get env (get_request (config_url hf)) = Ok c →
     json_loads env c = Raise e →
     (∀ u, r ≠ Ok u) ∧
     ∃ evs, trace w' = trace w ++ evs ∧
            ("convert_checkpoints" ∈ calls evs → r = Raise e)) ∧
  (∀ cfg (hf_wts : list (string * tensor elt)) (km : keras_model elt)
     (w0 : world elt) es1 e0 es2 w1 km1,
     all_entries cfg (num_layers km) = es1 ++ e0 :: es2 →
     run_entries hf_wts es1 km w0 = (w1, Ok km1) →
     (layers km1 !! e_layer e0 = None →
      copy_weights cfg hf_wts km w0
      = (w1, Raise (ValueError ("No such layer: " +:+ e_layer e0)))) ∧
     (∀ var src v,
        variable_of km1 (e_layer e0) (e_attr e0) = Some var →
        dict_get hf_wts (e_key e0) = Some src →
        e_layout e0 src = Ok v →
        shape var ≠ shape v →
        ∃ msg, copy_weights cfg hf_wts km w0 = (w1, Raise (ValueError msg)))) ∧
  (∀ km hfm (w0 : world elt) c pt_cfg cfg w1 e,
     files w0 !! normpath (config_path preset) = Some c →
     json_loads env c = Ok pt_cfg →
     build_cfg pt_cfg = Ok cfg →
     copy_weights cfg (state_dict hfm) km
       (after w0
          [ EvCall "convert_checkpoints";
            EvPrint [PStr (nl +:+ "-> Convert original weights to KerasHub format.")];
            EvPrint [PStr "Config:"; PCfg cfg];
            EvPrint [PStr "Original weights:"];
            EvPrint [PStr (keys_listing (state_dict hfm))] ]) = (w1, Raise e) →
     convert_checkpoints env preset km hfm w0 = (w1, Raise e)).
Proof.
  intros H. repeat apply conj.
  - intros e. split.
    + intros ->. by apply main_Raise_iff.
    + intros Hf. apply main_Raise_iff in Hf. congruence.
  - intros e ->. by rewrite app_run_preset, H.
  - destruct (main_run _ _ _ _ _ H) as (evs & Ht & _ & Hh & _).
    by exists evs.
  - intros hf url e Hp Hurl Hreq. by apply (main_request_fails env preset hf w).
  - intros hf c e Hp Hreq Hj. by apply (main_json_fails env preset hf w w' r c).
  - intros cfg hf_wts km w0 es1 e0 es2 w1 km1 Hall Hrun. split.
    + intros Hl. eapply copy_weights_row_fails; [done..|].
      by apply assign_weight_missing_layer.
    + intros var src v Hv Hs Hl Hsh.
      destruct (assign_weight_shape_mismatch hf_wts _ _ _ _ km1 w1 _ _ _ Hv Hs Hl Hsh)
        as (msg & Hmsg).
      exists msg. by eapply copy_weights_row_fails.
  - intros. by eapply convert_checkpoints_copy_fails.
Qed.

Lemma errors_propagate_uncaught_witness :
  let run := main offline_env demo_preset empty_world in
  run.2 = Raise (ConnectionError
                   "https://huggingface.co/distilbert-base-uncased/raw/main/config.json") ∧
  app_run offline_env [("preset", demo_preset)] empty_world
  = (run.1, ExitTraceback
              (ConnectionError
                 "https://huggingface.co/distilbert-base-uncased/raw/main/config.json")).
Proof.
  intros run.
  assert (run.2 = Raise (ConnectionError
            "https://huggingface.co/distilbert-base-uncased/raw/main/config.json"))
    as Hr by (by vm_compute).
  split; [exact Hr|].
  destruct (errors_propagate_uncaught offline_env demo_preset empty_world
              run.1 run.2 (surjective_pairing _)) as (_ & Hexit & _).
  exact (Hexit _ Hr).
Defined.

(** The four errors on the small model: each ends the run where it
    arises. *)
Example offline_run :
  let run := main offline_env demo_preset empty_world in
  run.2 = Raise (ConnectionError
                   "https://huggingface.co/distilbert-base-uncased/raw/main/config.json") ∧
  calls (trace run.1) = ["download_files"] ∧
  length (http_requests (trace run.1)) = 1%nat ∧
  written_paths (trace run.1) = [].
Proof. by vm_compute. Qed.

Example garbled_run :
  let run := main garbled_env demo_preset empty_world in
  run.2 = Raise (JSONDecodeError "Expecting value") ∧
  calls (trace run.1)
  = ["download_files"; "define_preprocessor"; "convert_checkpoints"] ∧
  written_paths (trace run.1)
  = ["./distil_bert_base_en_uncased/config.json";
     "./distil_bert_base_en_uncased/vocab.txt"].
Proof. by vm_compute. Qed.

Example misshapen_run :
  let run := main misshapen_env demo_preset empty_world in
  run.2 = Raise (ValueError "The shape of the target variable and the shape of the target value in `variable.assign(value)` must match.") ∧
  calls (trace run.1)
  = ["download_files"; "define_preprocessor"; "convert_checkpoints"] ∧
  (assigned_in (layer_name 0) (trace run.1)).*1
  = [ "_self_attention_layer._query_dense.kernel";
      "_self_attention_layer._query_dense.bias";
      "_self_attention_layer._key_dense.kernel";
      "_self_attention_layer._key_dense.bias";
      "_self_attention_layer._value_dense.kernel";
      "_self_attention_layer._value_dense.bias";
      "_self_attention_layer._output_dense.kernel";
      "_self_attention_layer._output_dense.bias" ] ∧
  written_paths (trace run.1)
  = ["./distil_bert_base_en_uncased/config.json";
     "./distil_bert_base_en_uncased/vocab.txt"].
Proof. by vm_compute. Qed.

Example layerless_run :
  let run := main layerless_env demo_preset empty_world in
  run.2 = Raise (ValueError "No such layer: transformer_layer_1") ∧
  length (assigned_in (layer_name 0) (trace run.1)) = 16%nat ∧
  assigned_in (layer_name 1) (trace run.1) = [] ∧
  written_paths (trace run.1)
  = ["./distil_bert_base_en_uncased/config.json";
     "./distil_bert_base_en_uncased/vocab.txt"].
Proof. by vm_compute. Qed.

(* ===================================================================== *)
(** ** The weights file *)
(* ===================================================================== *)

Section SavingFacts.
Context {elt : Type}.
Variable env : Env elt.
Variable preset : string.
Implicit Types (w : world elt).

(** The names that the script gives to [save_weights] do not end in
    [.weights.h5]. *)
Lemma weights_path_not_for_keras3 hf :
  dict_get PRESET_MAP preset = Some hf →
  str_endswith (weights_path preset) ".weights.h5" = false.
Proof.
  intros H. apply preset_cases in H as [[-> _]|[[-> _]|[-> _]]]; by vm_compute.
Qed.

(** With the rule of Keras 3, [convert_checkpoints] does not return for a
    preset of the table. *)
Lemma convert_checkpoints_stops hf km hfm w w' km' :
  keras3_saving env →
  dict_get PRESET_MAP preset = Some hf →
  convert_checkpoints env preset km hfm w = (w', Ok km') → False.
Proof.
  intros Hk Hp H.
  apply convert_checkpoints_run in H as (evs & _ & _ & _ & _ & _ & _ & _ & Hok).
  destruct (Hok km' eq_refl) as (_ & saved & Hs & _).
  destruct (Hk km' _ (weights_path_not_for_keras3 hf Hp)) as [msg Hmsg].
  congruence.
Qed.

(** [convert_checkpoints] when the assignments have returned and
    [save_weights] raises. *)
Lemma convert_checkpoints_save_fails km hfm w content pt_cfg cfg w1 km' e :
  files w !! normpath (config_path preset) = Some content →
  json_loads env content = Ok pt_cfg →
  build_cfg pt_cfg = Ok cfg →
  copy_weights cfg (state_dict hfm) km (after w (convert_prologue cfg hfm))
  = (w1, Ok km') →
  save_weights_bytes env km' (preset +:+ ".h5") = Raise e →
  convert_checkpoints env preset km hfm w
  = (after w1 [save_message preset], Raise e).
Proof.
  intros Hf Hj Hb Hc Hs.
  unfold convert_checkpoints, read_file, print.
  unfold bind at 1 2 3 4 5 6 7 8, lift, emit. cbn [trace files dirs].
  unfold config_path in Hf. rewrite Hf, Hj, Hb.
  unfold after, convert_prologue in Hc. cbn [trace files dirs] in Hc.
  cbn [trace files dirs]. rewrite <- !app_assoc. cbn [app].
  unfold bind at 1. rewrite Hc.
  unfold bind, lift, emit. cbn [trace files dirs]. rewrite Hs.
  reflexivity.
Qed.
End SavingFacts.

(** C3.  With the rule of Keras 3 for the names of weights files, no run
    of [main] returns, and the statements of the script write at most
    [./<preset>/config.json] and [./<preset>/vocab.txt], in this order:
    [check_output] is not entered.  For a preset of the table, once the
    assignments of [convert_checkpoints] have returned, [save_weights]
    refuses the name [<preset>.h5], and [convert_checkpoints] ends with
    that [ValueError] right after its message about the saving, with the
    files as they were. *)
Theorem weights_file_name_is_refused {elt : Type} (env : Env elt)
    (preset : string) :
  keras3_saving env →
  (∀ (w w' : world elt) (r : result unit),
     main env preset w = (w', r) →
     (∀ u, r ≠ Ok u) ∧
     ∃ evs,
       trace w' = trace w ++ evs ∧
       written_paths evs
       `prefix_of` [ "./" +:+ preset +:+ "/config.json";
                     "./" +:+ preset +:+ "/vocab.txt" ] ∧
       "check_output" ∉ calls evs) ∧
  (preset ∈ dict_keys PRESET_MAP →
   ∀ (km km' : keras_model elt) (hfm : hf_model elt) (w w1 : world elt)
     (content : bytes) (pt_cfg cfg : list (string * pyval)),
     files w !! normpath ("./" +:+ preset +:+ "/config.json") = Some content →
     json_loads env content = Ok pt_cfg →
     build_cfg pt_cfg = Ok cfg →
     copy_weights cfg (state_dict hfm) km (after w (convert_prologue cfg hfm))
     = (w1, Ok km') →
     ∃ msg,
       save_weights_bytes env km' (preset +:+ ".h5") = Raise (ValueError msg) ∧
       convert_checkpoints env preset km hfm w
       = (after w1 [save_message preset], Raise (ValueError msg)) ∧
       files w1 = files w).
Proof.
  intros Hk. split.
  - intros w w' r H.
    destruct (call_event_obs (elt:=elt) "download_files") as (? & ? & ? & ?).
    destruct (call_event_obs (elt:=elt) "define_preprocessor") as (? & ? & ? & ?).
    destruct (call_event_obs (elt:=elt) "convert_checkpoints") as (? & ? & ? & ?).
    destruct (load_keras_events_quiet (elt:=elt) preset) as (? & ? & ? & ?).
    main_cases H.
    all: try (exfalso; exact (convert_checkpoints_stops env preset _ _ _ _ _ _ Hk Hp Hc)).
    all: split; [by intros ? [=]|].
    all: try destruct (load_hf_events_quiet (elt:=elt) hf) as (? & ? & ? & ?).
    all: try (destruct (preset_paths _ _ Hp) as (_ & <- & <- & _)).
    all: try (apply download_files_run in Hd
                as (evs1 & Ht1 & Hc1 & Hh1 & Hw1 & Hm1 & Hok1)).
    all: try (destruct (Hok1 tt eq_refl) as (Hh1' & Hw1' & _); clear Hh1 Hw1).
    all: try (apply define_preprocessor_run in Hpp
                as (evs2 & -> & (Hc2 & Hh2 & Hw2 & Hm2))).
    all: try (apply convert_checkpoints_run in Hc
                as (evs3 & Ht3 & Hc3 & Hh3 & Hm3 & Hd3 & Hw3 & Herr3 & _);
              destruct (Herr3 _ eq_refl) as [_ Hw3']; clear Hw3).
    all: eexists; split;
      [ cbn [trace after]; rewrite ?Ht3; cbn [trace after]; rewrite ?Ht1;
        rewrite <- ?app_assoc; try reflexivity; by rewrite app_nil_r |].
    all: split_calls; obs_rewrite.
    all: split; [try done; try is_prefix|].
    all: rewrite ?elem_of_cons, ?elem_of_nil.
    all: intros Hx; repeat (destruct Hx as [Hx|Hx]; [discriminate Hx|]); exact Hx.
  - intros Hin km km' hfm w w1 content pt_cfg cfg Hf Hj Hb Hc.
    destruct (dict_get PRESET_MAP preset) as [hf|] eqn:Hp.
    2: { by apply dict_get_None_keys in Hp. }
    destruct (Hk km' _ (weights_path_not_for_keras3 preset hf Hp)) as [msg Hmsg].
    destruct (preset_paths _ _ Hp) as (_ & Hcp & _).
    rewrite <- Hcp in Hf.
    exists msg. split; [exact Hmsg|]. split.
    + exact (convert_checkpoints_save_fails env preset km hfm w content pt_cfg cfg
               w1 km' _ Hf Hj Hb Hc Hmsg).
    + apply copy_weights_run in Hc as (evs & -> & _). reflexivity.
Qed.

Lemma demo_env_keras3 : keras3_saving demo_env.
Proof.
  intros km filepath H. eexists. cbn [save_weights_bytes demo_env demo_env_with].
  unfold keras3_save_weights. rewrite H. reflexivity.
Defined.

Lemma weights_file_name_is_refused_witness :
  keras3_saving demo_env ∧
  (main demo_env demo_preset empty_world).2
  = Raise (ValueError "The filename must end in `.weights.h5`. Received: filepath=distil_bert_base_en_uncased.h5") ∧
  written_paths (trace (main demo_env demo_preset empty_world).1)
  = [ "./distil_bert_base_en_uncased/config.json";
      "./distil_bert_base_en_uncased/vocab.txt" ] ∧
  files (main demo_env demo_preset empty_world).1 !! "distil_bert_base_en_uncased.h5"
  = None ∧
  "check_output" ∉ calls (trace (main demo_env demo_preset empty_world).1).
Proof.
  split; [exact demo_env_keras3|].
  split; [by vm_compute|]. split; [by vm_compute|]. split; [by vm_compute|].
  destruct (weights_file_name_is_refused demo_env demo_preset demo_env_keras3)
    as [Hmain _].
  destruct (Hmain empty_world _ _ (surjective_pairing _))
    as (_ & evs & Ht & _ & Hcheck).
  rewrite Ht. exact Hcheck.
Defined.

(* ===================================================================== *)
(** ** The tensors of a layer *)
(* ===================================================================== *)

Section LayerFacts.
Context {elt : Type}.
Variable cfg : list (string * pyval).
Variable hf_wts : list (string * tensor elt).
Implicit Types (es : list (entry elt)).

Lemma assigned_in_assign_events layer es :
  assigned_in layer (omap (assign_event hf_wts) es)
  = omap (assigned_by hf_wts layer) es.
Proof.
  induction es as [|e es IH]; [done|].
  change (omap (assigned_by hf_wts layer) (e :: es))
    with (match assigned_by hf_wts layer e with
          | Some y => y :: omap (assigned_by hf_wts layer) es
          | None => omap (assigned_by hf_wts layer) es
          end).
  unfold assigned_by at 1.
  destruct (entry_value hf_wts e) as [v|] eqn:Hv.
  - rewrite (omap_assign_cons _ _ _ _ Hv).
    change (assigned_in layer (EvAssign (e_layer e) (e_attr e) v
                                 :: omap (assign_event hf_wts) es))
      with (match (if decide (e_layer e = layer) then Some (e_attr e, v) else None) with
            | Some y => y :: assigned_in layer (omap (assign_event hf_wts) es)
            | None => assigned_in layer (omap (assign_event hf_wts) es)
            end).
    rewrite IH. by case_decide.
  - replace (omap (assign_event hf_wts) (e :: es))
      with (omap (assign_event hf_wts) es).
    + rewrite IH. by case_decide.
    + change (omap (assign_event hf_wts) (e :: es))
        with (match assign_event hf_wts e with
              | Some y => y :: omap (assign_event hf_wts) es
              | None => omap (assign_event hf_wts) es
              end).
      unfold assign_event at 2. by rewrite Hv.
Qed.

Lemma assigned_by_elsewhere layer es :
  Forall (fun e => e_layer e ≠ layer) es → omap (assigned_by hf_wts layer) es = [].
Proof.
  induction 1 as [|e es He _ IH]; [done|].
  change (omap (assigned_by hf_wts layer) (e :: es))
    with (match assigned_by hf_wts layer e with
          | Some y => y :: omap (assigned_by hf_wts layer) es
          | None => omap (assigned_by hf_wts layer) es
          end).
  unfold assigned_by at 1. by rewrite decide_False.
Qed.

Lemma assigned_by_here layer es :
  Forall (fun e => e_layer e = layer ∧ is_Some (entry_value hf_wts e)) es →
  Forall2 (fun e av => av.1 = e_attr e ∧ entry_value hf_wts e = Some av.2)
    es (omap (assigned_by hf_wts layer) es).
Proof.
  induction 1 as [|e es [He [v Hv]] _ IH]; [constructor|].
  change (omap (assigned_by hf_wts layer) (e :: es))
    with (match assigned_by hf_wts layer e with
          | Some y => y :: omap (assigned_by hf_wts layer) es
          | None => omap (assigned_by hf_wts layer) es
          end).
  unfold assigned_by at 1. rewrite decide_True, Hv by done. by constructor.
Qed.

(** What is fixed in the rows of a layer: the layer they assign to and
    the layout changes they use. *)
Lemma layer_entries_static (i : Z) :
  Forall (fun e => e_layer e = layer_name i ∧ e_layout e ∈ fixed_layouts cfg)
    (layer_entries (elt:=elt) cfg i).
Proof.
  unfold layer_entries, fixed_layouts.
  repeat (apply Forall_cons; split; [split; [reflexivity|in_table]|]).
  constructor.
Qed.

Lemma embedding_entries_elsewhere (i : Z) :
  Forall (fun e => e_layer e ≠ layer_name i) (embedding_entries (elt:=elt)).
Proof.
  unfold embedding_entries, layer_name.
  repeat (apply Forall_cons; split; [by intros [=]|]). constructor.
Qed.

Lemma loop_entries_elsewhere (i : Z) (idx : list Z) :
  i ∉ idx →
  Forall (fun e => e_layer e ≠ layer_name i)
    (concat (layer_entries (elt:=elt) cfg <$> idx)).
Proof.
  intros Hi. apply Forall_concat_fmap. intros j Hj.
  eapply Forall_impl; [apply layer_entries_static|].
  intros e [He _]. rewrite He. intros Hn. apply layer_name_inj in Hn. by subst.
Qed.

Lemma loop_entries_of_layer (i : Z) (idx : list Z) :
  NoDup idx → i ∈ idx →
  omap (assigned_by hf_wts (layer_name i)) (concat (layer_entries cfg <$> idx))
  = omap (assigned_by hf_wts (layer_name i)) (layer_entries cfg i).
Proof.
  induction 1 as [|j idx Hj Hnd IH]; [by intros ?%elem_of_nil|].
  rewrite fmap_cons, concat_cons, omap_app. intros [->|Hin]%elem_of_cons.
  - rewrite (assigned_by_elsewhere _ _ (loop_entries_elsewhere _ _ Hj)).
    by rewrite app_nil_r.
  - rewrite IH by done. rewrite assigned_by_elsewhere; [done|].
    eapply Forall_impl; [apply layer_entries_static|].
    intros e [He _]. rewrite He. intros Hn. apply layer_name_inj in Hn. by subst.
Qed.

Lemma Forall2_attrs es (avs : list (string * tensor elt)) :
  Forall2 (fun e av => av.1 = e_attr e ∧ entry_value hf_wts e = Some av.2) es avs →
  avs.*1 = e_attr <$> es.
Proof.
  induction 1 as [|e av es avs [Ha _] _ IH]; [done|].
  rewrite !fmap_cons. by rewrite Ha, IH.
Qed.
End LayerFacts.

(** C1 (amended).  When the weight remapping returns, it has, for every
    layer index [i] from [0] to the number of layers minus one, assigned
    sixteen tensors to [transformer_layer_<i>], one for each row of the
    table in source order: a kernel and a bias for the query, key, value
    and output projections and for the two feed-forward layers, a gamma
    and a beta for the two layer norms, that is two tensors for each of
    eight sub-layers.  Each is the source tensor under the key of its row
    after the layout change of the row, which is one of five fixed ones:
    none, a transpose, or a reshape after a transpose or alone. *)
Theorem sixteen_tensors_per_layer {elt : Type} (cfg : list (string * pyval))
    (hf_wts : list (string * tensor elt)) (km : keras_model elt)
    (w w' : world elt) (km' : keras_model elt) :
  copy_weights cfg hf_wts km w = (w', Ok km') →
  ∃ evs,
    trace w' = trace w ++ evs ∧
    ∀ i : Z, 0 <= i < num_layers km →
      Forall2 (fun e av =>
                 e_layer e = layer_name i ∧ av.1 = e_attr e ∧
                 e_layout e ∈ fixed_layouts cfg ∧
                 ∃ src, dict_get hf_wts (e_key e) = Some src ∧
                        e_layout e src = Ok av.2)
        (layer_entries cfg i) (assigned_in (layer_name i) evs) ∧
      length (assigned_in (layer_name i) evs) = 16%nat ∧
      remove_dups (sublayer_of <$> (assigned_in (layer_name i) evs).*1)
      = weight_sublayers.
Proof.
  rewrite copy_weights_entries. intros H.
  apply run_entries_inv_Ok in H as (Hall & -> & _).
  eexists. split; [done|]. intros i Hi.
  rewrite assigned_in_assign_events. unfold all_entries at 1 2 3.
  rewrite omap_app, (assigned_by_elsewhere _ _ _ (embedding_entries_elsewhere i)).
  cbn [app].
  assert (i ∈ seqZ 0 (num_layers km)) as Hin by (apply elem_of_seqZ; lia).
  rewrite (loop_entries_of_layer _ _ _ _ (NoDup_seqZ _ _) Hin).
  assert (Forall (fun e => e_layer e = layer_name i ∧ is_Some (entry_value hf_wts e))
            (layer_entries cfg i)) as Hhere.
  { apply Forall_forall. intros e He. split.
    - pose proof (layer_entries_static (elt:=elt) cfg i) as Hs.
      rewrite Forall_forall in Hs. by destruct (Hs e He).
    - rewrite Forall_forall in Hall. apply Hall.
      unfold all_entries. apply elem_of_app. right.
      apply list_elem_of_In, in_concat. exists (layer_entries cfg i).
      split; [|by apply list_elem_of_In].
      apply list_elem_of_In. by apply list_elem_of_fmap_2. }
  pose proof (assigned_by_here _ _ _ Hhere) as H2.
  split; [|split].
  - pose proof (layer_entries_static (elt:=elt) cfg i) as Hs.
    revert H2 Hs. generalize (omap (assigned_by hf_wts (layer_name i)) (layer_entries cfg i)).
    generalize (layer_entries (elt:=elt) cfg i).
    intros es avs H2. induction H2 as [|e av es avs [Ha Hv] _ IH]; intros Hs.
    + constructor.
    + apply Forall_cons in Hs as [[Hl Hf] Hs].
      constructor; [|by apply IH].
      destruct (entry_value_Some _ _ _ Hv) as (src & Hsrc & Hlay).
      repeat split; try done. by exists src.
  - by rewrite <- (Forall2_length _ _ _ H2).
  - by rewrite (Forall2_attrs _ _ _ H2).
Qed.

Lemma sixteen_tensors_per_layer_witness :
  ∃ w' km',
    copy_weights demo_cfg demo_wts demo_km empty_world = (w', Ok km') ∧
    length (assigned_in (layer_name 1) (trace w')) = 16%nat.
Proof.
  pose proof (copy_weights_fit demo_cfg demo_wts demo_km demo_dims empty_world
                demo_dims_wf demo_cfg_of demo_state_dict_shaped
                demo_backbone_shaped) as Hrun.
  eexists _, _. split; [exact Hrun|].
  destruct (sixteen_tensors_per_layer demo_cfg demo_wts demo_km empty_world _ _ Hrun)
    as (evs & Ht & Hall).
  rewrite Ht. apply (Hall 1). unfold demo_km. cbn [num_layers]. lia.
Defined.

(** C1 as it was stated fails: the small run returns, and has not
    assigned six tensors to each layer. *)
Lemma six_tensors_per_layer_counterexample :
  (∃ w' km', copy_weights demo_cfg demo_wts demo_km empty_world = (w', Ok km')) ∧
  ¬ (∀ i : Z, 0 <= i < num_layers demo_km →
       length (assigned_in (layer_name i)
                 (trace (copy_weights demo_cfg demo_wts demo_km empty_world).1))
       = 6%nat).
Proof.
  split.
  - eexists _, _.
    exact (copy_weights_fit demo_cfg demo_wts demo_km demo_dims empty_world
             demo_dims_wf demo_cfg_of demo_state_dict_shaped
             demo_backbone_shaped).
  - intros H.
    assert (length (assigned_in (layer_name 0)
                      (trace (copy_weights demo_cfg demo_wts demo_km empty_world).1))
            = 16%nat) as H16 by (vm_compute; reflexivity).
    assert (0 <= 0 < num_layers demo_km) as H0 by (unfold demo_km; cbn [num_layers]; lia).
    specialize (H 0 H0). rewrite H16 in H. discriminate H.
Qed.

(* ===================================================================== *)
(** * Further properties *)
(* ===================================================================== *)

(* ===================================================================== *)
(** ** The small models again *)
(* ===================================================================== *)

Lemma demo_copy_run :
  copy_weights demo_cfg demo_wts demo_km empty_world
  = (after empty_world
       (omap (assign_event demo_wts) (all_entries demo_cfg (d_n_layers demo_dims))),
     Ok (apply_entries demo_wts (all_entries demo_cfg (d_n_layers demo_dims)) demo_km)).
Proof.
  exact (copy_weights_fit demo_cfg demo_wts demo_km demo_dims empty_world
           demo_dims_wf demo_cfg_of demo_state_dict_shaped demo_backbone_shaped).
Qed.

Lemma deeper_km_variables :
  ∀ layer attr s, (layer, attr, s) ∈ backbone_shapes demo_dims →
    ∃ v, variable_of deeper_km layer attr = Some v ∧ shape v = s.
Proof.
  intros layer attr s Hin.
  assert (Forall (fun las => ∃ var, variable_of deeper_km las.1.1 las.1.2 = Some var
                                    ∧ shape var = las.2)
            (backbone_shapes demo_dims)) as Hall.
  { vm_compute backbone_shapes.
    repeat (apply Forall_cons; split;
            [eexists; split; [by vm_compute|done]|]).
    constructor. }
  rewrite Forall_forall in Hall. apply (Hall _ Hin).
Qed.

Lemma downloaded_world_run :
  download_files demo_env demo_preset "distilbert-base-uncased" empty_world
  = (downloaded_world, Ok tt).
Proof.
  by vm_compute.
Qed.

(* ===================================================================== *)
(** ** More on the layout changes *)
(* ===================================================================== *)

Section MoreLayoutFacts.
Context {elt : Type}.
Implicit Types (t : tensor elt).

(** Transposing a matrix twice gives the matrix back. *)
Lemma transpose_involutive t r c :
  tensor_wf t → shape t = [r; c] →
  ∃ t', transpose_1_0 t = Ok t' ∧ transpose_1_0 t' = Ok t.
Proof.
  intros Hwf Hs.
  destruct (transpose_shape t r c [] Hs) as (t' & Ht' & Hs').
  exists t'. split; [done|].
  assert (tensor_wf t') as Hwf'.
  { unfold transpose_1_0 in Ht'. rewrite Hs in Ht'. injection Ht' as <-.
    unfold tensor_wf in *. cbn [data shape]. rewrite Hs in Hwf.
    rewrite (length_concat_uniform _ (r * 1)%nat).
    - rewrite length_map, length_seq. simpl in *. lia.
    - apply Forall_forall. intros l Hl.
      apply list_elem_of_fmap in Hl as (j & -> & Hj). apply elem_of_seq in Hj.
      rewrite (length_concat_uniform _ 1%nat); [by rewrite length_map, length_seq|].
      apply Forall_forall. intros l Hl.
      apply list_elem_of_fmap in Hl as (i & -> & Hi). apply elem_of_seq in Hi.
      apply length_block. rewrite Hwf. simpl. nia. }
  destruct (transpose_shape t' c r [] Hs') as (t'' & Ht'' & Hs'').
  rewrite Ht''. f_equal.
  destruct t as [s l], t'' as [s'' l'']. cbn [shape] in *. subst s s''. f_equal.
  unfold tensor_wf in Hwf, Hwf'. cbn [shape data] in *.
  assert (length l'' = numel [r; c]) as Hlen''.
  { unfold transpose_1_0 in Ht''. rewrite Hs' in Ht''. injection Ht'' as <-.
    rewrite (length_concat_uniform _ (c * 1)%nat).
    - rewrite length_map, length_seq. simpl. lia.
    - apply Forall_forall. intros l0 Hl.
      apply list_elem_of_fmap in Hl as (j & -> & Hj). apply elem_of_seq in Hj.
      rewrite (length_concat_uniform _ 1%nat); [by rewrite length_map, length_seq|].
      apply Forall_forall. intros l0 Hl.
      apply list_elem_of_fmap in Hl as (i & -> & Hi). apply elem_of_seq in Hi.
      apply length_block. rewrite Hwf', Hs'. simpl. nia. }
  apply list_eq. intros k.
  destruct (decide (k < r * c)%nat) as [Hk|Hk].
  - assert (0 < c)%nat as Hc by nia.
    set (i := (k / c)%nat). set (j := (k mod c)%nat).
    assert (k = (i * c + j)%nat) as Hkij.
    { unfold i, j. rewrite (Nat.div_mod_eq k c) at 1. lia. }
    assert (j < c)%nat as Hj by (apply Nat.mod_upper_bound; lia).
    assert (i < r)%nat as Hi.
    { unfold i. apply Nat.Div0.div_lt_upper_bound. lia. }
    destruct (transpose_lookup (Tensor [r; c] l) r c [] i j 0 Hwf eq_refl Hi Hj)
      as (u & Hu & _ & Hl1); [simpl; lia|].
    rewrite Ht' in Hu. injection Hu as <-.
    destruct (transpose_lookup t' c r [] j i 0 Hwf' Hs' Hj Hi)
      as (u & Hu & _ & Hl2); [simpl; lia|].
    rewrite Ht'' in Hu. injection Hu as <-.
    cbn [data numel foldr] in Hl1, Hl2.
    rewrite !Nat.mul_1_r, !Nat.add_0_r in Hl1, Hl2.
    rewrite Hkij, Hl2, Hl1. done.
  - rewrite !lookup_ge_None_2; [done|..].
    + rewrite Hwf. simpl. lia.
    + rewrite Hlen''. simpl. lia.
Qed.

Section MoreWithDims.
Variables (d : dims) (cfg : list (string * pyval)).
Hypothesis Hwf : dims_wf d.
Hypothesis Hcfg : cfg_of d cfg.

(** The output kernel, element by element. *)
Lemma out_kernel_elements t :
  tensor_wf t → shape t = [dim_H d; dim_H d] →
  ∃ K, out_kernel cfg t = Ok K ∧ shape K = [dim_N d; dim_D d; dim_H d] ∧
       ∀ n x h, (n < dim_N d)%nat → (x < dim_D d)%nat → (h < dim_H d)%nat →
         ∃ y, get2 t h (n * dim_D d + x) = Some y ∧ get3 K n x h = Some y.
Proof.
  intros Ht Hs. destruct (out_kernel_ok d cfg Hwf Hcfg t Hs) as (t' & Ht' & Hs' & HK).
  eexists. split; [exact HK|]. split; [done|].
  intros n x h Hn Hx Hh.
  pose proof (heads_times_size d Hwf) as HND.
  assert (n * dim_D d + x < dim_H d)%nat as Hj by nia.
  destruct (transpose_get2 t _ _ h (n * dim_D d + x)%nat Ht Hs)
    as (t'' & Ht'' & _ & Hget).
  rewrite Ht' in Ht''. injection Ht'' as <-.
  assert (is_Some (get2 t h (n * dim_D d + x))) as [y Hy].
  { unfold get2. rewrite Hs, decide_True by done.
    apply lookup_lt_is_Some. rewrite Ht, Hs. simpl. nia. }
  exists y. split; [done|]. rewrite <- Hy, <- Hget.
  unfold get3, get2. simpl. rewrite Hs'.
  by rewrite !decide_True by done.
Qed.

Lemma reshape_square (l : list elt) (s : list nat) :
  numel s = numel [dim_H d; dim_H d] →
  reshape (Tensor s l) [d_dim d; d_dim d] = Ok (Tensor [dim_H d; dim_H d] l).
Proof.
  intros Hn. destruct Hwf as (Hh & _). unfold reshape, infer_size. cbn [shape data].
  rewrite Hn, (square_numel d Hwf). simpl.
  rewrite !not_minus_one, !nonneg_leb by lia. simpl.
  by rewrite Z.mul_1_l, Z.eqb_refl.
Qed.

Lemma reshape_vector (l : list elt) (s : list nat) :
  numel s = numel [dim_H d] →
  reshape (Tensor s l) [d_dim d] = Ok (Tensor [dim_H d] l).
Proof.
  intros Hn. destruct Hwf as (Hh & _). unfold reshape, infer_size. cbn [shape data].
  rewrite Hn, (vector_numel d Hwf). simpl.
  rewrite !not_minus_one, !nonneg_leb by lia. simpl.
  by rewrite Z.mul_1_l, Z.eqb_refl.
Qed.
End MoreWithDims.
End MoreLayoutFacts.

(** X6.  The three layout changes with a reshape lose nothing.  With
    positive sizes and a number of heads that divides the hidden size: a
    kernel of the query, key or value projection, reshaped to
    [(hidden_dim, hidden_dim)] and transposed, is the source matrix
    again; so is the kernel of the output projection; and a bias reshaped
    to [(hidden_dim,)] is the source bias again. *)
Theorem reshaped_weights_can_be_read_back {elt : Type} (d : dims)
    (cfg : list (string * pyval)) (W b : tensor elt) :
  dims_wf d → cfg_of d cfg →
  tensor_wf W → shape W = [dim_H d; dim_H d] → shape b = [dim_H d] →
  (∃ K, qkv_kernel cfg W = Ok K ∧
        rbind (reshape K [d_dim d; d_dim d]) transpose_1_0 = Ok W) ∧
  (∃ K, out_kernel cfg W = Ok K ∧
        rbind (reshape K [d_dim d; d_dim d]) transpose_1_0 = Ok W) ∧
  (∃ B, qkv_bias cfg b = Ok B ∧ reshape B [d_dim d] = Ok b).
Proof.
  intros Hwf Hcfg HW Hs Hb.
  destruct (transpose_involutive W _ _ HW Hs) as (t' & Ht' & Hback).
  pose proof (heads_times_size d Hwf) as HND.
  destruct (transpose_shape W _ _ _ Hs) as (t2 & Ht2 & Hs2).
  rewrite Ht' in Ht2. injection Ht2 as <-.
  assert (Tensor [dim_H d; dim_H d] (data t') = t') as Hsame.
  { destruct t' as [s l]. cbn [shape data] in *. by subst. }
  split; [|split].
  - destruct (qkv_kernel_ok d cfg Hwf Hcfg W Hs) as (t3 & Ht3 & _ & HK).
    rewrite Ht' in Ht3. injection Ht3 as <-.
    eexists. split; [exact HK|].
    rewrite (reshape_square d Hwf); [|simpl; nia].
    cbn [rbind]. by rewrite Hsame.
  - destruct (out_kernel_ok d cfg Hwf Hcfg W Hs) as (t3 & Ht3 & _ & HK).
    rewrite Ht' in Ht3. injection Ht3 as <-.
    eexists. split; [exact HK|].
    rewrite (reshape_square d Hwf); [|simpl; nia].
    cbn [rbind]. by rewrite Hsame.
  - eexists. split; [by apply (qkv_bias_ok d cfg Hwf Hcfg)|].
    rewrite (reshape_vector d Hwf); [|simpl; nia].
    destruct b as [s l]. cbn [shape data] in *. by subst.
Qed.

Lemma reshaped_weights_can_be_read_back_witness :
  ∃ K, qkv_kernel demo_cfg (demo_tensor 0 [4; 4]%nat) = Ok K ∧
       rbind (reshape K [4; 4]) transpose_1_0 = Ok (demo_tensor 0 [4; 4]%nat).
Proof.
  exact (proj1 (reshaped_weights_can_be_read_back demo_dims demo_cfg
                  (demo_tensor 0 [4; 4]%nat) (demo_tensor 0 [4]%nat)
                  demo_dims_wf demo_cfg_of eq_refl eq_refl eq_refl)).
Defined.

Section Divisibility.
Context {elt : Type}.

Lemma infer_size_kernel_iff (h n : Z) :
  0 < h →
  (∃ s, infer_size [h; n; -1] (h * h) = Ok s) ↔ 0 < n ∧ (n | h).
Proof.
  intros Hh. split.
  - intros [s Hs]. unfold infer_size in Hs. cbn [infer_size_scan] in Hs.
    rewrite (not_minus_one h), (nonneg_leb h) in Hs by lia.
    destruct (Z.eqb_spec n (-1)) as [->|Hn1]; [done|].
    destruct (Z.leb_spec 0 n) as [Hn|Hn]; [|done].
    cbn in Hs. rewrite Z.mul_1_l in Hs.
    destruct (Z.eq_dec n 0) as [->|Hn0].
    { rewrite Z.mul_0_r in Hs. cbn in Hs.
      destruct (Z.eqb_spec (h * h) 0); [nia|]. done. }
    assert (0 < n) as Hpos by lia. split; [done|].
    destruct (Z.eqb_spec (h * h) (h * n)) as [Heq|Hne].
    + assert (h = n) as -> by nia. apply Z.divide_refl.
    + cbn in Hs. assert ((0 <? h * n) = true) as Hlt by (apply Z.ltb_lt; nia).
      rewrite Hlt in Hs. cbn in Hs.
      rewrite Z.mul_mod_distr_l in Hs by lia.
      destruct (Z.eqb_spec (h * (h mod n)) 0) as [Hz|]; [|done].
      apply Z.mod_divide; [lia|]. nia.
  - intros [Hn Hd]. eexists. by apply infer_size_kernel.
Qed.

Lemma infer_size_bias_iff (h n : Z) :
  0 < h →
  (∃ s, infer_size [n; -1] h = Ok s) ↔ 0 < n ∧ (n | h).
Proof.
  intros Hh. split.
  - intros [s Hs]. unfold infer_size in Hs. cbn [infer_size_scan] in Hs.
    destruct (Z.eqb_spec n (-1)) as [->|Hn1]; [done|].
    destruct (Z.leb_spec 0 n) as [Hn|Hn]; [|done].
    cbn in Hs. rewrite Z.mul_1_l in Hs.
    destruct (Z.eq_dec n 0) as [->|Hn0].
    { cbn in Hs. destruct (Z.eqb_spec h 0); [lia|]. done. }
    assert (0 < n) as Hpos by lia. split; [done|].
    destruct (Z.eqb_spec h n) as [->|Hne]; [apply Z.divide_refl|].
    cbn in Hs. assert ((0 <? n) = true) as Hlt by (by apply Z.ltb_lt).
    rewrite Hlt in Hs. cbn in Hs.
    destruct (Z.eqb_spec (h mod n) 0) as [Hz|]; [|done].
    apply Z.mod_divide; [lia|done].
  - intros [Hn Hd]. eexists. by apply infer_size_bias.
Qed.

Lemma infer_size_out_iff (h n : Z) :
  0 < h →
  (∃ s, infer_size [n; -1; h] (h * h) = Ok s) ↔ 0 < n ∧ (n | h).
Proof.
  intros Hh. split.
  - intros [s Hs]. unfold infer_size in Hs. cbn [infer_size_scan] in Hs.
    destruct (Z.eqb_spec n (-1)) as [->|Hn1].
    { by cbn in Hs. }
    destruct (Z.leb_spec 0 n) as [Hn|Hn]; [|done].
    cbn in Hs. rewrite (not_minus_one h), (nonneg_leb h) in Hs by lia.
    rewrite Z.mul_1_l in Hs.
    destruct (Z.eq_dec n 0) as [->|Hn0].
    { rewrite Z.mul_0_l in Hs. cbn in Hs.
      destruct (Z.eqb_spec (h * h) 0); [nia|]. done. }
    assert (0 < n) as Hpos by lia. split; [done|].
    destruct (Z.eqb_spec (h * h) (n * h)) as [Heq|Hne].
    + assert (h = n) as -> by nia. apply Z.divide_refl.
    + cbn in Hs. assert ((0 <? n * h) = true) as Hlt by (apply Z.ltb_lt; nia).
      rewrite Hlt in Hs. cbn in Hs.
      rewrite Z.mul_mod_distr_r in Hs by lia.
      destruct (Z.eqb_spec (h mod n * h) 0) as [Hz|]; [|done].
      apply Z.mod_divide; [lia|]. nia.
  - intros [Hn Hd]. eexists. by apply infer_size_out.
Qed.
End Divisibility.

Section DivisibilityOfLayouts.
Context {elt : Type}.
Variables (d : dims) (cfg : list (string * pyval)).
Hypothesis Hcfg : cfg_of d cfg.
Hypothesis Hh : 0 < d_dim d.
Implicit Types (t : tensor elt).

Lemma reshape_returns t spec :
  (∃ t', reshape t spec = Ok t')
  ↔ ∃ s, infer_size spec (Z.of_nat (numel (shape t))) = Ok s.
Proof.
  unfold reshape. destruct (infer_size _ _) as [s|e]; split; intros [x Hx]; eauto; done.
Qed.

Lemma square_numel_pos : Z.of_nat (numel [dim_H d; dim_H d]) = d_dim d * d_dim d.
Proof. unfold dim_H. simpl. lia. Qed.

Lemma vector_numel_pos : Z.of_nat (numel [dim_H d]) = d_dim d.
Proof. unfold dim_H. simpl. lia. Qed.

Lemma qkv_kernel_returns_iff t :
  shape t = [dim_H d; dim_H d] →
  (∃ K, qkv_kernel cfg t = Ok K) ↔ 0 < d_n_heads d ∧ (d_n_heads d | d_dim d).
Proof.
  intros Hs. destruct (transpose_shape t _ _ _ Hs) as (t' & Ht' & Hs').
  destruct Hcfg as [Hhd Hnh].
  rewrite <- (infer_size_kernel_iff (d_dim d) (d_n_heads d) Hh).
  rewrite <- square_numel_pos, <- Hs', <- reshape_returns.
  unfold qkv_kernel, reshape_py. rewrite Ht'. simpl.
  rewrite (dict_item_get _ _ _ Hhd), (dict_item_get _ _ _ Hnh). simpl.
  destruct (reshape t' _) as [k|e]; simpl; split; intros [x Hx]; eauto; done.
Qed.

Lemma out_kernel_returns_iff t :
  shape t = [dim_H d; dim_H d] →
  (∃ K, out_kernel cfg t = Ok K) ↔ 0 < d_n_heads d ∧ (d_n_heads d | d_dim d).
Proof.
  intros Hs. destruct (transpose_shape t _ _ _ Hs) as (t' & Ht' & Hs').
  destruct Hcfg as [Hhd Hnh].
  rewrite <- (infer_size_out_iff (d_dim d) (d_n_heads d) Hh).
  rewrite <- square_numel_pos, <- Hs', <- reshape_returns.
  unfold out_kernel, reshape_py. rewrite Ht'. simpl.
  rewrite (dict_item_get _ _ _ Hhd), (dict_item_get _ _ _ Hnh). simpl.
  destruct (reshape t' _) as [k|e]; simpl; split; intros [x Hx]; eauto; done.
Qed.

Lemma qkv_bias_returns_iff t :
  shape t = [dim_H d] →
  (∃ B, qkv_bias cfg t = Ok B) ↔ 0 < d_n_heads d ∧ (d_n_heads d | d_dim d).
Proof.
  intros Hs. destruct Hcfg as [Hhd Hnh].
  rewrite <- (infer_size_bias_iff (d_dim d) (d_n_heads d) Hh).
  rewrite <- vector_numel_pos, <- Hs, <- reshape_returns.
  unfold qkv_bias, reshape_py. simpl.
  rewrite (dict_item_get _ _ _ Hnh). simpl.
  destruct (reshape t _) as [k|e]; simpl; split; intros [x Hx]; eauto; done.
Qed.
End DivisibilityOfLayouts.

(** X7.  With a positive hidden size, the reshapes of the loop go
    through exactly when the number of heads of the configuration is
    positive and divides the hidden size: this holds for the kernel of the
    query, key and value projections, for their bias, and for the kernel
    of the output projection.  Otherwise the reshape raises. *)
Theorem heads_must_divide_hidden_size {elt : Type} (d : dims)
    (cfg : list (string * pyval)) (W b : tensor elt) :
  cfg_of d cfg → 0 < d_dim d →
  shape W = [dim_H d; dim_H d] → shape b = [dim_H d] →
  ((∃ K, qkv_kernel cfg W = Ok K) ↔ 0 < d_n_heads d ∧ (d_n_heads d | d_dim d)) ∧
  ((∃ B, qkv_bias cfg b = Ok B) ↔ 0 < d_n_heads d ∧ (d_n_heads d | d_dim d)) ∧
  ((∃ K, out_kernel cfg W = Ok K) ↔ 0 < d_n_heads d ∧ (d_n_heads d | d_dim d)).
Proof.
  intros Hcfg Hh HW Hb. split; [|split].
  - by apply qkv_kernel_returns_iff.
  - by apply qkv_bias_returns_iff.
  - by apply out_kernel_returns_iff.
Qed.

Lemma heads_must_divide_hidden_size_witness :
  (∃ K, qkv_kernel [("hidden_dim", PyInt 4); ("num_heads", PyInt 3)]
          (demo_tensor 0 [4; 4]%nat) = Ok K)
  ↔ 0 < 3 ∧ (3 | 4).
Proof.
  exact (proj1 (heads_must_divide_hidden_size (Dims 3 2 4 3 6 2)
                  [("hidden_dim", PyInt 4); ("num_heads", PyInt 3)]
                  (demo_tensor 0 [4; 4]%nat) (demo_tensor 0 [4]%nat)
                  (conj eq_refl eq_refl) eq_refl eq_refl eq_refl)).
Defined.

(* ===================================================================== *)
(** ** More on what the loop leaves in the model *)
(* ===================================================================== *)

(** X1.  After a weight remapping that returns, for every layer [i]: the
    kernel of the output projection of the attention is the source weight
    matrix [W] of [out_lin], of shape [[hidden_dim, hidden_dim]],
    transposed and reshaped to
    [(num_heads, hidden_dim / num_heads, hidden_dim)], that is
    [kernel[n, x, h] = W[h, n * (hidden_dim / num_heads) + x]]. *)
Theorem output_projection_kernel {elt : Type} (d : dims)
    (cfg : list (string * pyval)) (hf_wts : list (string * tensor elt))
    (km : keras_model elt) (w w' : world elt) (km' : keras_model elt)
    (i : Z) (W : tensor elt) :
  dims_wf d → cfg_of d cfg →
  copy_weights cfg hf_wts km w = (w', Ok km') →
  0 <= i < num_layers km →
  dict_get hf_wts (hf_key i ".attention.out_lin.weight") = Some W →
  tensor_wf W → shape W = [dim_H d; dim_H d] →
  ∃ K,
    variable_of km' (layer_name i) "_self_attention_layer._output_dense.kernel"
    = Some K ∧
    shape K = [dim_N d; dim_D d; dim_H d] ∧
    ∀ n x h, (n < dim_N d)%nat → (x < dim_D d)%nat → (h < dim_H d)%nat →
      ∃ y, get2 W h (n * dim_D d + x) = Some y ∧ get3 K n x h = Some y.
Proof.
  intros Hwf Hcfg Hrun Hi HW HWwf HWs.
  destruct (out_kernel_elements d cfg Hwf Hcfg W HWwf HWs) as (K & HK & HKs & HKel).
  exists K.
  assert (i ∈ seqZ 0 (num_layers km)) as Hin by (apply elem_of_seqZ; lia).
  repeat split; try done.
  apply (row_assigned cfg hf_wts km w w' km'
           (Entry (layer_name i) "_self_attention_layer._output_dense.kernel"
              (hf_key i ".attention.out_lin.weight") (out_kernel cfg)) K Hrun).
  - apply (layer_entry_in_all cfg _ i _ Hin). in_table.
  - apply (entry_value_intro hf_wts _ W); [exact HW|exact HK].
Qed.

Lemma output_projection_kernel_witness :
  ∃ w' km' K,
    copy_weights demo_cfg demo_wts demo_km empty_world = (w', Ok km') ∧
    variable_of km' (layer_name 1) "_self_attention_layer._output_dense.kernel"
    = Some K ∧
    ∃ y, get2 (demo_tensor 2600 [4; 4]%nat) 3 (1 * 2 + 0) = Some y ∧
         get3 K 1 0 3 = Some y.
Proof.
  pose proof demo_copy_run as Hrun.
  destruct (output_projection_kernel demo_dims demo_cfg demo_wts demo_km
              empty_world _ _ 1 (demo_tensor 2600 [4; 4]%nat)
              demo_dims_wf demo_cfg_of Hrun)
    as (K & HK & _ & Hel).
  - unfold demo_km. cbn [num_layers]. lia.
  - by vm_compute.
  - reflexivity.
  - reflexivity.
  - eexists _, _, K. split; [exact Hrun|]. split; [exact HK|].
    apply (Hel 1 0 3)%nat; vm_compute; lia.
Defined.

(** X2.  After a weight remapping that returns, for every layer [i] the
    kernels of the two feed-forward layers are the transposes of the
    source weight matrices of [ffn.lin1] and [ffn.lin2]: a source of shape
    [[r, c]] gives a kernel of shape [[c, r]] with
    [kernel[a, b] = W[b, a]]. *)
Theorem feedforward_kernels_are_transposes {elt : Type}
    (cfg : list (string * pyval)) (hf_wts : list (string * tensor elt))
    (km : keras_model elt) (w w' : world elt) (km' : keras_model elt)
    (i : Z) (dense lin : string) (W : tensor elt) (r c : nat) :
  copy_weights cfg hf_wts km w = (w', Ok km') →
  0 <= i < num_layers km →
  (dense, lin) ∈ [ ("_feedforward_intermediate_dense", "lin1");
                   ("_feedforward_output_dense", "lin2") ] →
  dict_get hf_wts (hf_key i (".ffn." +:+ lin +:+ ".weight")) = Some W →
  tensor_wf W → shape W = [r; c] →
  ∃ K,
    variable_of km' (layer_name i) (dense +:+ ".kernel") = Some K ∧
    shape K = [c; r] ∧
    ∀ a b, get2 K a b = get2 W b a.
Proof.
  intros Hrun Hi Hp HW HWwf HWs.
  destruct (transposed_ok W r c HWs) as (K & HK & HT & HKs).
  exists K.
  assert (i ∈ seqZ 0 (num_layers km)) as Hin by (apply elem_of_seqZ; lia).
  assert (∀ a b, get2 K a b = get2 W b a) as Hel.
  { intros a b. destruct (transpose_get2 W r c b a HWwf HWs) as (K' & HK' & _ & Hg).
    rewrite HT in HK'. by injection HK' as <-. }
  rewrite !elem_of_cons, elem_of_nil in Hp.
  destruct Hp as [[= -> ->]|[[= -> ->]|[]]].
  all: repeat split; try done.
  - apply (row_assigned cfg hf_wts km w w' km'
             (Entry (layer_name i) "_feedforward_intermediate_dense.kernel"
                (hf_key i ".ffn.lin1.weight") transposed) K Hrun).
    + apply (layer_entry_in_all cfg _ i _ Hin). in_table.
    + apply (entry_value_intro hf_wts _ W); [exact HW|exact HK].
  - apply (row_assigned cfg hf_wts km w w' km'
             (Entry (layer_name i) "_feedforward_output_dense.kernel"
                (hf_key i ".ffn.lin2.weight") transposed) K Hrun).
    + apply (layer_entry_in_all cfg _ i _ Hin). in_table.
    + apply (entry_value_intro hf_wts _ W); [exact HW|exact HK].
Qed.

Lemma feedforward_kernels_are_transposes_witness :
  ∃ w' km' K,
    copy_weights demo_cfg demo_wts demo_km empty_world = (w', Ok km') ∧
    variable_of km' (layer_name 0) "_feedforward_intermediate_dense.kernel" = Some K ∧
    shape K = [4; 6]%nat ∧
    get2 K 3 5 = get2 (demo_tensor 1400 [6; 4]%nat) 5 3.
Proof.
  pose proof demo_copy_run as Hrun.
  destruct (feedforward_kernels_are_transposes demo_cfg demo_wts demo_km
              empty_world _ _ 0 "_feedforward_intermediate_dense" "lin1"
              (demo_tensor 1400 [6; 4]%nat) 6 4 Hrun)
    as (K & HK & Hs & Hel).
  - unfold demo_km. cbn [num_layers]. lia.
  - in_table.
  - by vm_compute.
  - reflexivity.
  - reflexivity.
  - eexists _, _, K. split; [exact Hrun|]. split; [exact HK|]. split; [exact Hs|].
    apply Hel.
Defined.

Section KeptFacts.
Context {elt : Type}.
Variable hf_wts : list (string * tensor elt).
Implicit Types (w : world elt) (km : keras_model elt) (es : list (entry elt)).

Lemma apply_entries_cons e es km :
  apply_entries hf_wts (e :: es) km
  = apply_entries hf_wts es
      (match entry_value hf_wts e with
       | Some v => set_variable km (e_layer e) (e_attr e) v
       | None => km
       end).
Proof. done. Qed.

Lemma apply_entries_num_layers es km :
  num_layers (apply_entries hf_wts es km) = num_layers km.
Proof.
  revert km. induction es as [|e es IH]; intros km; [done|].
  rewrite apply_entries_cons, IH. by destruct (entry_value hf_wts e).
Qed.

Lemma apply_entries_other_layer es km layer :
  layer ∉ e_layer <$> es →
  layers (apply_entries hf_wts es km) !! layer = layers km !! layer.
Proof.
  revert km. induction es as [|e es IH]; intros km Hn; [done|].
  rewrite fmap_cons, not_elem_of_cons in Hn. destruct Hn as [Hne Hn].
  rewrite apply_entries_cons, IH by done.
  destruct (entry_value hf_wts e) as [v|]; [|done].
  unfold set_variable. cbn [layers]. by rewrite lookup_insert_ne.
Qed.

(** The rows that run change no shape. *)
Lemma run_entries_shapes es km w w' km' layer attr :
  run_entries hf_wts es km w = (w', Ok km') →
  shape <$> variable_of km' layer attr = shape <$> variable_of km layer attr.
Proof.
  revert km w. induction es as [|e es IH]; intros km w; cbn [run_entries].
  - by intros [= _ <-].
  - intros H. apply bind_inv_Ok in H as (km1 & w1 & H1 & H2).
    apply assign_weight_inv_Ok in H1 as (var & src & v & Hvar & _ & _ & Hs & _ & ->).
    rewrite (IH _ _ H2). apply set_variable_shape. by rewrite Hvar, <- Hs.
Qed.

(** The rows that run make no layer and remove none. *)
Lemma run_entries_layers es km w w' km' layer :
  run_entries hf_wts es km w = (w', Ok km') →
  is_Some (layers km' !! layer) ↔ is_Some (layers km !! layer).
Proof.
  revert km w. induction es as [|e es IH]; intros km w; cbn [run_entries].
  - by intros [= _ <-].
  - intros H. apply bind_inv_Ok in H as (km1 & w1 & H1 & H2).
    apply assign_weight_inv_Ok in H1 as (var & src & v & Hvar & _ & _ & Hs & _ & ->).
    rewrite (IH _ _ H2). unfold set_variable. cbn [layers].
    destruct (decide (e_layer e = layer)) as [<-|Hne].
    + rewrite lookup_insert_eq. unfold variable_of in Hvar.
      destruct (layers km !! e_layer e); [|done]. split; eauto.
    + by rewrite lookup_insert_ne.
Qed.

Lemma loop_layers (cfg : list (string * pyval)) (idx : list Z) (layer : string) :
  layer ∈ e_layer <$> concat (layer_entries (elt:=elt) cfg <$> idx) →
  ∃ j, j ∈ idx ∧ layer = layer_name j.
Proof.
  induction idx as [|i idx IH].
  - simpl. by intros ?%elem_of_nil.
  - rewrite fmap_cons, concat_cons, fmap_app, elem_of_app. intros [H|H].
    + exists i. split; [left|]. unfold layer_entries in H. simpl in H.
      rewrite !elem_of_cons, elem_of_nil in H.
      repeat destruct H as [->|H]; done.
    + destruct (IH H) as (j & Hj & Hx). exists j. split; [by right|done].
Qed.

(** A row that copies its source as it is. *)
Lemma row_copied cfg km w w' km' (e : entry elt) :
  copy_weights cfg hf_wts km w = (w', Ok km') →
  e ∈ all_entries cfg (num_layers km) →
  (∀ t, e_layout e t = Ok t) →
  ∃ t, dict_get hf_wts (e_key e) = Some t ∧
       variable_of km' (e_layer e) (e_attr e) = Some t.
Proof.
  intros Hrun He Hid. pose proof Hrun as Hrun'.
  rewrite copy_weights_entries in Hrun'.
  apply run_entries_inv_Ok in Hrun' as (Hall & _ & _).
  rewrite Forall_forall in Hall. destruct (Hall e He) as [v Hv].
  destruct (entry_value_Some _ _ _ Hv) as (src & Hsrc & Hlay).
  rewrite Hid in Hlay. injection Hlay as <-.
  exists src. split; [done|]. by apply (row_assigned cfg hf_wts km w w' km').
Qed.
End KeptFacts.

(** X3.  After a weight remapping that returns, the two embedding
    matrices and the embedding layer norm hold the source tensors as they
    are (no transpose, unlike the dense kernels), and so do, in every
    layer, the bias of the output projection, the biases of the two
    feed-forward layers and the gamma and beta of the two layer norms. *)
Theorem embeddings_biases_and_norms_copied_as_they_are {elt : Type}
    (cfg : list (string * pyval)) (hf_wts : list (string * tensor elt))
    (km : keras_model elt) (w w' : world elt) (km' : keras_model elt) :
  copy_weights cfg hf_wts km w = (w', Ok km') →
  (∀ layer attr key,
     (layer, attr, key) ∈
       [ ("token_and_position_embedding", "token_embedding.embeddings",
          "embeddings.word_embeddings.weight");
         ("token_and_position_embedding", "position_embedding.position_embeddings",
          "embeddings.position_embeddings.weight");
         ("embeddings_layer_norm", "gamma", "embeddings.LayerNorm.weight");
         ("embeddings_layer_norm", "beta", "embeddings.LayerNorm.bias") ] →
     ∃ t, dict_get hf_wts key = Some t ∧ variable_of km' layer attr = Some t) ∧
  (∀ i attr suffix,
     0 <= i < num_layers km →
     (attr, suffix) ∈
       [ ("_self_attention_layer._output_dense.bias", ".attention.out_lin.bias");
         ("_self_attention_layer_norm.gamma", ".sa_layer_norm.weight");
         ("_self_attention_layer_norm.beta", ".sa_layer_norm.bias");
         ("_feedforward_intermediate_dense.bias", ".ffn.lin1.bias");
         ("_feedforward_output_dense.bias", ".ffn.lin2.bias");
         ("_feedforward_layer_norm.gamma", ".output_layer_norm.weight");
         ("_feedforward_layer_norm.beta", ".output_layer_norm.bias") ] →
     ∃ t, dict_get hf_wts (hf_key i suffix) = Some t ∧
          variable_of km' (layer_name i) attr = Some t).
Proof.
  intros Hrun. split.
  - intros layer attr key Hin. rewrite !elem_of_cons, elem_of_nil in Hin.
    destruct Hin as [[= -> -> ->]|[[= -> -> ->]|[[= -> -> ->]|[[= -> -> ->]|[]]]]].
    + apply (row_copied hf_wts cfg km w w' km'
               (Entry "token_and_position_embedding" "token_embedding.embeddings"
                  "embeddings.word_embeddings.weight" Ok) Hrun); [|done].
      unfold all_entries. apply elem_of_app. left. in_table.
    + apply (row_copied hf_wts cfg km w w' km'
               (Entry "token_and_position_embedding"
                  "position_embedding.position_embeddings"
                  "embeddings.position_embeddings.weight" Ok) Hrun); [|done].
      unfold all_entries. apply elem_of_app. left. in_table.
    + apply (row_copied hf_wts cfg km w w' km'
               (Entry "embeddings_layer_norm" "gamma"
                  "embeddings.LayerNorm.weight" Ok) Hrun); [|done].
      unfold all_entries. apply elem_of_app. left. in_table.
    + apply (row_copied hf_wts cfg km w w' km'
               (Entry "embeddings_layer_norm" "beta"
                  "embeddings.LayerNorm.bias" Ok) Hrun); [|done].
      unfold all_entries. apply elem_of_app. left. in_table.
  - intros i attr suffix Hi Hin.
    assert (i ∈ seqZ 0 (num_layers km)) as Hidx by (apply elem_of_seqZ; lia).
    rewrite !elem_of_cons, elem_of_nil in Hin.
    repeat destruct Hin as [[= -> ->]|Hin]; try done.
    all: match goal with
         | |- ∃ t, dict_get _ (hf_key ?j ?s) = _ ∧ variable_of _ _ ?a = _ =>
             apply (row_copied hf_wts cfg km w w' km'
                      (Entry (layer_name j) a (hf_key j s) unchanged) Hrun);
               [apply (layer_entry_in_all cfg _ j _ Hidx); in_table|done]
         end.
Qed.

Lemma embeddings_biases_and_norms_copied_as_they_are_witness :
  ∃ w' km',
    copy_weights demo_cfg demo_wts demo_km empty_world = (w', Ok km') ∧
    variable_of km' "embeddings_layer_norm" "gamma" = Some (demo_tensor 200 [4]%nat).
Proof.
  pose proof demo_copy_run as Hrun.
  destruct (proj1 (embeddings_biases_and_norms_copied_as_they_are demo_cfg demo_wts
                     demo_km empty_world _ _ Hrun)
              "embeddings_layer_norm" "gamma" "embeddings.LayerNorm.weight")
    as (t & Ht & Hv); [in_table|].
  eexists _, _. split; [exact Hrun|].
  rewrite Hv. rewrite <- Ht. reflexivity.
Defined.

(** X4.  A weight remapping that returns changes nothing but the
    variables of its table: the number of layers is the same, a layer
    that is neither one of the two embedding layers nor a
    [transformer_layer_<i>] with [0 <= i < num_layers] is as it was, and
    so is every variable that no row of the table assigns to. *)
Theorem conversion_touches_only_its_variables {elt : Type}
    (cfg : list (string * pyval)) (hf_wts : list (string * tensor elt))
    (km : keras_model elt) (w w' : world elt) (km' : keras_model elt) :
  copy_weights cfg hf_wts km w = (w', Ok km') →
  num_layers km' = num_layers km ∧
  (∀ layer,
     layer ≠ "token_and_position_embedding" → layer ≠ "embeddings_layer_norm" →
     (∀ i, 0 <= i < num_layers km → layer ≠ layer_name i) →
     layers km' !! layer = layers km !! layer) ∧
  (∀ layer attr,
     (layer, attr) ∉ target <$> all_entries (elt:=elt) cfg (num_layers km) →
     variable_of km' layer attr = variable_of km layer attr).
Proof.
  intros Hrun. rewrite copy_weights_entries in Hrun.
  apply run_entries_inv_Ok in Hrun as (_ & _ & ->).
  split; [apply apply_entries_num_layers|]. split.
  - intros layer H1 H2 H3. apply apply_entries_other_layer.
    unfold all_entries. rewrite fmap_app, elem_of_app. intros [Hin|Hin].
    + unfold embedding_entries in Hin. simpl in Hin.
      rewrite !elem_of_cons, elem_of_nil in Hin.
      repeat destruct Hin as [->|Hin]; done.
    + apply loop_layers in Hin as (j & Hj & ->).
      apply elem_of_seqZ in Hj. apply (H3 j); [lia|done].
  - intros layer attr Hn. by apply apply_entries_other.
Qed.

Lemma conversion_touches_only_its_variables_witness :
  ∃ w' km',
    copy_weights demo_cfg demo_wts demo_km empty_world = (w', Ok km') ∧
    num_layers km' = 2 ∧
    layers km' !! "pooler" = None.
Proof.
  pose proof demo_copy_run as Hrun.
  destruct (conversion_touches_only_its_variables demo_cfg demo_wts demo_km
              empty_world _ _ Hrun) as (Hn & Hl & _).
  eexists _, _. split; [exact Hrun|]. split; [exact Hn|].
  rewrite (Hl "pooler"); [by vm_compute|done|done|].
  intros i _. unfold layer_name. done.
Defined.

(** X5.  A weight remapping that returns leaves every variable of the
    model with the shape it had (the values change, the shapes do not), so
    that no variable is made or lost, and no layer either. *)
Theorem conversion_keeps_every_shape {elt : Type}
    (cfg : list (string * pyval)) (hf_wts : list (string * tensor elt))
    (km : keras_model elt) (w w' : world elt) (km' : keras_model elt) :
  copy_weights cfg hf_wts km w = (w', Ok km') →
  (∀ layer attr,
     shape <$> variable_of km' layer attr = shape <$> variable_of km layer attr) ∧
  (∀ layer, is_Some (layers km' !! layer) ↔ is_Some (layers km !! layer)).
Proof.
  intros Hrun. rewrite copy_weights_entries in Hrun. split.
  - intros layer attr. exact (run_entries_shapes hf_wts _ km w w' km' _ _ Hrun).
  - intros layer. exact (run_entries_layers hf_wts _ km w w' km' _ Hrun).
Qed.

Lemma conversion_keeps_every_shape_witness :
  ∃ w' km',
    copy_weights demo_cfg demo_wts demo_km empty_world = (w', Ok km') ∧
    shape <$> variable_of km' (layer_name 0) "_self_attention_layer._query_dense.kernel"
    = Some [4; 2; 2]%nat.
Proof.
  pose proof demo_copy_run as Hrun.
  destruct (conversion_keeps_every_shape demo_cfg demo_wts demo_km
              empty_world _ _ Hrun) as (Hs & _).
  eexists _, _. split; [exact Hrun|].
  rewrite Hs. by vm_compute.
Defined.

(* ===================================================================== *)
(** ** What the assignments read *)
(* ===================================================================== *)

Section DependFacts.
Context {elt : Type}.
Implicit Types (w : world elt) (km : keras_model elt) (es : list (entry elt)).

Lemma assign_weight_same wts1 wts2 (e1 e2 : entry elt) km w :
  same_row wts1 wts2 e1 e2 →
  assign_weight wts1 (e_layer e1) (e_attr e1) (e_key e1) (e_layout e1) km w
  = assign_weight wts2 (e_layer e2) (e_attr e2) (e_key e2) (e_layout e2) km w.
Proof.
  intros (Hl & Ha & Hk & Hf). unfold assign_weight. rewrite Hl, Ha, Hk.
  unfold bind, lift.
  destruct (get_layer km (e_layer e2)) as [l|]; [|done].
  destruct (get_variable l (e_attr e2)) as [var|]; [|done].
  destruct (dict_item wts2 (e_key e2)) as [src|]; [|done].
  by rewrite Hf.
Qed.

Lemma run_entries_same wts1 wts2 es1 es2 km w :
  Forall2 (same_row wts1 wts2) es1 es2 →
  run_entries wts1 es1 km w = run_entries wts2 es2 km w.
Proof.
  intros H. revert km w. induction H as [|e1 e2 es1 es2 He _ IH]; intros km w.
  - done.
  - cbn [run_entries]. unfold bind. rewrite (assign_weight_same _ _ _ _ _ _ He).
    destruct (assign_weight wts2 _ _ _ _ km w) as [w1 [km1|err]]; [apply IH|done].
Qed.

Lemma Forall2_same_refl wts (es : list (entry elt)) :
  Forall2 (same_row wts wts) es es.
Proof. induction es as [|e es IH]; constructor; [done|exact IH]. Qed.

Lemma Forall2_concat_fmap {A B} (R : B → B → Prop) (f g : A → list B) (l : list A) :
  (∀ x, x ∈ l → Forall2 R (f x) (g x)) →
  Forall2 R (concat (f <$> l)) (concat (g <$> l)).
Proof.
  induction l as [|x l IH]; intros H; [constructor|].
  rewrite !fmap_cons, !concat_cons. apply Forall2_app.
  - apply H. left.
  - apply IH. intros y Hy. apply H. by right.
Qed.

(** The layout changes look at two entries of the configuration only. *)
Lemma layouts_same_cfg (cfg1 cfg2 : list (string * pyval)) (t : tensor elt) :
  dict_get cfg1 "hidden_dim" = dict_get cfg2 "hidden_dim" →
  dict_get cfg1 "num_heads" = dict_get cfg2 "num_heads" →
  qkv_kernel cfg1 t = qkv_kernel cfg2 t ∧ qkv_bias cfg1 t = qkv_bias cfg2 t ∧
  out_kernel cfg1 t = out_kernel cfg2 t.
Proof.
  intros Hh Hn. unfold qkv_kernel, qkv_bias, out_kernel, dict_item.
  by rewrite Hh, Hn.
Qed.

Lemma layer_entries_same_cfg (cfg1 cfg2 : list (string * pyval))
    (wts : list (string * tensor elt)) (i : Z) :
  dict_get cfg1 "hidden_dim" = dict_get cfg2 "hidden_dim" →
  dict_get cfg1 "num_heads" = dict_get cfg2 "num_heads" →
  Forall2 (same_row wts wts) (layer_entries cfg1 i) (layer_entries cfg2 i).
Proof.
  intros Hh Hn. unfold layer_entries.
  repeat (apply Forall2_cons; split;
          [unfold same_row; cbn [e_layer e_attr e_key e_layout];
           repeat split; try done; intros t;
           by destruct (layouts_same_cfg cfg1 cfg2 t Hh Hn) as (? & ? & ?)|]).
  constructor.
Qed.

Lemma table_keys_same (cfg : list (string * pyval))
    (wts1 wts2 : list (string * tensor elt)) (es : list (entry elt)) :
  (∀ key, key ∈ e_key <$> es → dict_get wts1 key = dict_get wts2 key) →
  Forall2 (same_row wts1 wts2) es es.
Proof.
  intros H. apply Forall2_same_length_lookup_2; [done|].
  intros k e e' He He'. simplify_eq. repeat split; try done.
  unfold dict_item. rewrite (H (e_key e)); [done|].
  apply list_elem_of_fmap_2. by eapply list_elem_of_lookup_2.
Qed.
End DependFacts.

(** X8.  Of the configuration, the assignments use the hidden size and
    the number of heads only: two configurations that agree on
    [hidden_dim] and [num_heads] give the same run, whatever their other
    entries are ([num_layers] among them: the loop runs over the layers of
    the KerasHub model). *)
Theorem only_hidden_dim_and_num_heads_are_used {elt : Type}
    (cfg1 cfg2 : list (string * pyval)) (hf_wts : list (string * tensor elt))
    (km : keras_model elt) (w : world elt) :
  dict_get cfg1 "hidden_dim" = dict_get cfg2 "hidden_dim" →
  dict_get cfg1 "num_heads" = dict_get cfg2 "num_heads" →
  copy_weights cfg1 hf_wts km w = copy_weights cfg2 hf_wts km w.
Proof.
  intros Hh Hn. rewrite !copy_weights_entries. apply run_entries_same.
  unfold all_entries. apply Forall2_app; [apply Forall2_same_refl|].
  apply Forall2_concat_fmap. intros i _. by apply layer_entries_same_cfg.
Qed.

Lemma only_hidden_dim_and_num_heads_are_used_witness :
  copy_weights demo_cfg demo_wts demo_km empty_world
  = copy_weights [("num_heads", PyInt 2); ("hidden_dim", PyInt 4)] demo_wts demo_km
      empty_world.
Proof.
  exact (only_hidden_dim_and_num_heads_are_used demo_cfg
           [("num_heads", PyInt 2); ("hidden_dim", PyInt 4)] demo_wts demo_km
           empty_world eq_refl eq_refl).
Defined.

(** X9.  Of the state dictionary, the assignments read the keys of the
    table only: two state dictionaries that agree on these keys give the
    same run.  Tensors under other keys, such as those of layers beyond
    the layers of the KerasHub model, are ignored. *)
Theorem only_the_keys_of_the_table_are_read {elt : Type}
    (cfg : list (string * pyval)) (wts1 wts2 : list (string * tensor elt))
    (km : keras_model elt) (w : world elt) :
  (∀ key, key ∈ e_key <$> all_entries (elt:=elt) cfg (num_layers km) →
          dict_get wts1 key = dict_get wts2 key) →
  copy_weights cfg wts1 km w = copy_weights cfg wts2 km w.
Proof.
  intros H. rewrite !copy_weights_entries. apply run_entries_same.
  by apply table_keys_same.
Qed.

Lemma only_the_keys_of_the_table_are_read_witness :
  copy_weights demo_cfg demo_wts demo_km empty_world
  = copy_weights demo_cfg longer_wts demo_km empty_world.
Proof.
  apply (only_the_keys_of_the_table_are_read demo_cfg demo_wts longer_wts demo_km
           empty_world).
  intros key Hin. unfold longer_wts. cbn [dict_get].
  rewrite decide_False; [done|]. intros <-. revert Hin.
  apply (bool_decide_unpack _). by vm_compute.
Defined.

Section MissingKey.
Context {elt : Type}.
Implicit Types (w : world elt) (km : keras_model elt) (es : list (entry elt)).

(** The source tensor is looked up after the variable: a key that is not
    in the state dictionary is a [KeyError]. *)
Lemma assign_weight_missing_key (hf_wts : list (string * tensor elt))
    layer attr key layout km w var :
  variable_of km layer attr = Some var →
  dict_get hf_wts key = None →
  assign_weight hf_wts layer attr key layout km w = (w, Raise (KeyError key)).
Proof.
  unfold variable_of, assign_weight, get_layer, get_variable, dict_item, bind, lift.
  intros Hv Hk. destruct (layers km !! layer) as [l|]; [|done]. cbn.
  by rewrite Hv, Hk.
Qed.

Lemma entry_fits_layers (hf_wts : list (string * tensor elt)) km km0 (e : entry elt) :
  layers km0 = layers km → entry_fits hf_wts km0 e → entry_fits hf_wts km e.
Proof.
  intros Hl (v & Hv & Hs). exists v. split; [done|].
  unfold variable_of in *. by rewrite <- Hl.
Qed.

Lemma length_loop_entries (cfg : list (string * pyval)) (idx : list Z) :
  length (concat (layer_entries (elt:=elt) cfg <$> idx)) = (16 * length idx)%nat.
Proof.
  induction idx as [|i idx IH]; [done|].
  rewrite fmap_cons, concat_cons, length_app, IH. simpl. lia.
Qed.

Lemma length_all_entries (cfg : list (string * pyval)) (n : Z) :
  length (all_entries (elt:=elt) cfg n) = (4 + 16 * Z.to_nat n)%nat.
Proof.
  unfold all_entries. rewrite length_app, length_loop_entries, length_seqZ. done.
Qed.

(** The rows of the layers before [n] assign nothing in layer [n]. *)
Lemma layer_not_yet_assigned (cfg : list (string * pyval)) (n : Z) (attr : string) :
  (layer_name n, attr) ∉ target <$> all_entries (elt:=elt) cfg n.
Proof.
  unfold all_entries. rewrite fmap_app, elem_of_app. intros [H|H].
  - unfold embedding_entries in H. simpl in H.
    rewrite !elem_of_cons, elem_of_nil in H. unfold layer_name in H.
    repeat destruct H as [[=]|H]; done.
  - apply loop_targets_layer in H as (j & Hj & Hx). cbn in Hx.
    apply layer_name_inj in Hx. subst j. apply elem_of_seqZ in Hj. lia.
Qed.
End MissingKey.

(** X10.  A KerasHub model with more layers than the checkpoint: when
    the state dictionary holds the tensors of a DistilBERT of [n] layers,
    the model has the variables of such a backbone, more than [n] layers
    and the query kernel of layer [n], and the state dictionary has no
    query weight for layer [n], the assignments stop with the [KeyError]
    of [transformer.layer.<n>.attention.q_lin.weight], after the
    [4 + 16 * n] assignments of the embeddings and of the layers before
    [n]. *)
Theorem backbone_with_more_layers_than_the_checkpoint {elt : Type} (d : dims)
    (cfg : list (string * pyval)) (hf_wts : list (string * tensor elt))
    (km : keras_model elt) (w : world elt) (var : tensor elt) :
  dims_wf d → cfg_of d cfg → state_dict_shaped d hf_wts →
  (∀ layer attr s, (layer, attr, s) ∈ backbone_shapes d →
     ∃ v, variable_of km layer attr = Some v ∧ shape v = s) →
  0 <= d_n_layers d < num_layers km →
  variable_of km (layer_name (d_n_layers d))
    "_self_attention_layer._query_dense.kernel" = Some var →
  dict_get hf_wts (hf_key (d_n_layers d) ".attention.q_lin.weight") = None →
  ∃ evs,
    copy_weights cfg hf_wts km w
    = (after w evs,
       Raise (KeyError ("transformer.layer." +:+ pretty (d_n_layers d)
                          +:+ ".attention.q_lin.weight"))) ∧
    length evs = (4 + 16 * Z.to_nat (d_n_layers d))%nat ∧
    quiet evs.
Proof.
  intros Hwf Hcfg Hsd Hvars [Hn0 Hn] Hvar Hkey.
  set (n := d_n_layers d) in *.
  set (km0 := KerasModel n (layers km)).
  assert (backbone_shaped d km0) as Hbb by (split; [done|exact Hvars]).
  pose proof (all_entries_fit d cfg hf_wts km0 Hwf Hcfg Hsd Hbb) as Hfit0.
  assert (Forall (entry_fits hf_wts km) (all_entries cfg n)) as Hfit.
  { eapply Forall_impl; [exact Hfit0|]. intros e. by apply entry_fits_layers. }
  assert (seqZ 0 (num_layers km) = seqZ 0 n ++ n :: seqZ (n + 1) (num_layers km - n - 1))
    as Hseq.
  { replace (num_layers km) with (n + (num_layers km - n)) at 1 by lia.
    rewrite seqZ_app by lia. f_equal. rewrite Z.add_0_l.
    rewrite seqZ_cons by lia. done. }
  pose proof (run_entries_fit hf_wts _ km w Hfit) as Hrun.
  exists (omap (assign_event hf_wts) (all_entries cfg n)). split; [|split].
  - eapply (copy_weights_row_fails cfg hf_wts km w (all_entries cfg n)
              (Entry (layer_name n) "_self_attention_layer._query_dense.kernel"
                 (hf_key n ".attention.q_lin.weight") (qkv_kernel cfg))).
    + unfold all_entries. rewrite Hseq, fmap_app, concat_app, app_assoc.
      rewrite fmap_cons, concat_cons. reflexivity.
    + exact Hrun.
    + cbn [e_layer e_attr e_key e_layout].
      apply (assign_weight_missing_key hf_wts _ _ _ _ _ _ var); [|exact Hkey].
      rewrite <- Hvar. apply apply_entries_other. apply layer_not_yet_assigned.
  - rewrite (fitting_rows_all_assign hf_wts km _ Hfit). apply length_all_entries.
  - apply assign_events_quiet.
Qed.

Lemma backbone_with_more_layers_than_the_checkpoint_witness :
  ∃ evs,
    copy_weights demo_cfg demo_wts deeper_km empty_world
    = (after empty_world evs,
       Raise (KeyError "transformer.layer.2.attention.q_lin.weight")) ∧
    length evs = 36%nat.
Proof.
  destruct (backbone_with_more_layers_than_the_checkpoint demo_dims demo_cfg
              demo_wts deeper_km empty_world (Tensor [4; 2; 2]%nat (replicate 16 0))
              demo_dims_wf demo_cfg_of demo_state_dict_shaped deeper_km_variables)
    as (evs & Hrun & Hlen & _).
  - unfold demo_dims, deeper_km. cbn [d_n_layers num_layers]. lia.
  - by vm_compute.
  - by vm_compute.
  - exists evs. split; [exact Hrun|exact Hlen].
Defined.

(* ===================================================================== *)
(** ** How many assignments *)
(* ===================================================================== *)

Section CountFacts.
Context {elt : Type}.
Variable hf_wts : list (string * tensor elt).

Lemma assign_events_all (es : list (entry elt)) :
  Forall (fun e => is_Some (entry_value hf_wts e)) es →
  length (omap (assign_event hf_wts) es) = length es ∧
  Forall (fun ev => ∃ e v, e ∈ es ∧ entry_value hf_wts e = Some v ∧
                           ev = EvAssign (e_layer e) (e_attr e) v)
    (omap (assign_event hf_wts) es).
Proof.
  induction 1 as [|e es [v Hv] _ [IH1 IH2]]; [by split|].
  rewrite (omap_assign_cons _ _ _ _ Hv). split; [simpl; by rewrite IH1|].
  constructor.
  - exists e, v. split; [left|done].
  - eapply Forall_impl; [exact IH2|]. intros ev (e' & v' & Hin & Hv' & ->).
    exists e', v'. split; [by right|done].
Qed.
End CountFacts.

(** X11.  A weight remapping that returns has made
    [4 + 16 * num_layers] assignments and nothing else: four for the
    embeddings, sixteen for each layer.  For a model without layers (a
    number of layers that is zero or negative, for which [range] is
    empty), these are the four assignments of the embeddings, each of the
    source tensor as it is. *)
Theorem four_assignments_and_sixteen_for_each_layer {elt : Type}
    (cfg : list (string * pyval)) (hf_wts : list (string * tensor elt))
    (km : keras_model elt) (w w' : world elt) (km' : keras_model elt) :
  copy_weights cfg hf_wts km w = (w', Ok km') →
  ∃ evs,
    w' = after w evs ∧
    length evs = (4 + 16 * Z.to_nat (num_layers km))%nat ∧
    Forall (fun ev => ∃ layer attr v, ev = EvAssign layer attr v) evs ∧
    (num_layers km <= 0 →
       ∃ t1 t2 t3 t4,
         dict_get hf_wts "embeddings.word_embeddings.weight" = Some t1 ∧
         dict_get hf_wts "embeddings.position_embeddings.weight" = Some t2 ∧
         dict_get hf_wts "embeddings.LayerNorm.weight" = Some t3 ∧
         dict_get hf_wts "embeddings.LayerNorm.bias" = Some t4 ∧
         evs = [ EvAssign "token_and_position_embedding" "token_embedding.embeddings" t1;
                 EvAssign "token_and_position_embedding"
                   "position_embedding.position_embeddings" t2;
                 EvAssign "embeddings_layer_norm" "gamma" t3;
                 EvAssign "embeddings_layer_norm" "beta" t4 ]).
Proof.
  rewrite copy_weights_entries. intros H.
  apply run_entries_inv_Ok in H as (Hall & -> & _).
  destruct (assign_events_all hf_wts _ Hall) as [Hlen Hev].
  eexists. split; [done|]. split; [|split].
  - rewrite Hlen. apply length_all_entries.
  - eapply Forall_impl; [exact Hev|]. intros ev (e & v & _ & _ & ->). by eexists _, _, _.
  - intros Hn. revert Hall. unfold all_entries. rewrite seqZ_nil by lia.
    cbn [fmap list_fmap concat]. rewrite app_nil_r. unfold embedding_entries.
    intros Hall.
    repeat match goal with
           | H : Forall _ (_ :: _) |- _ =>
               let Hv := fresh "Hv" in
               apply Forall_cons in H as [[? Hv] H];
               pose proof (entry_value_Some _ _ _ Hv) as (? & ? & [= <-])
           end.
    eexists _, _, _, _. repeat (split; [eassumption|]).
    repeat (erewrite omap_assign_cons by eassumption). reflexivity.
Qed.

Lemma four_assignments_and_sixteen_for_each_layer_witness :
  ∃ evs km',
    copy_weights demo_cfg demo_wts demo_km empty_world = (after empty_world evs, Ok km') ∧
    length evs = 36%nat.
Proof.
  pose proof demo_copy_run as Hrun.
  destruct (four_assignments_and_sixteen_for_each_layer demo_cfg demo_wts demo_km
              empty_world _ _ Hrun) as (evs & Hw & Hlen & _).
  exists evs. eexists. split; [|exact Hlen].
  rewrite <- Hw. exact Hrun.
Defined.

(* ===================================================================== *)
(** ** The configuration *)
(* ===================================================================== *)







(* ===================================================================== *)
(** ** The listing of the keys *)
(* ===================================================================== *)

Section ReplaceFacts.
Implicit Types (s t old new : string) (c : ascii).

Lemma app_cons c s t : String c s +:+ t = String c (s +:+ t).
Proof. reflexivity. Qed.

Lemma string_app_assoc s t u : (s +:+ t) +:+ u = s +:+ (t +:+ u).
Proof. induction s as [|c s IH]; [done|]. by rewrite !app_cons, IH. Qed.

Lemma string_app_nil_r s : s +:+ "" = s.
Proof. induction s as [|c s IH]; [done|]. by rewrite app_cons, IH. Qed.

Lemma chars_app s t : String.list_ascii_of_string (s +:+ t) = String.list_ascii_of_string s ++ String.list_ascii_of_string t.
Proof.
  induction s as [|c s IH]; [done|].
  rewrite app_cons. cbn [String.list_ascii_of_string]. by rewrite IH.
Qed.

Lemma prefix_nil s : String.prefix "" s = true.
Proof. by destruct s. Qed.

Lemma prefix_app old s : String.prefix old (old +:+ s) = true.
Proof.
  induction old as [|c old IH]; [apply prefix_nil|].
  rewrite app_cons. cbn [String.prefix]. by destruct (ascii_dec c c).
Qed.

Lemma prefix_cons_ne c0 old c s :
  c0 ≠ c → String.prefix (String c0 old) (String c s) = false.
Proof. intros Hne. cbn [String.prefix]. by destruct (ascii_dec c0 c). Qed.

(** A string that begins with [old] has the characters of [old]. *)
Lemma prefix_chars old s c :
  String.prefix old s = true → c ∈ String.list_ascii_of_string old → c ∈ String.list_ascii_of_string s.
Proof.
  revert s. induction old as [|c0 old IH]; intros s Hp Hin.
  - by apply elem_of_nil in Hin.
  - destruct s as [|c1 s]; [done|]. cbn [String.prefix] in Hp.
    destruct (ascii_dec c0 c1) as [->|]; [|done].
    cbn [String.list_ascii_of_string] in *.
    apply elem_of_cons in Hin as [->|Hin]; [left|right; by apply IH].
Qed.

Lemma skip_occurrence old new t s :
  str_replace_from old new (String.length t) (t +:+ s) = str_replace_from old new O s.
Proof.
  induction t as [|c t IH]; [done|].
  rewrite app_cons. cbn [String.length str_replace_from]. apply IH.
Qed.

(** An occurrence at the start is replaced, and the rest goes on after
    it. *)
Lemma replace_at_start c0 old new s :
  str_replace (String c0 old) new (String c0 old +:+ s)
  = new +:+ str_replace (String c0 old) new s.
Proof.
  unfold str_replace. rewrite app_cons at 1.
  cbn [str_replace_from]. rewrite <- app_cons, prefix_app. f_equal.
  cbn [String.length]. rewrite Nat.sub_succ, Nat.sub_0_r. apply skip_occurrence.
Qed.

(** No occurrence starts in a part without the first character of
    [old]. *)
Lemma replace_after c0 old new s t :
  c0 ∉ String.list_ascii_of_string s →
  str_replace (String c0 old) new (s +:+ t) = s +:+ str_replace (String c0 old) new t.
Proof.
  unfold str_replace. induction s as [|c s IH]; intros Hn; [done|].
  cbn [String.list_ascii_of_string] in Hn. apply not_elem_of_cons in Hn as [Hne Hn].
  rewrite !app_cons.
  cbn [str_replace_from]. rewrite prefix_cons_ne by done.
  f_equal. by apply IH.
Qed.

(** A string without one of the characters of [old] has no occurrence. *)
Lemma replace_absent old new s c :
  c ∈ String.list_ascii_of_string old → c ∉ String.list_ascii_of_string s → str_replace old new s = s.
Proof.
  intros Hin. unfold str_replace. induction s as [|c1 s IH]; intros Hn; [done|].
  cbn [str_replace_from].
  destruct (String.prefix old (String c1 s)) eqn:Hp.
  - destruct Hn. by apply (prefix_chars old).
  - f_equal. apply IH. cbn [String.list_ascii_of_string] in Hn.
    by apply not_elem_of_cons in Hn as [_ Hn].
Qed.

Lemma chars_join sep (l : list string) c :
  c ∉ String.list_ascii_of_string sep → Forall (fun q => c ∉ String.list_ascii_of_string q) l → c ∉ String.list_ascii_of_string (str_join sep l).
Proof.
  intros Hsep. induction 1 as [|q l Hq Hl IH]; [by apply not_elem_of_nil|].
  destruct l as [|q' l]; [done|].
  change (str_join sep (q :: q' :: l)) with (q +:+ sep +:+ str_join sep (q' :: l)).
  rewrite !chars_app, !not_elem_of_app. auto.
Qed.

(** The separators of a joined list are the only occurrences of [", "]
    when the parts have no comma. *)
Lemma replace_separators (l : list string) t :
  Forall (fun q => ","%char ∉ String.list_ascii_of_string q) l →
  str_replace ", " nl (str_join ", " l +:+ t)
  = str_join nl l +:+ str_replace ", " nl t.
Proof.
  induction 1 as [|q l Hq Hl IH]; [done|].
  destruct l as [|q' l].
  - cbn [str_join]. by apply replace_after.
  - change (str_join ", " (q :: q' :: l))
      with (q +:+ ", " +:+ str_join ", " (q' :: l)).
    change (str_join nl (q :: q' :: l))
      with (q +:+ nl +:+ str_join nl (q' :: l)).
    rewrite !string_app_assoc. rewrite replace_after by done. f_equal.
    rewrite (replace_at_start ","%char " " nl). f_equal. apply IH.
Qed.
End ReplaceFacts.

Section ListingFacts.
Context {elt : Type}.

Lemma dotted_name_char_plain c :
  dotted_name_char c = true →
  c ≠ ","%char ∧ c ≠ "["%char ∧ c ≠ "]"%char ∧ c ≠ ")"%char.
Proof. intros H. repeat split; intros ->; discriminate H. Qed.

Lemma repr_chars (k : string) (c : ascii) :
  dotted_name k → c ∈ [","; "["; "]"; ")"]%char →
  c ∉ String.list_ascii_of_string (py_repr_str k).
Proof.
  intros Hk Hc. unfold py_repr_str. rewrite !chars_app, !not_elem_of_app.
  assert (c ∉ String.list_ascii_of_string "'") as Hq.
  { rewrite !elem_of_cons, elem_of_nil in Hc. cbn. rewrite not_elem_of_cons.
    split; [|apply not_elem_of_nil].
    by destruct Hc as [->|[->|[->|[->|[]]]]]. }
  split; [done|]. split; [|done].
  intros Hin. unfold dotted_name in Hk. rewrite Forall_forall in Hk.
  destruct (dotted_name_char_plain c (Hk c Hin)) as (H1 & H2 & H3 & H4).
  rewrite !elem_of_cons, elem_of_nil in Hc.
  by destruct Hc as [->|[->|[->|[->|[]]]]].
Qed.
End ListingFacts.

(** X14.  For a state dictionary whose keys are dotted names (letters,
    digits, underscores and dots), the four replacements applied to
    [str(hf_wts.keys())] leave the keys in quotes, one per line, in the
    order of the dictionary. *)
Theorem keys_are_listed_one_per_line {elt : Type}
    (hf_wts : list (string * tensor elt)) :
  Forall dotted_name (dict_keys hf_wts) →
  keys_listing hf_wts = str_join nl (py_repr_str <$> dict_keys hf_wts).
Proof.
  intros Hkeys. unfold keys_listing.
  set (qs := py_repr_str <$> dict_keys hf_wts).
  assert (∀ c, c ∈ [","; "["; "]"; ")"]%char →
            Forall (fun q => c ∉ String.list_ascii_of_string q) qs) as Hqs.
  { intros c Hc. unfold qs. apply Forall_fmap. eapply Forall_impl; [exact Hkeys|].
    intros k Hk. by apply repr_chars. }
  assert (∀ c, c ∈ [","; "["; "]"; ")"]%char →
            c ∉ String.list_ascii_of_string (str_join nl qs)) as Hjoin.
  { intros c Hc. apply chars_join; [|by apply Hqs].
    rewrite !elem_of_cons, elem_of_nil in Hc. cbn. rewrite not_elem_of_cons.
    split; [|apply not_elem_of_nil]. by destruct Hc as [->|[->|[->|[->|[]]]]]. }
  (* the separators *)
  rewrite (replace_after ","%char " " nl "odict_keys([")
    by (apply (bool_decide_unpack _); by vm_compute).
  rewrite (replace_separators qs "])") by (apply Hqs; set_solver).
  change (str_replace ", " nl "])") with "])".
  (* the opening *)
  rewrite (replace_at_start "o"%char "dict_keys([" "").
  change ("" +:+ ?s) with s.
  rewrite (replace_absent "odict_keys([" "" _ "["%char).
  2: { apply (bool_decide_unpack _). by vm_compute. }
  2: { rewrite chars_app, not_elem_of_app. split; [apply Hjoin; set_solver|].
       apply (bool_decide_unpack _). by vm_compute. }
  (* the closing bracket *)
  rewrite (replace_after "]"%char "" "") by (apply Hjoin; set_solver).
  change (str_replace "]" "" "])") with ")".
  (* the closing parenthesis *)
  rewrite (replace_after ")"%char "" "") by (apply Hjoin; set_solver).
  change (str_replace ")" "" ")") with "".
  apply string_app_nil_r.
Qed.

Lemma keys_are_listed_one_per_line_witness :
  keys_listing demo_wts = str_join nl (py_repr_str <$> dict_keys demo_wts).
Proof.
  apply keys_are_listed_one_per_line.
  unfold dotted_name. apply (bool_decide_unpack _). by vm_compute.
Defined.

(* ===================================================================== *)
(** ** More on the download *)
(* ===================================================================== *)

Section DownloadFacts.
Context {elt : Type}.
Variable env : Env elt.
Variable preset : string.
Implicit Types (w : world elt).

(** A path that exists still exists when directories and files are
    added. *)
Lemma path_exists_mono w1 w2 p :
  dirs w1 ⊆ dirs w2 →
  (∀ q, is_Some (files w1 !! q) → is_Some (files w2 !! q)) →
  path_exists w1 p = true → path_exists w2 p = true.
Proof.
  intros Hd Hf. unfold path_exists. rewrite !orb_true_iff.
  intros [[H|H]|H]; [by left; left|left; right|right].
  - apply bool_decide_eq_true in H. apply bool_decide_eq_true. set_solver.
  - apply bool_decide_eq_true in H. apply bool_decide_eq_true. by apply Hf.
Qed.

Lemma is_Some_insert2 (m : gmap string bytes) k1 k2 c1 c2 q :
  is_Some (m !! q) → is_Some (<[k2 := c2]> (<[k1 := c1]> m) !! q).
Proof.
  intros H. rewrite !lookup_insert_is_Some.
  destruct (decide (k2 = q)); [by left|right]. split; [done|].
  destruct (decide (k1 = q)); [by left|by right].
Qed.

(** After a download that returned, the directory of the preset is
    there. *)
Lemma download_files_dir_exists hf w w' u :
  download_files env preset hf w = (w', Ok u) →
  path_exists w' (EXTRACT_DIR_format preset) = true.
Proof.
  unfold download_files. intros H. run_all H.
  all: unfold after; cbn [files dirs trace].
  - eapply path_exists_mono; [| |eassumption].
    + done.
    + intros q. cbn [files after]. apply is_Some_insert2.
  - unfold path_exists. cbn [files dirs]. rewrite !orb_true_iff. left. right.
    apply bool_decide_eq_true. set_solver.
Qed.

(** A download in a directory that is there makes no directory, and comes
    to its first request. *)
Lemma download_files_dir_reused hf w w' r :
  path_exists w (EXTRACT_DIR_format preset) = true →
  download_files env preset hf w = (w', r) →
  ∃ evs, trace w' = trace w ++ evs ∧ made_dirs evs = [] ∧ dirs w' = dirs w ∧
         get_request (config_url hf) ∈ http_requests evs.
Proof.
  intros Hex. unfold download_files. intros H. run_all H.
  all: try match goal with
           | Hn : path_exists _ _ = false |- _ =>
               unfold path_exists, after in Hn, Hex; cbn [files dirs] in Hn;
               congruence
           end.
  all: eexists; split; [read_trace|].
  all: cbn [files dirs trace].
  all: split; [reflexivity|]. all: split; [reflexivity|].
  all: cbn [http_requests omap list_omap app]; unfold get_request; left.
Qed.
End DownloadFacts.

(** X15.  A download after a download that returned, for the same
    preset, finds the directory of the preset and reuses it:
    [os.makedirs] is not called, the directories stay as they are, and the
    run comes to its first request. *)
Theorem second_download_reuses_the_directory {elt : Type} (env : Env elt)
    (preset hf : string) (w w1 w2 : world elt) (r : result unit) :
  download_files env preset hf w = (w1, Ok tt) →
  download_files env preset hf w1 = (w2, r) →
  ∃ evs,
    trace w2 = trace w1 ++ evs ∧
    made_dirs evs = [] ∧ dirs w2 = dirs w1 ∧
    get_request (config_url hf) ∈ http_requests evs.
Proof.
  intros H1 H2. apply download_files_dir_exists in H1.
  by apply (download_files_dir_reused env preset hf w1 w2 r).
Qed.

Lemma second_download_reuses_the_directory_witness :
  ∃ evs,
    trace (download_files demo_env demo_preset "distilbert-base-uncased"
             downloaded_world).1
    = trace downloaded_world ++ evs ∧
    made_dirs evs = [].
Proof.
  destruct (second_download_reuses_the_directory demo_env demo_preset
              "distilbert-base-uncased" empty_world downloaded_world
              (download_files demo_env demo_preset "distilbert-base-uncased"
                 downloaded_world).1
              (download_files demo_env demo_preset "distilbert-base-uncased"
                 downloaded_world).2
              downloaded_world_run (surjective_pairing _))
    as (evs & Ht & Hm & _).
  exists evs. split; [exact Ht|exact Hm].
Defined.

(** X16.  After a download that returned, for a preset of the table,
    [config.json] and [vocab.txt] in the directory of the preset hold the
    bytes that the two requests answered, unchanged, and every other file
    is as it was. *)
Theorem downloaded_files_read_back {elt : Type} (env : Env elt)
    (preset hf : string) (w w' : world elt) :
  dict_get PRESET_MAP preset = Some hf →
  download_files env preset hf w = (w', Ok tt) →
  ∃ config vocab,
    requests_get env (get_request (config_url hf)) = Ok config ∧
    requests_get env (get_request (vocab_url hf)) = Ok vocab ∧
    read_file (config_path preset) w' = (w', Ok config) ∧
    read_file (vocab_path preset) w' = (w', Ok vocab) ∧
    ∀ path, path ∉ [normpath (config_path preset); normpath (vocab_path preset)] →
            files w' !! path = files w !! path.
Proof.
  intros Hp H.
  apply download_files_run in H as (evs & _ & _ & _ & _ & _ & Hok).
  destruct (Hok tt eq_refl) as (_ & _ & c & v & Hc & Hv & Hf).
  exists c, v. split; [done|]. split; [done|].
  destruct (preset_paths _ _ Hp) as (_ & _ & _ & Hncp & Hnvp & _).
  assert (normpath (config_path preset) ≠ normpath (vocab_path preset)) as Hne.
  { rewrite Hncp, Hnvp.
    apply preset_cases in Hp as [[-> _]|[[-> _]|[-> _]]]; done. }
  unfold read_file. rewrite Hf. split; [|split].
  - rewrite lookup_insert_ne by done. by rewrite lookup_insert_eq.
  - by rewrite lookup_insert_eq.
  - intros path Hn. rewrite !not_elem_of_cons in Hn. destruct Hn as (H1 & H2 & _).
    by rewrite !lookup_insert_ne.
Qed.

Lemma downloaded_files_read_back_witness :
  read_file (config_path demo_preset) downloaded_world
  = (downloaded_world, Ok [Byte.x7b; Byte.x7d]).
Proof.
  destruct (downloaded_files_read_back demo_env demo_preset "distilbert-base-uncased"
              empty_world downloaded_world eq_refl downloaded_world_run)
    as (c & v & Hc & _ & Hr & _).
  rewrite Hr. by injection Hc as <-.
Defined.

(** X17.  When the request for [config.json] is answered and the
    request for [vocab.txt] fails, [download_files] does not return; and
    once the second request was sent, it ends with the exception of that
    request, having written [config.json] and nothing else: the file
    stays, nothing is undone. *)
Theorem failed_second_request_leaves_the_first_file {elt : Type} (env : Env elt)
    (preset hf : string) (w w' : world elt) (r : result unit)
    (config : bytes) (e : exn) :
  requests_get env (get_request (config_url hf)) = Ok config →
  requests_get env (get_request (vocab_url hf)) = Raise e →
  download_files env preset hf w = (w', r) →
  (∀ u, r ≠ Ok u) ∧
  ∃ evs, trace w' = trace w ++ evs ∧
    (get_request (vocab_url hf) ∈ http_requests evs →
       r = Raise e ∧
       written_paths evs = [config_path preset] ∧
       files w' = <[normpath (config_path preset) := config]> (files w)).
Proof.
  intros Hc Hv. unfold download_files. intros H. run_all H.
  all: try congruence.
  all: split; [done|].
  all: eexists; split; [read_trace|].
  all: cbn [http_requests written_paths omap list_omap app files after].
  all: rewrite ?elem_of_cons, ?elem_of_nil; unfold get_request.
  all: intros Hin.
  all: repeat match goal with H : _ ∨ _ |- _ => destruct H end; try done.
  all: simplify_eq; try done.
  all: repeat split; unfold config_path; congruence.
Qed.

Lemma failed_second_request_leaves_the_first_file_witness :
  let run := download_files half_offline_env demo_preset "distilbert-base-uncased"
               empty_world in
  (∀ u, run.2 ≠ Ok u) ∧
  ∃ evs, trace run.1 = trace empty_world ++ evs ∧
    (get_request (vocab_url "distilbert-base-uncased") ∈ http_requests evs →
       run.2 = Raise (ConnectionError
                        "https://huggingface.co/distilbert-base-uncased/raw/main/vocab.txt") ∧
       written_paths evs = [config_path demo_preset] ∧
       files run.1 = <[normpath (config_path demo_preset) := [Byte.x7b; Byte.x7d]]>
                       (files empty_world)).
Proof.
  intros run.
  exact (failed_second_request_leaves_the_first_file half_offline_env demo_preset
           "distilbert-base-uncased" empty_world run.1 run.2 [Byte.x7b; Byte.x7d]
           (ConnectionError
              "https://huggingface.co/distilbert-base-uncased/raw/main/vocab.txt")
           eq_refl eq_refl (surjective_pairing _)).
Defined.

(* ===================================================================== *)
(** ** More on the conversion and the check *)
(* ===================================================================== *)

Section ConvertFacts.
Context {elt : Type}.
Variable env : Env elt.
Variable preset : string.
Implicit Types (w : world elt).

(** What [convert_checkpoints] does when it returns. *)
Lemma convert_checkpoints_inv_Ok km hfm w w' km' :
  convert_checkpoints env preset km hfm w = (w', Ok km') →
  ∃ content pt_cfg cfg w1 saved,
    files w !! normpath (config_path preset) = Some content ∧
    json_loads env content = Ok pt_cfg ∧
    build_cfg pt_cfg = Ok cfg ∧
    copy_weights cfg (state_dict hfm) km (after w (convert_prologue cfg hfm))
    = (w1, Ok km') ∧
    save_weights_bytes env km' (weights_path preset) = Ok saved ∧
    w' = World (<[normpath (weights_path preset) := saved]> (files w)) (dirs w)
           (trace w1 ++
            [ EvPrint [PStr (nl +:+ "-> Save KerasHub model weights to `" +:+ preset
                               +:+ ".h5`.")];
              EvWrite (weights_path preset) saved ]).
Proof.
  unfold convert_checkpoints. intros H. cbv zeta in H.
  do 8 run_step H.
  match type of H with
  | bind ?m _ ?w0 = _ => destruct (m w0) as [w1 [km1|err]] eqn:Hcopy
  end.
  2: { rewrite (bind_Raise _ _ _ _ _ Hcopy) in H. discriminate H. }
  rewrite (bind_Ok _ _ _ _ _ Hcopy) in H.
  assert (files w1 = files w ∧ dirs w1 = dirs w) as [Hf Hd].
  { pose proof (copy_weights_run _ _ _ _ _ _ Hcopy) as (evs & Hw1 & _).
    by rewrite Hw1. }
  run_all H.
  eexists _, _, _, _, _. repeat split; try eassumption.
  - rewrite !after_after in Hcopy. exact Hcopy.
  - unfold after. cbn [files dirs trace]. rewrite Hf, Hd.
    by rewrite <- !app_assoc.
Qed.
End ConvertFacts.

(** X19.  [convert_checkpoints] makes no directory, and leaves the
    files as they were when it raises.  When it returns, the configuration
    was read from [config.json] and built, the assignments were run with
    it on the state dictionary of the Hugging Face model, the model
    returned is the model after the assignments, and the bytes that
    [save_weights] gave for that model are in [<preset>.h5], written as
    the last thing. *)
Theorem weights_file_is_written_last {elt : Type} (env : Env elt)
    (preset : string) (km : keras_model elt) (hfm : hf_model elt)
    (w w' : world elt) (r : result (keras_model elt)) :
  convert_checkpoints env preset km hfm w = (w', r) →
  dirs w' = dirs w ∧
  (∀ e, r = Raise e → files w' = files w) ∧
  (∀ km', r = Ok km' →
     ∃ content pt_cfg cfg w1 saved,
       files w !! normpath (config_path preset) = Some content ∧
       json_loads env content = Ok pt_cfg ∧
       build_cfg pt_cfg = Ok cfg ∧
       copy_weights cfg (state_dict hfm) km (after w (convert_prologue cfg hfm))
       = (w1, Ok km') ∧
       save_weights_bytes env km' (preset +:+ ".h5") = Ok saved ∧
       files w' = <[normpath (preset +:+ ".h5") := saved]> (files w) ∧
       last (trace w') = Some (EvWrite (preset +:+ ".h5") saved)).
Proof.
  intros H. pose proof H as H'.
  apply convert_checkpoints_run in H' as (evs & _ & _ & _ & _ & Hd & _ & Herr & _).
  split; [done|]. split.
  - intros e ->. by destruct (Herr e eq_refl).
  - intros km' ->.
    apply convert_checkpoints_inv_Ok in H
      as (content & pt_cfg & cfg & w1 & saved & Hf & Hj & Hb & Hc & Hs & ->).
    exists content, pt_cfg, cfg, w1, saved. repeat split; try done.
    cbn [trace]. by rewrite last_app.
Qed.

Lemma weights_file_is_written_last_witness :
  dirs (convert_checkpoints demo_env demo_preset demo_km (HFModel demo_wts false)
          downloaded_world).1
  = dirs downloaded_world.
Proof.
  exact (proj1 (weights_file_is_written_last demo_env demo_preset demo_km
                  (HFModel demo_wts false) downloaded_world _ _
                  (surjective_pairing _))).
Defined.

(** X18.  After a download that returned, when the three library calls
    return, [define_preprocessor] returns: the KerasHub tokenizer is built
    from the vocabulary file that the download wrote, the Hugging Face
    tokenizer from the name of the upstream model, and the checksum
    printed is that of the bytes that the request for [vocab.txt]
    answered. *)
Theorem tokenizer_is_built_from_the_downloaded_vocabulary {elt : Type}
    (env : Env elt) (preset hf : string) (w w1 : world elt) (vocab : bytes)
    (tok : KerasTokenizer env) (pp : KerasPreprocessor env) (ht : HFTokenizer env) :
  download_files env preset hf w = (w1, Ok tt) →
  requests_get env (get_request (vocab_url hf)) = Ok vocab →
  distilbert_tokenizer env vocab = Ok tok →
  distilbert_preprocessor env tok = Ok pp →
  auto_tokenizer_from_pretrained env hf = Ok ht →
  define_preprocessor env preset hf w1
  = (after w1
       [ EvCall "define_preprocessor";
         EvPrint [PStr (nl +:+ "-> Define the tokenizers.")];
         EvLibrary "keras_hub.models.DistilBertTokenizer" [vocab_path preset];
         EvLibrary "keras_hub.models.DistilBertTextClassifierPreprocessor" [];
         EvLibrary "transformers.AutoTokenizer.from_pretrained" [hf];
         EvPrint [PStr (nl +:+ "-> Print MD5 checksum of the vocab files.")];
         EvPrint [PStr ("`" +:+ vocab_path preset +:+ "` md5sum: ");
                  PStr (md5_hexdigest env vocab)] ],
     Ok (pp, ht)).
Proof.
  intros Hd Hvocab Htok Hpp Hht.
  apply download_files_run in Hd as (evs & _ & _ & _ & _ & _ & Hok).
  destruct (Hok tt eq_refl) as (_ & _ & c & v & Hc & Hv & Hf).
  assert (v = vocab) as -> by congruence.
  assert (files w1 !! normpath (vocab_path preset) = Some vocab) as Hlook
    by (rewrite Hf; apply lookup_insert_eq).
  unfold vocab_path in *.
  unfold define_preprocessor, get_md5_checksum, read_file, print.
  unfold bind, lift, emit, ret. cbn [trace files dirs].
  rewrite Hlook, Htok. cbn [trace files dirs].
  rewrite Hpp. cbn [trace files dirs]. rewrite Hht. cbn [trace files dirs].
  rewrite Hlook.
  unfold after. cbn [trace files dirs]. rewrite <- !app_assoc. reflexivity.
Qed.

Lemma tokenizer_is_built_from_the_downloaded_vocabulary_witness :
  define_preprocessor demo_env demo_preset "distilbert-base-uncased" downloaded_world
  = (after downloaded_world
       [ EvCall "define_preprocessor";
         EvPrint [PStr (nl +:+ "-> Define the tokenizers.")];
         EvLibrary "keras_hub.models.DistilBertTokenizer" [vocab_path demo_preset];
         EvLibrary "keras_hub.models.DistilBertTextClassifierPreprocessor" [];
         EvLibrary "transformers.AutoTokenizer.from_pretrained"
           ["distilbert-base-uncased"];
         EvPrint [PStr (nl +:+ "-> Print MD5 checksum of the vocab files.")];
         EvPrint [PStr ("`" +:+ vocab_path demo_preset +:+ "` md5sum: ");
                  PStr "99914b932bd37a50b983c5e7c90ae93b"] ],
     Ok ([Byte.x7b; Byte.x7d], "distilbert-base-uncased")).
Proof.
  exact (tokenizer_is_built_from_the_downloaded_vocabulary demo_env demo_preset
           "distilbert-base-uncased" empty_world downloaded_world
           [Byte.x7b; Byte.x7d] [Byte.x7b; Byte.x7d] [Byte.x7b; Byte.x7d]
           "distilbert-base-uncased"
           downloaded_world_run eq_refl eq_refl eq_refl eq_refl).
Defined.

(* ===================================================================== *)
(** ** What a run leaves alone *)
(* ===================================================================== *)

Section FrameFacts.
Context {elt : Type}.
Variable env : Env elt.
Variable preset : string.
Implicit Types (w : world elt).

(** Whatever its outcome, [convert_checkpoints] changes no file but the
    weights file. *)
Lemma convert_checkpoints_frame km hfm w w' r path :
  convert_checkpoints env preset km hfm w = (w', r) →
  path ≠ normpath (weights_path preset) →
  files w' !! path = files w !! path.
Proof.
  intros H Hne.
  apply convert_checkpoints_run in H as (evs & _ & _ & _ & _ & _ & _ & Herr & Hok).
  destruct r as [km'|e].
  - destruct (Hok km' eq_refl) as (_ & saved & _ & ->). by rewrite lookup_insert_ne.
  - by destruct (Herr e eq_refl) as [-> _].
Qed.

End FrameFacts.

(** X22.  In a run of [main] for a preset of the table that has come to
    [define_preprocessor], however it ends, [config.json] and [vocab.txt]
    are in the directory of the preset with the bytes that the requests
    answered: a later failure removes nothing. *)
Theorem downloaded_files_stay_when_a_later_step_fails {elt : Type}
    (env : Env elt) (preset hf : string) (w w' : world elt) (r : result unit) :
  dict_get PRESET_MAP preset = Some hf →
  main env preset w = (w', r) →
  ∃ evs,
    trace w' = trace w ++ evs ∧
    ("define_preprocessor" ∈ calls evs →
       ∃ config vocab,
         requests_get env (get_request (config_url hf)) = Ok config ∧
         requests_get env (get_request (vocab_url hf)) = Ok vocab ∧
         files w' !! (preset +:+ "/config.json") = Some config ∧
         files w' !! (preset +:+ "/vocab.txt") = Some vocab).
Proof.
  intros Hp0 H.
  destruct (preset_paths _ _ Hp0) as (_ & _ & _ & Hncp & Hnvp & Hnwp).
  assert (preset +:+ "/config.json" ≠ preset +:+ "/vocab.txt" ∧
          preset +:+ "/config.json" ≠ preset +:+ ".h5" ∧
          preset +:+ "/vocab.txt" ≠ preset +:+ ".h5") as (Hcv & Hcw & Hvw).
  { apply preset_cases in Hp0 as [[-> _]|[[-> _]|[-> _]]]; done. }
  assert (∀ w1, download_files env preset hf w = (w1, Ok tt) →
            ∃ config vocab,
              requests_get env (get_request (config_url hf)) = Ok config ∧
              requests_get env (get_request (vocab_url hf)) = Ok vocab ∧
              files w1 !! (preset +:+ "/config.json") = Some config ∧
              files w1 !! (preset +:+ "/vocab.txt") = Some vocab) as Hdl.
  { intros w1 Hd.
    apply download_files_run in Hd as (evs & _ & _ & _ & _ & _ & Hok).
    destruct (Hok tt eq_refl) as (_ & _ & c & v & Hc & Hv & Hf).
    exists c, v. rewrite Hf, Hncp, Hnvp.
    rewrite lookup_insert_ne, !lookup_insert_eq by done. done. }
  destruct (call_event_obs (elt:=elt) "download_files") as (? & _).
  destruct (call_event_obs (elt:=elt) "define_preprocessor") as (? & _).
  destruct (call_event_obs (elt:=elt) "convert_checkpoints") as (? & _).
  destruct (call_event_obs (elt:=elt) "check_output") as (? & _).
  destruct (load_keras_events_quiet (elt:=elt) preset) as (? & _).
  pose proof H as Hmain.
  apply main_run in Hmain as (evs & Ht & _).
  exists evs. split; [done|]. intros Hin.
  main_cases H; simplify_eq.
  all: try (destruct (Hdl _ Hd) as (c & v & Hgc & Hgv & Hfc & Hfv); exists c, v;
            split; [done|]; split; [done|]).
  all: try (apply define_preprocessor_run in Hpp as (? & -> & _)).
  all: try (apply check_output_run in Hch as (? & -> & _)).
  all: cbn [files after].
  all: try (rewrite !(convert_checkpoints_frame _ _ _ _ _ _ _ _ Hc)
              by (by rewrite Hnwp)).
  all: cbn [files after]; try done.
  - (* the download failed: [define_preprocessor] was not entered *)
    exfalso. apply download_files_run in Hd as (evs1 & Ht1 & Hc1 & _).
    rewrite Ht1 in Ht. apply app_inv_head in Ht. subst evs.
    change (EvCall "download_files" :: evs1)
      with ([EvCall (elt:=elt) "download_files"] ++ evs1) in Hin.
    rewrite calls_app, Hc1 in Hin. cbn in Hin.
    rewrite !elem_of_cons, elem_of_nil in Hin. by destruct Hin as [|[]].
Qed.

Lemma downloaded_files_stay_when_a_later_step_fails_witness :
  (main garbled_env demo_preset empty_world).2
  = Raise (JSONDecodeError "Expecting value") ∧
  files (main garbled_env demo_preset empty_world).1
  !! (demo_preset +:+ "/config.json") = Some [Byte.x7b; Byte.x7d].
Proof.
  split; [by vm_compute|].
  destruct (downloaded_files_stay_when_a_later_step_fails garbled_env demo_preset
              "distilbert-base-uncased" empty_world _ _ eq_refl
              (surjective_pairing _))
    as (evs & Ht & Hfiles).
  cbn [trace empty_world app] in Ht.
  destruct Hfiles as (c & v & Hc & _ & Hf & _).
  - rewrite <- Ht. apply (bool_decide_unpack _). by vm_compute.
  - etrans; [exact Hf|]. f_equal. injection Hc as <-. reflexivity.
Defined.

(* ===================================================================== *)
(** ** Assigning once, converting twice *)
(* ===================================================================== *)

Section AgainFacts.
Context {elt : Type}.
Variable hf_wts : list (string * tensor elt).
Implicit Types (w : world elt) (km : keras_model elt) (es : list (entry elt)).

Lemma assigned_targets_sublist es :
  assigned_targets (omap (assign_event hf_wts) es) `sublist_of` target <$> es.
Proof.
  induction es as [|e es IH]; [done|].
  destruct (entry_value hf_wts e) as [v|] eqn:Hv.
  - rewrite (omap_assign_cons _ _ _ _ Hv). rewrite fmap_cons.
    change (assigned_targets (EvAssign (e_layer e) (e_attr e) v
                                :: omap (assign_event hf_wts) es))
      with (target e :: assigned_targets (omap (assign_event hf_wts) es)).
    by apply sublist_skip.
  - replace (omap (assign_event hf_wts) (e :: es))
      with (omap (assign_event hf_wts) es).
    + rewrite fmap_cons. by apply sublist_cons.
    + change (omap (assign_event hf_wts) (e :: es))
        with (match assign_event hf_wts e with
              | Some y => y :: omap (assign_event hf_wts) es
              | None => omap (assign_event hf_wts) es
              end).
      unfold assign_event at 2. by rewrite Hv.
Qed.

(** Setting a variable to the value it has changes nothing. *)
Lemma set_variable_same km layer attr v :
  variable_of km layer attr = Some v → set_variable km layer attr v = km.
Proof.
  unfold variable_of, set_variable. intros H.
  destruct (layers km !! layer) as [l|] eqn:Hl; [|done]. cbn [default].
  destruct km as [n ls]. cbn [num_layers layers] in *. f_equal.
  rewrite (insert_id l) by done. by apply insert_id.
Qed.

Lemma apply_entries_same es km :
  (∀ e v, e ∈ es → entry_value hf_wts e = Some v →
          variable_of km (e_layer e) (e_attr e) = Some v) →
  apply_entries hf_wts es km = km.
Proof.
  induction es as [|e es IH]; intros H; [done|].
  rewrite apply_entries_cons.
  destruct (entry_value hf_wts e) as [v|] eqn:Hv.
  - rewrite set_variable_same by (apply H; [left|done]).
    apply IH. intros e' v' Hin. apply H. by right.
  - apply IH. intros e' v' Hin. apply H. by right.
Qed.
End AgainFacts.

(** X25.  Whatever its outcome, a weight remapping assigns to no
    variable twice: the variables of its assignments, in the order of the
    run, are all different, so that no assignment overwrites an earlier
    one. *)
Theorem no_variable_is_assigned_twice {elt : Type}
    (cfg : list (string * pyval)) (hf_wts : list (string * tensor elt))
    (km : keras_model elt) (w w' : world elt) (r : result (keras_model elt)) :
  copy_weights cfg hf_wts km w = (w', r) →
  ∃ evs, w' = after w evs ∧ NoDup (assigned_targets evs).
Proof.
  rewrite copy_weights_entries. intros H.
  apply run_entries_world in H as (es1 & Hpre & -> & _).
  eexists. split; [done|].
  eapply sublist_NoDup; [|apply assigned_targets_sublist].
  eapply sublist_NoDup; [apply (all_targets_NoDup (elt:=elt) cfg (num_layers km))|].
  destruct Hpre as [k ->]. rewrite fmap_app. by apply sublist_inserts_r.
Qed.

Lemma no_variable_is_assigned_twice_witness :
  ∃ evs,
    (copy_weights demo_cfg misshapen_wts demo_km empty_world).1
    = after empty_world evs ∧
    NoDup (assigned_targets evs).
Proof.
  exact (no_variable_is_assigned_twice demo_cfg misshapen_wts demo_km empty_world
           _ _ (surjective_pairing _)).
Defined.

(** X26.  A weight remapping on a model that a weight remapping from
    the same state dictionary returned goes through again, with as many
    assignments, and returns the model it was given: every variable holds
    the value it is assigned already. *)
Theorem converting_again_changes_nothing {elt : Type}
    (cfg : list (string * pyval)) (hf_wts : list (string * tensor elt))
    (km : keras_model elt) (w w1 : world elt) (km1 : keras_model elt) :
  copy_weights cfg hf_wts km w = (w1, Ok km1) →
  ∀ w2, ∃ evs,
    copy_weights cfg hf_wts km1 w2 = (after w2 evs, Ok km1) ∧
    length evs = (4 + 16 * Z.to_nat (num_layers km))%nat.
Proof.
  intros Hrun w2.
  assert (num_layers km1 = num_layers km) as Hn.
  { pose proof Hrun as H. rewrite copy_weights_entries in H.
    apply run_entries_inv_Ok in H as (_ & _ & ->). apply apply_entries_num_layers. }
  assert (∀ e v, e ∈ all_entries cfg (num_layers km) →
            entry_value hf_wts e = Some v →
            variable_of km1 (e_layer e) (e_attr e) = Some v) as Hval.
  { intros e v He Hv. by apply (row_assigned cfg hf_wts km w w1 km1). }
  assert (Forall (entry_fits hf_wts km1) (all_entries cfg (num_layers km))) as Hfit.
  { pose proof Hrun as H. rewrite copy_weights_entries in H.
    apply run_entries_inv_Ok in H as (Hall & _ & _).
    rewrite Forall_forall in Hall. apply Forall_forall. intros e He.
    destruct (Hall e He) as [v Hv]. exists v. split; [done|].
    by rewrite (Hval e v He Hv). }
  exists (omap (assign_event hf_wts) (all_entries cfg (num_layers km))). split.
  - rewrite copy_weights_entries, Hn, (run_entries_fit hf_wts _ km1 w2 Hfit).
    by rewrite (apply_entries_same hf_wts _ km1 Hval).
  - rewrite (fitting_rows_all_assign hf_wts km1 _ Hfit). apply length_all_entries.
Qed.

Lemma converting_again_changes_nothing_witness :
  ∃ w1 km1 evs,
    copy_weights demo_cfg demo_wts demo_km empty_world = (w1, Ok km1) ∧
    copy_weights demo_cfg demo_wts km1 w1 = (after w1 evs, Ok km1) ∧
    length evs = 36%nat.
Proof.
  pose proof demo_copy_run as Hrun.
  destruct (converting_again_changes_nothing demo_cfg demo_wts demo_km empty_world
              _ _ Hrun
              (after empty_world
                 (omap (assign_event demo_wts)
                    (all_entries demo_cfg (d_n_layers demo_dims)))))
    as (evs & H2 & Hlen).
  eexists _, _, evs. split; [exact Hrun|]. split; [exact H2|exact Hlen].
Defined.
